(** * FindDuplicates: the per-library configuration store (config.py)

    A shallow embedding of [calibre_plugins/find_duplicates/config.py]:
    the accessors [get_library_config], [set_library_config],
    [migrate_library_config_if_required], [get_exemption_lists] and
    [set_exemption_list], over a model of the Python objects they share,
    and the two methods of [ConfigWidget] that act on stored settings,
    [save_settings] and [reset_dialogs].  The other methods of the widget
    build and open dialogs of the host and are not modelled.

    Python dictionaries and lists are mutable objects reached through
    references, and the two preference stores of the host ([plugin_prefs],
    the JSON file, and [db.prefs], the per-library table) hand out the very
    objects they hold.  The model therefore keeps an explicit object heap:
    a value is either atomic or a reference into the heap. *)

From Stdlib Require Import ZArith QArith Qround String.
From stdpp Require Import base option list gmap strings.

Local Open Scope string_scope.
Local Open Scope Z_scope.

(** ** Values and objects *)

Abbreviation loc := positive.

(** A Python value as found in JSON-like preference data.  Integers and
    floats are kept apart as Python does; a float is represented by its exact
    rational value (1.5 is [3 # 2]).  A string is a sequence of characters,
    one [ascii] each.  Dictionaries and lists live in the heap. *)
Inductive pyval :=
  | VNone
  | VBool (b : bool)
  | VInt (z : Z)
  | VFloat (q : Q)
  | VStr (s : string)
  | VRef (l : loc).

(** Dictionary keys are strings, as in a JSON object. *)
Inductive obj :=
  | OList (xs : list pyval)
  | ODict (d : gmap string pyval).

Inductive exn := TypeError | KeyError | AttributeError | IndexError.

Inductive result (A : Type) :=
  | Ok (a : A)
  | Raise (e : exn).
Arguments Ok {A} a.
Arguments Raise {A} e.

(** ** The state the module runs in *)

(** [plugin_prefs] is the module-level [JSONConfig('plugins/Find Duplicates')];
    every assignment or deletion on it commits the file, and [json_commits]
    keeps what was committed (the dictionary with the heap of that moment).
    The remaining fields are the [db] argument: its library uuid, the id set
    behind [db.data.has_id], the dictionary behind [db.prefs], and the rows
    written to the preference table (each is the serialisation of an object,
    kept as the value with the heap of that moment), most recent first. *)
Record state := State {
  heap : gmap loc obj;
  plugin_prefs : gmap string pyval;
  json_commits : list (gmap string pyval * gmap loc obj);
  library_id : string;
  db_data : gset Z;
  db_prefs : gmap string pyval;
  db_writes : list (string * pyval * gmap loc obj)
}.

Definition with_heap (h : gmap loc obj) (s : state) : state :=
  State h (plugin_prefs s) (json_commits s) (library_id s) (db_data s)
        (db_prefs s) (db_writes s).

Definition with_plugin_prefs (p : gmap string pyval) (s : state) : state :=
  State (heap s) p ((p, heap s) :: json_commits s) (library_id s) (db_data s)
        (db_prefs s) (db_writes s).

Definition with_db_prefs (key : string) (v : pyval) (s : state) : state :=
  State (heap s) (plugin_prefs s) (json_commits s) (library_id s) (db_data s)
        (<[key := v]> (db_prefs s)) ((key, v, heap s) :: db_writes s).

(** ** A state and exception monad *)

Definition M (A : Type) : Type := state → result (A * state).

Definition ret {A} (a : A) : M A := λ s, Ok (a, s).

Definition bind {A B} (m : M A) (k : A → M B) : M B :=
  λ s, match m s with
       | Ok (a, s') => k a s'
       | Raise e => Raise e
       end.

Declare Scope py_scope.
Delimit Scope py_scope with py.
Notation "'do' x <- m ; k" := (bind m (λ x, k))
  (at level 10, x name, m at level 100, k at level 200) : py_scope.
Notation "m ;; k" := (bind m (λ _, k))
  (at level 100, k at level 200, right associativity) : py_scope.
Local Open Scope py_scope.

(** Lifting a computation that only reads the heap. *)
Definition read {A} (f : gmap loc obj → result A) : M A :=
  λ s, match f (heap s) with
       | Ok a => Ok (a, s)
       | Raise e => Raise e
       end.

(** ** Python primitives *)

(** Allocation of a new object at an unused address. *)
Definition fresh_loc (h : gmap loc obj) : loc := fresh (dom h).

Definition alloc (o : obj) : M pyval :=
  λ s, let l := fresh_loc (heap s) in
       Ok (VRef l, with_heap (<[l := o]> (heap s)) s).

(** [v == q] for a float [q]: numbers compare by value, a boolean counts as
    0 or 1, anything else differs. *)
Definition py_eq_num (v : pyval) (q : Q) : bool :=
  match v with
  | VInt z => Qeq_bool (inject_Z z) q
  | VFloat q' => Qeq_bool q' q
  | VBool b => Qeq_bool (inject_Z (Z.b2z b)) q
  | _ => false
  end.

Definition py_eq_str (x : string) (v : pyval) : bool :=
  match v with
  | VStr s => String.eqb s x
  | _ => false
  end.

Fixpoint is_substring (x s : string) : bool :=
  String.prefix x s ||
  match s with
  | EmptyString => false
  | String _ s' => is_substring x s'
  end.

(** [x in container] for a string [x]: key membership on a dictionary,
    element search on a list, substring search on a string. *)
Definition py_contains (container : pyval) (x : string)
    (h : gmap loc obj) : result bool :=
  match container with
  | VRef l =>
      match h !! l with
      | Some (ODict d) => Ok (bool_decide (is_Some (d !! x)))
      | Some (OList xs) => Ok (existsb (py_eq_str x) xs)
      | None => Raise TypeError
      end
  | VStr s => Ok (is_substring x s)
  | _ => Raise TypeError
  end.

(** [container[key]] for a string [key]. *)
Definition py_getitem (container : pyval) (key : string)
    (h : gmap loc obj) : result pyval :=
  match container with
  | VRef l =>
      match h !! l with
      | Some (ODict d) =>
          match d !! key with
          | Some v => Ok v
          | None => Raise KeyError
          end
      | _ => Raise TypeError
      end
  | _ => Raise TypeError
  end.

(** [container[key] = v] for a string [key]. *)
Definition py_setitem (container : pyval) (key : string) (v : pyval) : M unit :=
  λ s, match container with
       | VRef l =>
           match heap s !! l with
           | Some (ODict d) =>
               Ok (tt, with_heap (<[l := ODict (<[key := v]> d)]> (heap s)) s)
           | _ => Raise TypeError
           end
       | _ => Raise TypeError
       end.

(** [del container[key]] for a string [key]. *)
Definition py_delitem (container : pyval) (key : string) : M unit :=
  λ s, match container with
       | VRef l =>
           match heap s !! l with
           | Some (ODict d) =>
               match d !! key with
               | Some _ =>
                   Ok (tt, with_heap (<[l := ODict (delete key d)]> (heap s)) s)
               | None => Raise KeyError
               end
           | _ => Raise TypeError
           end
       | _ => Raise TypeError
       end.

(** [container.get(key, default)]: only dictionaries have the method. *)
Definition py_get (container : pyval) (key : string) (dflt : pyval)
    (h : gmap loc obj) : result pyval :=
  match container with
  | VRef l =>
      match h !! l with
      | Some (ODict d) => Ok (default dflt (d !! key))
      | _ => Raise AttributeError
      end
  | _ => Raise AttributeError
  end.

(** [len(x)]. *)
Definition py_len (x : pyval) (h : gmap loc obj) : result nat :=
  match x with
  | VRef l =>
      match h !! l with
      | Some (OList xs) => Ok (length xs)
      | Some (ODict d) => Ok (size d)
      | None => Raise TypeError
      end
  | VStr s => Ok (String.length s)
  | _ => Raise TypeError
  end.

Definition chars (s : string) : list pyval :=
  (λ c, VStr (String c EmptyString)) <$> list_ascii_of_string s.

(** The items a [for] loop over [x] visits: the elements of a list, the keys of
    a dictionary, the characters of a string. *)
Definition py_iter (x : pyval) (h : gmap loc obj) : result (list pyval) :=
  match x with
  | VRef l =>
      match h !! l with
      | Some (OList xs) => Ok xs
      | Some (ODict d) => Ok (VStr <$> (map_to_list d).*1)
      | None => Raise TypeError
      end
  | VStr s => Ok (chars s)
  | _ => Raise TypeError
  end.

(** [container[idx]] for an index [idx >= 0].  A dictionary has string keys
    only, so the lookup of an integer fails on it. *)
Definition py_index (container : pyval) (idx : nat)
    (h : gmap loc obj) : result pyval :=
  match container with
  | VRef l =>
      match h !! l with
      | Some (OList xs) =>
          match xs !! idx with
          | Some v => Ok v
          | None => Raise IndexError
          end
      | Some (ODict _) => Raise KeyError
      | None => Raise TypeError
      end
  | VStr s =>
      match chars s !! idx with
      | Some v => Ok v
      | None => Raise IndexError
      end
  | _ => Raise TypeError
  end.

(** [container[idx] = v] for an index [idx >= 0].  Only reached after
    [container[idx]] was read, which has already failed on a dictionary;
    strings are immutable. *)
Definition py_store (container : pyval) (idx : nat) (v : pyval) : M unit :=
  λ s, match container with
       | VRef l =>
           match heap s !! l with
           | Some (OList xs) =>
               if decide (idx < length xs)%nat
               then Ok (tt, with_heap (<[l := OList (<[idx := v]> xs)]> (heap s)) s)
               else Raise IndexError
           | _ => Raise TypeError
           end
       | _ => Raise TypeError
       end.

(** A list comprehension with a condition: [[x for x in xs if p(x)]]. *)
Fixpoint filterM {A} (p : A → M bool) (xs : list A) : M (list A) :=
  match xs with
  | [] => ret []
  | x :: xs' =>
      do b <- p x;
      do r <- filterM p xs';
      ret (if b then x :: r else r)
  end.

(** ** The host's collaborators *)

(** [db.data.has_id(book_id)]: membership in the library's set of book ids.
    Numbers are looked up by value; a list or dictionary is unhashable. *)
Definition has_id (book_id : pyval) : M bool :=
  λ s, match book_id with
       | VInt z => Ok (bool_decide (z ∈ db_data s), s)
       | VBool b => Ok (bool_decide (Z.b2z b ∈ db_data s), s)
       | VFloat q =>
           Ok (Qeq_bool q (inject_Z (Qfloor q))
               && bool_decide (Qfloor q ∈ db_data s), s)
       | VNone | VStr _ => Ok (false, s)
       | VRef _ => Raise TypeError
       end.

(** [key in plugin_prefs], [plugin_prefs[key]], [del plugin_prefs[key]] and
    [plugin_prefs[key] = v] on the [JSONConfig] dictionary.  Reading a key
    that is absent gives [None]; deleting one changes nothing and commits
    nothing. *)
Definition plugin_prefs_contains (key : string) : M bool :=
  λ s, Ok (bool_decide (is_Some (plugin_prefs s !! key)), s).

Definition plugin_prefs_getitem (key : string) : M pyval :=
  λ s, Ok (default VNone (plugin_prefs s !! key), s).

Definition plugin_prefs_delitem (key : string) : M unit :=
  λ s, match plugin_prefs s !! key with
       | Some _ => Ok (tt, with_plugin_prefs (delete key (plugin_prefs s)) s)
       | None => Ok (tt, s)
       end.

Definition plugin_prefs_setitem (key : string) (v : pyval) : M unit :=
  λ s, Ok (tt, with_plugin_prefs (<[key := v]> (plugin_prefs s)) s).

(** [db.prefs.get_namespaced] and [db.prefs.set_namespaced]: the preference
    dictionary of the library under the key [namespaced:<namespace>:<key>].
    Reading returns the object the dictionary holds, not a copy.  Writing
    binds the key to the object and adds a row to the table; serialising the
    object for that row is taken to succeed. *)
Definition namespaced (namespace key : string) : string :=
  "namespaced:" +:+ namespace +:+ ":" +:+ key.

Definition get_namespaced (namespace key : string) (dflt : pyval) : M pyval :=
  λ s, Ok (default dflt (db_prefs s !! namespaced namespace key), s).

Definition set_namespaced (namespace key : string) (val : pyval) : M unit :=
  λ s, Ok (tt, with_db_prefs (namespaced namespace key) val s).

(** Modelled from the spec: [get_library_uuid] of [common_utils] is not among
    the sources; the claims call its result the library uuid of [db], a
    string the state carries. *)
Definition get_library_uuid : M string :=
  λ s, Ok (library_id s, s).

(** ** config.py *)

Definition PREFS_NAMESPACE := "FindDuplicatesPlugin".
Definition PREFS_KEY_SETTINGS := "settings".

Definition KEY_LAST_LIBRARY_COMPARE := "lastLibraryCompare".
Definition KEY_BOOK_EXEMPTIONS := "bookExemptions".
Definition KEY_AUTHOR_EXEMPTIONS := "authorExemptions".

Definition KEY_SCHEMA_VERSION := "SchemaVersion".
Definition DEFAULT_SCHEMA_VERSION : Q := 3 # 2.

(** [DEFAULT_LIBRARY_VALUES] around its two lists, and
    [copy.deepcopy(DEFAULT_LIBRARY_VALUES)]: a new dictionary with two new empty
    lists. *)
Definition DEFAULT_LIBRARY_VALUES (book author : pyval) : gmap string pyval :=
  <[KEY_LAST_LIBRARY_COMPARE := VStr ""]>
  (<[KEY_BOOK_EXEMPTIONS := book]>
  (<[KEY_AUTHOR_EXEMPTIONS := author]>
  (<[KEY_SCHEMA_VERSION := VFloat DEFAULT_SCHEMA_VERSION]> ∅))).

Definition deepcopy_DEFAULT_LIBRARY_VALUES : M pyval :=
  do book <- alloc (OList []);
  do author <- alloc (OList []);
  alloc (ODict (DEFAULT_LIBRARY_VALUES book author)).

Definition set_library_config (library_config : pyval) : M unit :=
  set_namespaced PREFS_NAMESPACE PREFS_KEY_SETTINGS library_config.

Definition migrate_library_config_if_required (library_config : pyval) : M unit :=
  do schema_version <- read (py_get library_config KEY_SCHEMA_VERSION (VInt 0));
  if py_eq_num schema_version DEFAULT_SCHEMA_VERSION then
    ret tt
  else
    (* We have changes to be made - mark schema as updated *)
    py_setitem library_config KEY_SCHEMA_VERSION (VFloat DEFAULT_SCHEMA_VERSION);;
    set_library_config library_config.

Definition is_None (v : pyval) : bool :=
  match v with VNone => true | _ => false end.

Definition get_library_config : M pyval :=
  do library_id <- get_library_uuid;
  (* library_config = None *)
  do in_prefs <- plugin_prefs_contains "libraries";
  do library_config <-
    (if in_prefs : bool then
       do libraries <- plugin_prefs_getitem "libraries";
       do found <- read (py_contains libraries library_id);
       if found : bool then
         do library_config <- read (py_getitem libraries library_id);
         py_delitem libraries library_id;;
         do n <- read (py_len libraries);
         (if (n =? 0)%nat then plugin_prefs_delitem "libraries"
          else plugin_prefs_setitem "libraries" libraries);;
         ret library_config
       else ret VNone
     else ret VNone);
  do library_config <-
    (if is_None library_config then
       do dflt <- deepcopy_DEFAULT_LIBRARY_VALUES;
       get_namespaced PREFS_NAMESPACE PREFS_KEY_SETTINGS dflt
     else ret library_config);
  migrate_library_config_if_required library_config;;
  ret library_config.

Definition set_exemption_list (config_key : string) (exemptions_list : pyval)
    : M unit :=
  do library_config <- get_library_config;
  py_setitem library_config config_key exemptions_list;;
  set_library_config library_config.

(** One round of the loop over [idx]. *)
Definition prune_at (book_exemptions : pyval) (idx : nat) (is_changed : bool)
    : M bool :=
  do old_list <- read (py_index book_exemptions idx);
  do items <- read (py_iter old_list);
  do kept <- filterM has_id items;
  do new_list <- alloc (OList kept);
  do n <- read (py_len old_list);
  if negb (n =? length kept)%nat then
    py_store book_exemptions idx new_list;;
    ret true
  else ret is_changed.

Fixpoint prune_loop (book_exemptions : pyval) (idxs : list nat)
    (is_changed : bool) : M bool :=
  match idxs with
  | [] => ret is_changed
  | idx :: idxs' =>
      do is_changed <- prune_at book_exemptions idx is_changed;
      prune_loop book_exemptions idxs' is_changed
  end.

Definition nonempty (l : pyval) : M bool :=
  do n <- read (py_len l);
  ret (0 <? n)%nat.

Definition get_exemption_lists : M (pyval * pyval) :=
  do library_config <- get_library_config;
  do has_book <- read (py_contains library_config "bookNotDuplicates");
  (if has_book : bool then
     py_delitem library_config "bookNotDuplicates";;
     do empty <- alloc (OList []);
     set_exemption_list KEY_BOOK_EXEMPTIONS empty
   else ret tt);;
  do has_author <- read (py_contains library_config "authorNotDuplicates");
  (if has_author : bool then
     py_delitem library_config "authorNotDuplicates";;
     do empty <- alloc (OList []);
     set_exemption_list KEY_AUTHOR_EXEMPTIONS empty
   else ret tt);;
  do dflt <- alloc (OList []);
  do book_exemptions <- read (py_get library_config KEY_BOOK_EXEMPTIONS dflt);
  do n <- read (py_len book_exemptions);
  do is_changed <- prune_loop book_exemptions (seq 0 n) false;
  do book_exemptions <-
    (if is_changed : bool then
       do items <- read (py_iter book_exemptions);
       do kept <- filterM nonempty items;
       do book_exemptions <- alloc (OList kept);
       set_exemption_list KEY_BOOK_EXEMPTIONS book_exemptions;;
       ret book_exemptions
     else ret book_exemptions);
  do dflt <- alloc (OList []);
  do author_exemptions <- read (py_get library_config KEY_AUTHOR_EXEMPTIONS dflt);
  ret (book_exemptions, author_exemptions).

(** ** Running the model on concrete stores *)

Definition uuid0 := "1a2b".

Definition settings_key := namespaced PREFS_NAMESPACE PREFS_KEY_SETTINGS.

Definition mk_state (h : list (loc * obj)) (pp : list (string * pyval))
    (ids : list Z) (dp : list (string * pyval)) : state :=
  State (list_to_map h) (list_to_map pp) [] uuid0 (list_to_set ids)
        (list_to_map dp) [].

Definition exec {A} (m : M A) (s : state) : state :=
  match m s with Ok (_, s') => s' | Raise _ => s end.

Definition eval {A} (m : M A) (s : state) : option A :=
  match m s with Ok (a, _) => Some a | Raise _ => None end.

(** A library whose stored record predates the schema version and holds two
    exemption groups, the second with a book (id 9) that is gone. *)
Definition st_stored : state :=
  mk_state [(1%positive, ODict (list_to_map [(KEY_BOOK_EXEMPTIONS, VRef 2);
                                             (KEY_AUTHOR_EXEMPTIONS, VRef 5)]));
            (2%positive, OList [VRef 3; VRef 4]);
            (3%positive, OList [VInt 1; VInt 2]);
            (4%positive, OList [VInt 1; VInt 9]);
            (5%positive, OList [])]
           [] [1; 2] [(settings_key, VRef 1)].

(** The test of lines 76 to 78: is there a legacy record for this library in
    the JSON file? *)
Definition legacy_entry (s : state) : result bool :=
  match plugin_prefs s !! "libraries" with
  | Some libraries => py_contains libraries (library_id s) (heap s)
  | None => Ok false
  end.

(** A library with nothing stored anywhere. *)
Definition st_empty : state := mk_state [] [] [1; 2] [].

(** A library whose record still sits in the JSON file, already carrying
    schema version 1.5. *)
Definition st_legacy_current : state :=
  mk_state [(1%positive, ODict (list_to_map [(uuid0, VRef 2)]));
            (2%positive, ODict (list_to_map
               [(KEY_SCHEMA_VERSION, VFloat DEFAULT_SCHEMA_VERSION);
                (KEY_BOOK_EXEMPTIONS, VRef 3);
                (KEY_AUTHOR_EXEMPTIONS, VRef 5)]));
            (3%positive, OList [VRef 4]);
            (4%positive, OList [VInt 1; VInt 2]);
            (5%positive, OList [])]
           [("libraries", VRef 1)] [1; 2] [].

(** ** Specifications of computations

    [wp m s Q]: run from [s], [m] returns normally with a result and a state
    that satisfy [Q]. *)
Definition wp {A} (m : M A) (s : state) (Q : A → state → Prop) : Prop :=
  match m s with
  | Ok (a, s') => Q a s'
  | Raise _ => False
  end.

Global Instance Q_eq_dec : EqDecision Q.
Proof. solve_decision. Defined.

Global Instance pyval_eq_dec : EqDecision pyval.
Proof. solve_decision. Defined.

(** The JSON file is a tree: the dictionary under 'libraries' is not itself
    used as a library record, neither as the entry of this library nor as the
    record the per-library store holds. *)
Definition libraries_apart (s : state) : bool :=
  match plugin_prefs s !! "libraries" with
  | Some (VRef l) =>
      negb (bool_decide (db_prefs s !! settings_key = Some (VRef l))) &&
      match heap s !! l with
      | Some (ODict d) =>
          negb (bool_decide (d !! library_id s = Some (VRef l)))
      | _ => true
      end
  | _ => true
  end.

(** A library whose record still sits in the JSON file, next to the record
    of another library, and predates the schema version. *)
Definition st_legacy_old : state :=
  mk_state [(1%positive, ODict (list_to_map [(uuid0, VRef 2);
                                             ("ffff", VRef 6)]));
            (2%positive, ODict (list_to_map
               [(KEY_BOOK_EXEMPTIONS, VRef 3);
                (KEY_AUTHOR_EXEMPTIONS, VRef 5)]));
            (3%positive, OList [VRef 4]);
            (4%positive, OList [VInt 1; VInt 2]);
            (5%positive, OList []);
            (6%positive, ODict ∅)]
           [("libraries", VRef 1)] [1; 2] [].

(** Lines 89 to 93 of [get_library_config], from the record [library_config]
    that lines 74 to 87 have found in the JSON file, or [None]. *)
Definition get_library_config_tail (library_config : pyval) : M pyval :=
  do library_config <-
    (if is_None library_config then
       do dflt <- deepcopy_DEFAULT_LIBRARY_VALUES;
       get_namespaced PREFS_NAMESPACE PREFS_KEY_SETTINGS dflt
     else ret library_config);
  migrate_library_config_if_required library_config;;
  ret library_config.

(** The state after lines 80 to 87: the entry of the library is deleted from
    the dictionary [d] at [ll] that 'libraries' names, and the JSON file is
    committed without 'libraries' when that was its last entry. *)
Definition legacy_removed (ll : loc) (d : gmap string pyval) (s : state)
    : state :=
  let s0 := with_heap (<[ll := ODict (delete (library_id s) d)]> (heap s)) s in
  if (size (delete (library_id s) d) =? 0)%nat
  then with_plugin_prefs (delete "libraries" (plugin_prefs s)) s0
  else with_plugin_prefs (<["libraries" := VRef ll]> (plugin_prefs s)) s0.

(** The answer of [has_id] on a value it accepts: is the value one of the
    book ids [data] of the library? *)
Definition known (data : gset Z) (v : pyval) : bool :=
  match v with
  | VInt z => bool_decide (z ∈ data)
  | VBool b => bool_decide (Z.b2z b ∈ data)
  | VFloat q =>
      Qeq_bool q (inject_Z (Qfloor q)) && bool_decide (Qfloor q ∈ data)
  | _ => false
  end.

(** [pruned data h x]: a loop over [x] visits book ids of the library only. *)
Definition pruned (data : gset Z) (h : gmap loc obj) (x : pyval) : Prop :=
  ∃ ys, py_iter x h = Ok ys ∧ Forall (λ y, known data y = true) ys.

(** List objects are kept as they are from heap [h] to heap [h']. *)
Definition lists_kept (h h' : gmap loc obj) : Prop :=
  ∀ l ys, h !! l = Some (OList ys) → h' !! l = Some (OList ys).

(** Lines 102 to 107 and lines 109 to 119 of [get_exemption_lists], named to
    state what each does; [get_exemption_lists_eq] below shows the function is
    their sequence. *)
Definition discard_legacy_maps (library_config : pyval) : M unit :=
  do has_book <- read (py_contains library_config "bookNotDuplicates");
  (if has_book : bool then
     py_delitem library_config "bookNotDuplicates";;
     do empty <- alloc (OList []);
     set_exemption_list KEY_BOOK_EXEMPTIONS empty
   else ret tt);;
  do has_author <- read (py_contains library_config "authorNotDuplicates");
  (if has_author : bool then
     py_delitem library_config "authorNotDuplicates";;
     do empty <- alloc (OList []);
     set_exemption_list KEY_AUTHOR_EXEMPTIONS empty
   else ret tt).

Definition prune_book_exemptions (library_config : pyval) : M pyval :=
  do dflt <- alloc (OList []);
  do book_exemptions <- read (py_get library_config KEY_BOOK_EXEMPTIONS dflt);
  do n <- read (py_len book_exemptions);
  do is_changed <- prune_loop book_exemptions (seq 0 n) false;
  (if is_changed : bool then
     do items <- read (py_iter book_exemptions);
     do kept <- filterM nonempty items;
     do book_exemptions <- alloc (OList kept);
     set_exemption_list KEY_BOOK_EXEMPTIONS book_exemptions;;
     ret book_exemptions
   else ret book_exemptions).

(** [settled s l]: the record of the library is the dictionary at [l], held
    by the per-library store and carrying the current schema version; the
    JSON file has no record for the library and its 'libraries' dictionary is
    another object. *)
Definition settled (s : state) (l : loc) : Prop :=
  legacy_entry s = Ok false ∧
  plugin_prefs s !! "libraries" ≠ Some (VRef l) ∧
  db_prefs s !! settings_key = Some (VRef l) ∧
  ∃ d v, heap s !! l = Some (ODict d) ∧
    d !! KEY_SCHEMA_VERSION = Some v ∧
    py_eq_num v DEFAULT_SCHEMA_VERSION = true.

(** [frame_but l s s']: from [s] to [s'] the JSON file, the library and every
    object but the one at [l] are kept. *)
Definition frame_but (l : loc) (s s' : state) : Prop :=
  plugin_prefs s' = plugin_prefs s ∧ json_commits s' = json_commits s ∧
  library_id s' = library_id s ∧ db_data s' = db_data s ∧
  db_prefs s' !! settings_key = db_prefs s !! settings_key ∧
  ∀ l' o, l' ≠ l → heap s !! l' = Some o → heap s' !! l' = Some o.

(** One of the two blocks of lines 102 to 107: the legacy map under [k_old]
    is deleted and an empty list saved under [k_new]. *)
Definition discard_one (k_old k_new : string) (library_config : pyval)
    : M unit :=
  do has_old <- read (py_contains library_config k_old);
  if has_old : bool then
    py_delitem library_config k_old;;
    do empty <- alloc (OList []);
    set_exemption_list k_new empty
  else ret tt.

(** A library whose stored record is from version 1.0: it still has the map
    'bookNotDuplicates', next to a group of exempt books. *)
Definition st_v10 : state :=
  mk_state [(1%positive, ODict (list_to_map [("bookNotDuplicates", VRef 2);
                                             (KEY_BOOK_EXEMPTIONS, VRef 3);
                                             (KEY_AUTHOR_EXEMPTIONS, VRef 5)]));
            (2%positive, ODict ∅);
            (3%positive, OList [VRef 4]);
            (4%positive, OList [VInt 1; VInt 2]);
            (5%positive, OList [])]
           [] [1; 2] [(settings_key, VRef 1)].

(** The same library with, in addition, a legacy record in the JSON file. *)
Definition st_v10_legacy : state :=
  mk_state [(1%positive, ODict (list_to_map [("bookNotDuplicates", VRef 2);
                                             (KEY_BOOK_EXEMPTIONS, VRef 3);
                                             (KEY_AUTHOR_EXEMPTIONS, VRef 5)]));
            (2%positive, ODict ∅);
            (3%positive, OList [VRef 4]);
            (4%positive, OList [VInt 1; VInt 2]);
            (5%positive, OList []);
            (6%positive, ODict (list_to_map [(uuid0, VRef 7)]));
            (7%positive, ODict (list_to_map [(KEY_BOOK_EXEMPTIONS, VRef 8);
                                             (KEY_AUTHOR_EXEMPTIONS, VRef 5)]));
            (8%positive, OList [VRef 4])]
           [("libraries", VRef 6)] [1; 2] [(settings_key, VRef 1)].

(** A library whose stored record is from version 1.0 on the authors' side:
    the map 'authorNotDuplicates' next to a group of exempt authors. *)
Definition st_v10_author : state :=
  mk_state [(1%positive, ODict (list_to_map
               [("authorNotDuplicates", VRef 2);
                (KEY_BOOK_EXEMPTIONS, VRef 3);
                (KEY_AUTHOR_EXEMPTIONS, VRef 5);
                (KEY_SCHEMA_VERSION, VFloat DEFAULT_SCHEMA_VERSION)]));
            (2%positive, ODict ∅);
            (3%positive, OList [VRef 4]);
            (4%positive, OList [VInt 1; VInt 2]);
            (5%positive, OList [VRef 6]);
            (6%positive, OList [VStr "Ann"; VStr "Bob"])]
           [] [1; 2] [(settings_key, VRef 1)].

(** What the loop over the groups of [B] may do to the state: only the heap
    changes; dictionaries and the objects other than [B] are kept; a list
    stays a list whose elements are old ones or references. *)
Definition loop_frame (B : pyval) (s s' : state) : Prop :=
  s' = with_heap (heap s') s ∧
  (∀ l d, heap s !! l = Some (ODict d) → heap s' !! l = Some (ODict d)) ∧
  (∀ l o, heap s !! l = Some o → B ≠ VRef l → heap s' !! l = Some o) ∧
  (∀ l xs, heap s !! l = Some (OList xs) →
     ∃ xs', heap s' !! l = Some (OList xs') ∧ length xs' = length xs ∧
       ∀ v, v ∈ xs' → v ∈ xs ∨ ∃ l', v = VRef l').

(** [saved_empty k_old k_new l le row]: [row] is a row of the preference
    table in which the record at [l] has no legacy map [k_old] and has, under
    [k_new], the empty list at [le]. *)
Definition saved_empty (k_old k_new : string) (l le : loc)
    (row : string * pyval * gmap loc obj) : Prop :=
  ∃ h dw, row = (settings_key, VRef l, h) ∧
    h !! l = Some (ODict dw) ∧
    dw !! k_new = Some (VRef le) ∧ dw !! k_old = None ∧
    h !! le = Some (OList []).

(** [id_list data h x]: [x] is a list of book ids of the library. *)
Definition id_list (data : gset Z) (h : gmap loc obj) (x : pyval) : Prop :=
  ∃ lx ys, x = VRef lx ∧ h !! lx = Some (OList ys) ∧
    Forall (λ y, known data y = true) ys.

(** A library with a current record: two groups of exempt books, one of them
    empty, none with a stale id, and one group of exempt authors. *)
Definition st_clean : state :=
  mk_state [(1%positive, ODict (list_to_map
               [(KEY_BOOK_EXEMPTIONS, VRef 2);
                (KEY_AUTHOR_EXEMPTIONS, VRef 5);
                (KEY_SCHEMA_VERSION, VFloat DEFAULT_SCHEMA_VERSION)]));
            (2%positive, OList [VRef 3; VRef 4]);
            (3%positive, OList [VInt 1; VInt 2]);
            (4%positive, OList []);
            (5%positive, OList [VRef 6]);
            (6%positive, OList [VStr "Ann"; VStr "Bob"])]
           [] [1; 2] [(settings_key, VRef 1)].

(** ** The configuration widget *)

(** [ConfigWidget.save_settings] (lines 156 to 159). *)
Definition save_settings : M unit :=
  (* Delete the legacy keyboard setting options as no longer required *)
  do has_options <- plugin_prefs_contains "options";
  if has_options : bool then plugin_prefs_delitem "options" else ret tt.

(** [dynamic] of [calibre.gui2], the host's dictionary of dialog flags: a
    dictionary whose every assignment commits its file.  [dynamic_commits]
    keeps what was committed, most recent first. *)
Record dynamic_config := DynamicConfig {
  dynamic : gmap string pyval;
  dynamic_commits : list (gmap string pyval)
}.

(** [dynamic[key]]: a key that is absent reads as [None]. *)
Definition dynamic_getitem (key : string) (c : dynamic_config) : pyval :=
  default VNone (dynamic c !! key).

(** [dynamic[key] = v]. *)
Definition dynamic_setitem (key : string) (v : pyval) (c : dynamic_config)
    : dynamic_config :=
  DynamicConfig (<[key := v]> (dynamic c))
                (<[key := v]> (dynamic c) :: dynamic_commits c).

(** [s.startswith(prefix)] and [s.endswith(suffix)]. *)
Definition startswith (s prefix : string) : bool := String.prefix prefix s.

Fixpoint endswith (s suffix : string) : bool :=
  String.eqb s suffix ||
  match s with
  | EmptyString => false
  | String _ s' => endswith s' suffix
  end.

(** [v is False]: only the boolean is; 0 is not. *)
Definition is_False (v : pyval) : bool :=
  match v with VBool false => true | _ => false end.

(** One round of the loop of [ConfigWidget.reset_dialogs] (lines 162 to
    165). *)
Definition reset_dialog (c : dynamic_config) (key : string) : dynamic_config :=
  if startswith key "find_duplicates_" && endswith key "_again"
     && is_False (dynamic_getitem key c)
  then dynamic_setitem key (VBool true) c
  else c.

(** [ConfigWidget.reset_dialogs] (lines 161 to 167), on the dictionary
    [dynamic]: the loop runs over the keys the dictionary has when it starts.
    The dialog that ends the method shows a message and changes nothing. *)
Definition reset_dialogs (c : dynamic_config) : dynamic_config :=
  foldl reset_dialog c (map_to_list (dynamic c)).*1.

(** The keys [reset_dialogs] looks for. *)
Definition is_dialog_flag (key : string) : bool :=
  startswith key "find_duplicates_" && endswith key "_again".

(** ** Exemption groups read as data *)

(** A value that is not a list or a dictionary. *)
Definition atom (v : pyval) : bool :=
  match v with VRef _ => false | _ => true end.

(** The items of the group [x]: [x] is a list object whose elements are
    atoms, as the ids of a group of books are. *)
Definition group_items (h : gmap loc obj) (x : pyval) : option (list pyval) :=
  match x with
  | VRef lx =>
      match h !! lx with
      | Some (OList ys) => if forallb atom ys then Some ys else None
      | _ => None
      end
  | _ => None
  end.

(** The groups of the exemption list [b], a list object whose elements are
    groups, in their order. *)
Definition groups_of (h : gmap loc obj) (b : pyval)
    : option (list (list pyval)) :=
  match b with
  | VRef lb =>
      match h !! lb with
      | Some (OList xs) => mapM (group_items h) xs
      | _ => None
      end
  | _ => None
  end.

(** Lines 111 to 119 of [get_exemption_lists] on the groups as data.  A
    group is stale when the ids that [db.data.has_id] knows are fewer than
    its ids (line 114); if one group is stale every group is cut down to the
    ids the library knows and the groups left empty are dropped (line 118);
    otherwise the groups stay as they are, empty ones included. *)
Definition stale (data : gset Z) (g : list pyval) : bool :=
  negb (length g =? length (List.filter (known data) g))%nat.

Definition pruned_groups (data : gset Z) (gs : list (list pyval))
    : list (list pyval) :=
  if existsb (stale data) gs
  then List.filter (λ g, (0 <? length g)%nat)
                   (List.filter (known data) <$> gs)
  else gs.

(** ** The footprint of the module *)

(** [footprint s s']: from [s] to [s'] the library is the same, the
    per-library store differs at most under the settings key of the plugin,
    the JSON file at most under 'libraries', and every row added to the
    preference table is a row of that settings key. *)
Definition footprint (s s' : state) : Prop :=
  library_id s' = library_id s ∧ db_data s' = db_data s ∧
  (∀ k, k ≠ settings_key → db_prefs s' !! k = db_prefs s !! k) ∧
  (∀ k, k ≠ "libraries" → plugin_prefs s' !! k = plugin_prefs s !! k) ∧
  ∃ rows, db_writes s' = (rows ++ db_writes s)%list ∧
    Forall (λ row, row.1.1 = settings_key) rows.

(** [within_footprint m]: whenever [m] returns, it has stayed within the
    footprint. *)
Definition within_footprint {A} (m : M A) : Prop :=
  ∀ s a s', m s = Ok (a, s') → footprint s s'.

(** A library whose stored record is current but has no exemption keys. *)
Definition st_bare : state :=
  mk_state [(1%positive, ODict (list_to_map
               [(KEY_LAST_LIBRARY_COMPARE, VStr "");
                (KEY_SCHEMA_VERSION, VFloat DEFAULT_SCHEMA_VERSION)]))]
           [] [1; 2] [(settings_key, VRef 1)].

(** A value that has no length and cannot be iterated: [None], a boolean, a
    number. *)
Definition scalar (v : pyval) : bool :=
  match v with
  | VNone | VBool _ | VInt _ | VFloat _ => true
  | VStr _ | VRef _ => false
  end.

(** A library whose list of book exemptions holds, after a group, a null. *)
Definition st_null_group : state :=
  mk_state [(1%positive, ODict (list_to_map
               [(KEY_BOOK_EXEMPTIONS, VRef 2);
                (KEY_AUTHOR_EXEMPTIONS, VRef 4);
                (KEY_SCHEMA_VERSION, VFloat DEFAULT_SCHEMA_VERSION)]));
            (2%positive, OList [VRef 3; VNone]);
            (3%positive, OList [VInt 1; VInt 9]);
            (4%positive, OList [])]
           [] [1; 2] [(settings_key, VRef 1)].

(** * Properties *)

(** ** Reasoning about the monad *)

Lemma bind_Ok {A B} (m : M A) (k : A → M B) s r :
  bind m k s = Ok r → ∃ a s1, m s = Ok (a, s1) ∧ k a s1 = Ok r.
Proof.
  unfold bind. destruct (m s) as [[a s1]|e]; [|discriminate].
  intros H. by exists a, s1.
Qed.

Lemma bind_run {A B} (m : M A) (k : A → M B) s a s1 :
  m s = Ok (a, s1) → bind m k s = k a s1.
Proof. unfold bind. by intros ->. Qed.

Lemma read_Ok {A} (f : gmap loc obj → result A) s a s' :
  read f s = Ok (a, s') → f (heap s) = Ok a ∧ s' = s.
Proof. unfold read. destruct (f (heap s)); naive_solver. Qed.

Lemma read_run {A} (f : gmap loc obj → result A) s a :
  f (heap s) = Ok a → read f s = Ok (a, s).
Proof. unfold read. by intros ->. Qed.

Lemma ret_Ok {A} (a a' : A) s s' : ret a s = Ok (a', s') → a' = a ∧ s' = s.
Proof. unfold ret. naive_solver. Qed.

Lemma fresh_loc_None (h : gmap loc obj) : h !! fresh_loc h = None.
Proof. unfold fresh_loc. apply (not_elem_of_dom (D := gset loc)), is_fresh. Qed.

Lemma alloc_Ok o s v s' :
  alloc o s = Ok (v, s') →
  v = VRef (fresh_loc (heap s)) ∧
  s' = with_heap (<[fresh_loc (heap s) := o]> (heap s)) s.
Proof. unfold alloc. naive_solver. Qed.

Lemma alloc_grows o s : heap s ⊆ <[fresh_loc (heap s) := o]> (heap s).
Proof. apply insert_subseteq, fresh_loc_None. Qed.

Lemma with_heap_id s : with_heap (heap s) s = s.
Proof. by destruct s. Qed.


(** ** The schema migration *)

Lemma py_eq_num_default (o : option pyval) :
  py_eq_num (default (VInt 0) o) DEFAULT_SCHEMA_VERSION = true →
  ∃ v, o = Some v ∧ py_eq_num v DEFAULT_SCHEMA_VERSION = true.
Proof. destruct o as [v|]; [eauto | discriminate]. Qed.

(** What a successful call of the migration has done: nothing when the schema
    version is current, otherwise it has stamped the record and saved it. *)
Lemma migrate_Ok lc s u s' :
  migrate_library_config_if_required lc s = Ok (u, s') →
  ∃ l d, lc = VRef l ∧ heap s !! l = Some (ODict d) ∧
    ((py_eq_num (default (VInt 0) (d !! KEY_SCHEMA_VERSION))
        DEFAULT_SCHEMA_VERSION = true ∧ s' = s) ∨
     (py_eq_num (default (VInt 0) (d !! KEY_SCHEMA_VERSION))
        DEFAULT_SCHEMA_VERSION = false ∧
      s' = with_db_prefs (namespaced PREFS_NAMESPACE PREFS_KEY_SETTINGS) lc
             (with_heap
                (<[l := ODict (<[KEY_SCHEMA_VERSION :=
                                   VFloat DEFAULT_SCHEMA_VERSION]> d)]> (heap s))
                s))).
Proof.
  unfold migrate_library_config_if_required. intros H.
  apply bind_Ok in H as (v & s1 & Hget & H).
  apply read_Ok in Hget as [Hget ->].
  unfold py_get in Hget.
  destruct lc as [| | | | |l]; try discriminate.
  destruct (heap s !! l) as [[xs|d]|] eqn:Hl; try discriminate.
  injection Hget as <-. exists l, d. split; [done|]. split; [done|].
  destruct (py_eq_num _ _) eqn:Hv.
  - left. apply ret_Ok in H as [_ ->]. done.
  - right. split; [done|].
    apply bind_Ok in H as ([] & s2 & Hset & H).
    unfold py_setitem in Hset. rewrite Hl in Hset. injection Hset as <-.
    unfold set_library_config, set_namespaced in H. by injection H as <-.
Qed.

Lemma migrate_current lc l d v s :
  lc = VRef l → heap s !! l = Some (ODict d) →
  d !! KEY_SCHEMA_VERSION = Some v →
  py_eq_num v DEFAULT_SCHEMA_VERSION = true →
  migrate_library_config_if_required lc s = Ok (tt, s).
Proof.
  intros -> Hl Hd Hv. unfold migrate_library_config_if_required.
  rewrite (bind_run _ _ s v s).
  - by rewrite Hv.
  - apply read_run. unfold py_get. by rewrite Hl, Hd.
Qed.


Lemma eval_exec {A} (m : M A) s a :
  eval m s = Some a → m s = Ok (a, exec m s).
Proof. unfold eval, exec. destruct (m s) as [[a' s']|]; naive_solver. Qed.

(** C4: when the record's 'SchemaVersion' entry equals 1.5,
    [migrate_library_config_if_required] returns without touching anything:
    the whole state, and so the record and the per-library store with the log
    of its writes, is the one it started from. *)
Theorem migrate_noop_when_current (s : state) (l : loc)
    (d : gmap string pyval) (v : pyval) :
  heap s !! l = Some (ODict d) →
  d !! KEY_SCHEMA_VERSION = Some v →
  py_eq_num v DEFAULT_SCHEMA_VERSION = true →
  migrate_library_config_if_required (VRef l) s = Ok (tt, s).
Proof.
  intros Hl Hd Hv. unfold migrate_library_config_if_required, bind, read.
  (* schema_version = library_config.get(KEY_SCHEMA_VERSION, 0) *)
  simpl. rewrite Hl, Hd. simpl.
  (* schema_version == DEFAULT_SCHEMA_VERSION: return *)
  rewrite Hv. reflexivity.
Qed.

Lemma migrate_noop_when_current_witness :
  migrate_library_config_if_required (VRef 1)
    (exec get_library_config st_stored)
  = Ok (tt, exec get_library_config st_stored).
Proof.
  apply (migrate_noop_when_current _ 1
           (list_to_map [(KEY_BOOK_EXEMPTIONS, VRef 2);
                         (KEY_AUTHOR_EXEMPTIONS, VRef 5);
                         (KEY_SCHEMA_VERSION, VFloat DEFAULT_SCHEMA_VERSION)])
           (VFloat DEFAULT_SCHEMA_VERSION)).
  - vm_compute. reflexivity.
  - vm_compute. reflexivity.
  - vm_compute. reflexivity.
Defined.


(** C8: the record [get_library_config] returns is a dictionary whose
    'SchemaVersion' entry equals 1.5, whatever version the stored or legacy
    record carried. *)
Theorem schema_version_invariant (s s' : state) (r : pyval) :
  get_library_config s = Ok (r, s') →
  ∃ l d v, r = VRef l ∧ heap s' !! l = Some (ODict d) ∧
    d !! KEY_SCHEMA_VERSION = Some v ∧
    py_eq_num v DEFAULT_SCHEMA_VERSION = true.
Proof.
  unfold get_library_config. intros H.
  apply bind_Ok in H as (uuid & s1 & _ & H).
  apply bind_Ok in H as (in_prefs & s2 & _ & H).
  apply bind_Ok in H as (legacy & s3 & _ & H).
  apply bind_Ok in H as (library_config & s4 & _ & H).
  apply bind_Ok in H as ([] & s5 & Hm & H).
  apply ret_Ok in H as [-> ->].
  apply migrate_Ok in Hm as (l & d & -> & Hl & [[Hv ->]|[Hv ->]]).
  - (* the version was current: the entry is there and equals 1.5 *)
    destruct (d !! KEY_SCHEMA_VERSION) as [v|] eqn:Hd; [|discriminate].
    by exists l, d, v.
  - (* the record was stamped with 1.5 *)
    exists l, (<[KEY_SCHEMA_VERSION := VFloat DEFAULT_SCHEMA_VERSION]> d),
      (VFloat DEFAULT_SCHEMA_VERSION).
    split; [done|]. simpl. rewrite !lookup_insert_eq. done.
Qed.

Lemma schema_version_invariant_witness :
  ∃ l d v, VRef 1 = VRef l ∧
    heap (exec get_library_config st_stored) !! l = Some (ODict d) ∧
    d !! KEY_SCHEMA_VERSION = Some v ∧
    py_eq_num v DEFAULT_SCHEMA_VERSION = true.
Proof.
  apply (schema_version_invariant st_stored).
  apply eval_exec. vm_compute. reflexivity.
Defined.

Lemma DEFAULT_lookup_version b a :
  DEFAULT_LIBRARY_VALUES b a !! KEY_SCHEMA_VERSION
  = Some (VFloat DEFAULT_SCHEMA_VERSION).
Proof. reflexivity. Qed.

Lemma DEFAULT_lookup_book b a :
  DEFAULT_LIBRARY_VALUES b a !! KEY_BOOK_EXEMPTIONS = Some b.
Proof. reflexivity. Qed.

Lemma DEFAULT_lookup_author b a :
  DEFAULT_LIBRARY_VALUES b a !! KEY_AUTHOR_EXEMPTIONS = Some a.
Proof. reflexivity. Qed.

Lemma DEFAULT_lookup_bookNot b a :
  DEFAULT_LIBRARY_VALUES b a !! "bookNotDuplicates" = None.
Proof. reflexivity. Qed.

Lemma DEFAULT_lookup_authorNot b a :
  DEFAULT_LIBRARY_VALUES b a !! "authorNotDuplicates" = None.
Proof. reflexivity. Qed.

Lemma deepcopy_Ok s :
  ∃ lb la l h', deepcopy_DEFAULT_LIBRARY_VALUES s = Ok (VRef l, with_heap h' s) ∧
    heap s ⊆ h' ∧
    h' !! l = Some (ODict (DEFAULT_LIBRARY_VALUES (VRef lb) (VRef la))) ∧
    h' !! lb = Some (OList []) ∧ h' !! la = Some (OList []) ∧
    heap s !! l = None ∧ heap s !! lb = None ∧ heap s !! la = None.
Proof.
  unfold deepcopy_DEFAULT_LIBRARY_VALUES, bind, alloc. simpl.
  set (h := heap s).
  set (l1 := fresh_loc h). set (h1 := <[l1 := OList []]> h).
  set (l2 := fresh_loc h1). set (h2 := <[l2 := OList []]> h1).
  set (l3 := fresh_loc h2).
  pose proof (fresh_loc_None h) as F1.
  pose proof (fresh_loc_None h1) as F2.
  pose proof (fresh_loc_None h2) as F3.
  fold l1 in F1. fold l2 in F2. fold l3 in F3.
  assert (l2 ≠ l1) as N21.
  { intros E. rewrite E in F2. subst h1. by rewrite lookup_insert_eq in F2. }
  assert (l3 ≠ l2) as N32.
  { intros E. rewrite E in F3. subst h2. by rewrite lookup_insert_eq in F3. }
  assert (h1 !! l3 = None) as F31.
  { subst h2. by rewrite lookup_insert_ne in F3. }
  assert (l3 ≠ l1) as N31.
  { intros E. rewrite E in F31. subst h1. by rewrite lookup_insert_eq in F31. }
  exists l1, l2, l3, (<[l3 := ODict (DEFAULT_LIBRARY_VALUES (VRef l1) (VRef l2))]> h2).
  split; [done|]. split.
  { etrans; [apply (insert_subseteq h l1 (OList [])); done|].
    etrans; [apply (insert_subseteq h1 l2 (OList [])); done|].
    by apply insert_subseteq. }
  split; [by rewrite lookup_insert_eq|].
  split.
  { rewrite lookup_insert_ne by done. subst h2. rewrite lookup_insert_ne by done.
    subst h1. by rewrite lookup_insert_eq. }
  split.
  { rewrite lookup_insert_ne by done. subst h2. by rewrite lookup_insert_eq. }
  split; [|split; [done|]].
  - subst h1. by rewrite lookup_insert_ne in F31.
  - subst h1. by rewrite lookup_insert_ne in F2.
Qed.

Lemma get_library_config_no_legacy s :
  legacy_entry s = Ok false →
  get_library_config s =
  (do dflt <- deepcopy_DEFAULT_LIBRARY_VALUES;
   do library_config <- get_namespaced PREFS_NAMESPACE PREFS_KEY_SETTINGS dflt;
   migrate_library_config_if_required library_config;;
   ret library_config) s.
Proof.
  unfold legacy_entry, get_library_config. intros H.
  unfold bind at 1. unfold get_library_uuid.
  unfold bind at 1. unfold plugin_prefs_contains.
  destruct (plugin_prefs s !! "libraries") as [libs|] eqn:Hp.
  - rewrite bool_decide_eq_true_2 by eauto.
    unfold bind at 1. unfold bind at 1. unfold plugin_prefs_getitem.
    rewrite Hp. simpl. unfold bind at 1. unfold read. rewrite H. done.
  - rewrite bool_decide_eq_false_2 by (by intros [? ?]). done.
Qed.

(** Without a legacy record the configuration is the stored object, or a new
    copy of the defaults, after the schema migration.  The copy of the
    defaults is made in either case. *)
Lemma get_library_config_no_legacy_eq s :
  legacy_entry s = Ok false →
  ∃ lb la l h',
    heap s ⊆ h' ∧
    h' !! l = Some (ODict (DEFAULT_LIBRARY_VALUES (VRef lb) (VRef la))) ∧
    h' !! lb = Some (OList []) ∧ h' !! la = Some (OList []) ∧
    heap s !! l = None ∧ heap s !! lb = None ∧ heap s !! la = None ∧
    get_library_config s =
    (migrate_library_config_if_required
       (default (VRef l) (db_prefs s !! settings_key));;
     ret (default (VRef l) (db_prefs s !! settings_key))) (with_heap h' s).
Proof.
  intros H. rewrite (get_library_config_no_legacy s H).
  destruct (deepcopy_Ok s) as (lb & la & l & h' & Hd & F).
  exists lb, la, l, h'. destruct F as (? & ? & ? & ? & ? & ? & ?).
  repeat (split; [done|]).
  rewrite (bind_run _ _ _ _ _ Hd). done.
Qed.

(** *** Rules *)

Lemma wp_Ok {A} (m : M A) s Q :
  wp m s Q ↔ ∃ a s', m s = Ok (a, s') ∧ Q a s'.
Proof.
  unfold wp. destruct (m s) as [[a s']|e].
  - split; [eauto|]. by intros (? & ? & [= <- <-] & ?).
  - split; [done|]. by intros (? & ? & ? & ?).
Qed.





Lemma wp_bind {A B} (m : M A) (k : A → M B) s Q :
  wp m s (λ a s1, wp (k a) s1 Q) → wp (bind m k) s Q.
Proof. unfold wp, bind. by destruct (m s) as [[? ?]|]. Qed.


Lemma wp_ret {A} (a : A) s (Q : A → state → Prop) : Q a s → wp (ret a) s Q.
Proof. done. Qed.


Lemma wp_read {A} (f : gmap loc obj → result A) s a (Q : A → state → Prop) :
  f (heap s) = Ok a → Q a s → wp (read f) s Q.
Proof. unfold wp, read. by intros ->. Qed.


Lemma wp_alloc o s (Q : pyval → state → Prop) :
  (∀ l, heap s !! l = None →
        Q (VRef l) (with_heap (<[l := o]> (heap s)) s)) →
  wp (alloc o) s Q.
Proof. intros H. apply H, fresh_loc_None. Qed.


(** C6: a library with no stored record and no legacy record gets the
    default record from [get_library_config], which returns without raising
    and leaves both stores alone: a new dictionary with the four entries
    {lastLibraryCompare: '', bookExemptions: [], authorExemptions: [],
     SchemaVersion: 1.5} and no other; and [get_exemption_lists] returns two
    empty lists. *)
Theorem default_on_first_access (s : state) :
  legacy_entry s = Ok false →
  db_prefs s !! settings_key = None →
  (∃ l lb la s',
     get_library_config s = Ok (VRef l, s') ∧
     heap s !! l = None ∧
     heap s' !! l
       = Some (ODict (list_to_map [("lastLibraryCompare", VStr "");
                                   ("bookExemptions", VRef lb);
                                   ("authorExemptions", VRef la);
                                   ("SchemaVersion", VFloat (3 # 2))])) ∧
     heap s' !! lb = Some (OList []) ∧ heap s' !! la = Some (OList []) ∧
     db_prefs s' = db_prefs s ∧ db_writes s' = db_writes s ∧
     plugin_prefs s' = plugin_prefs s) ∧
  (∃ b a s',
     get_exemption_lists s = Ok ((VRef b, VRef a), s') ∧
     heap s' !! b = Some (OList []) ∧ heap s' !! a = Some (OList [])).
Proof.
  intros Hleg Hnone.
  destruct (get_library_config_no_legacy_eq s Hleg)
    as (lb & la & l & h' & Hsub & Hl & Hlb & Hla & Hnew & _ & _ & Heq).
  rewrite Hnone in Heq. simpl in Heq.
  assert (get_library_config s = Ok (VRef l, with_heap h' s)) as Hglc.
  { rewrite Heq.
    erewrite bind_run; [done|].
    eapply migrate_current; [done|exact Hl|apply DEFAULT_lookup_version|done]. }
  split.
  { exists l, lb, la, (with_heap h' s). split; [done|]. split; [done|].
    split.
    { (* the four entries of DEFAULT_LIBRARY_VALUES, lines 31 to 36 *)
      simpl. rewrite Hl. reflexivity. }
    by repeat split. }
  cut (wp get_exemption_lists s (λ r s',
         ∃ b a, r = (VRef b, VRef a) ∧
           heap s' !! b = Some (OList []) ∧ heap s' !! a = Some (OList []))).
  { intros (r & s' & Hr & b & a & -> & ? & ?)%wp_Ok. by exists b, a, s'. }
  unfold get_exemption_lists.
  apply wp_bind, wp_Ok. eexists _, _. split; [exact Hglc|].
  apply wp_bind. eapply wp_read.
  { simpl. rewrite Hl, DEFAULT_lookup_bookNot. done. }
  rewrite bool_decide_eq_false_2 by (by intros [? ?]).
  apply wp_bind, wp_ret.
  apply wp_bind. eapply wp_read.
  { simpl. rewrite Hl, DEFAULT_lookup_authorNot. done. }
  rewrite bool_decide_eq_false_2 by (by intros [? ?]).
  apply wp_bind, wp_ret.
  apply wp_bind, wp_alloc. simpl. intros l4 Hl4.
  assert (h' ⊆ <[l4 := OList []]> h') as Hsub4 by (by apply insert_subseteq).
  apply wp_bind. eapply wp_read.
  { simpl. rewrite (lookup_weaken _ _ _ _ Hl Hsub4), DEFAULT_lookup_book. done. }
  apply wp_bind. eapply wp_read.
  { simpl. rewrite (lookup_weaken _ _ _ _ Hlb Hsub4). done. }
  apply wp_bind, wp_ret. apply wp_bind, wp_ret.
  apply wp_bind, wp_alloc. simpl. intros l5 Hl5.
  assert (h' ⊆ <[l5 := OList []]> (<[l4 := OList []]> h')) as Hsub5.
  { etrans; [done|]. by apply insert_subseteq. }
  apply wp_bind. eapply wp_read.
  { simpl. rewrite (lookup_weaken _ _ _ _ Hl Hsub5), DEFAULT_lookup_author. done. }
  apply wp_ret. exists lb, la. split; [done|].
  split; eapply lookup_weaken; eauto.
Qed.

Lemma default_on_first_access_witness :
  (∃ l lb la s',
     get_library_config st_empty = Ok (VRef l, s') ∧
     heap st_empty !! l = None ∧
     heap s' !! l
       = Some (ODict (list_to_map [("lastLibraryCompare", VStr "");
                                   ("bookExemptions", VRef lb);
                                   ("authorExemptions", VRef la);
                                   ("SchemaVersion", VFloat (3 # 2))])) ∧
     heap s' !! lb = Some (OList []) ∧ heap s' !! la = Some (OList []) ∧
     db_prefs s' = db_prefs st_empty ∧ db_writes s' = db_writes st_empty ∧
     plugin_prefs s' = plugin_prefs st_empty) ∧
  (∃ b a s',
     get_exemption_lists st_empty = Ok ((VRef b, VRef a), s') ∧
     heap s' !! b = Some (OList []) ∧ heap s' !! a = Some (OList [])).
Proof.
  apply (default_on_first_access st_empty).
  - vm_compute. reflexivity.
  - vm_compute. reflexivity.
Defined.

(** ** The legacy record that already carries schema version 1.5 *)

(** C1: on [st_legacy_current], whose JSON file holds a record for the
    library that already carries schema version 1.5, [get_library_config]
    removes the record from the JSON file and returns it, but writes nothing
    to the per-library store: the record is in neither place afterwards. *)
Theorem legacy_current_record_dropped :
  ∃ s', get_library_config st_legacy_current = Ok (VRef 2, s') ∧
    legacy_entry st_legacy_current = Ok true ∧
    plugin_prefs s' !! "libraries" = None ∧
    db_prefs s' !! settings_key = None ∧
    db_writes s' = [].
Proof.
  exists (exec get_library_config st_legacy_current).
  split; [apply eval_exec; vm_compute; reflexivity|].
  repeat split; vm_compute; reflexivity.
Qed.

(** C5: on the same library a first call of [get_exemption_lists] returns
    the exemptions of the legacy record, one group of the books 1 and 2, and a
    second call returns no group at all. *)
Theorem legacy_current_second_call_differs :
  ∃ s1 b2 a2 s2,
    get_exemption_lists st_legacy_current = Ok ((VRef 3, VRef 5), s1) ∧
    heap s1 !! 3%positive = Some (OList [VRef 4]) ∧
    heap s1 !! 4%positive = Some (OList [VInt 1; VInt 2]) ∧
    get_exemption_lists s1 = Ok ((VRef b2, VRef a2), s2) ∧
    heap s2 !! b2 = Some (OList []).
Proof.
  exists (exec get_exemption_lists st_legacy_current), 9%positive, 10%positive,
    (exec get_exemption_lists (exec get_exemption_lists st_legacy_current)).
  split; [apply eval_exec; vm_compute; reflexivity|].
  split; [vm_compute; reflexivity|].
  split; [vm_compute; reflexivity|].
  split; [apply eval_exec; vm_compute; reflexivity|].
  vm_compute; reflexivity.
Qed.

(** ** The two paths of [get_library_config] *)

Lemma py_setitem_Ok c k v s u s' :
  py_setitem c k v s = Ok (u, s') →
  ∃ l d, c = VRef l ∧ heap s !! l = Some (ODict d) ∧
    s' = with_heap (<[l := ODict (<[k := v]> d)]> (heap s)) s.
Proof.
  unfold py_setitem. destruct c as [| | | | |l]; try discriminate.
  destruct (heap s !! l) as [[xs|d]|] eqn:Hl; try discriminate.
  intros [= <-]. by exists l, d.
Qed.

Lemma py_setitem_run l d k v s :
  heap s !! l = Some (ODict d) →
  py_setitem (VRef l) k v s
  = Ok (tt, with_heap (<[l := ODict (<[k := v]> d)]> (heap s)) s).
Proof. unfold py_setitem. by intros ->. Qed.


Lemma py_getitem_Ok c k h v :
  py_getitem c k h = Ok v →
  ∃ l d, c = VRef l ∧ h !! l = Some (ODict d) ∧ d !! k = Some v.
Proof.
  unfold py_getitem. destruct c as [| | | | |l]; try discriminate.
  destruct (h !! l) as [[xs|d]|] eqn:Hl; try discriminate.
  destruct (d !! k) eqn:Hk; try discriminate.
  intros [= <-]. by exists l, d.
Qed.

Lemma get_library_config_no_legacy_tail s :
  legacy_entry s = Ok false →
  get_library_config s = get_library_config_tail VNone s.
Proof. apply get_library_config_no_legacy. Qed.

(** With a legacy record the call is lines 89 to 93 run on that record, from
    the state in which it has left the JSON file. *)
Lemma get_library_config_legacy s ll d J :
  plugin_prefs s !! "libraries" = Some (VRef ll) →
  heap s !! ll = Some (ODict d) →
  d !! library_id s = Some J →
  get_library_config s = get_library_config_tail J (legacy_removed ll d s).
Proof.
  intros Hp Hl HJ. unfold get_library_config.
  unfold bind at 1. unfold get_library_uuid.
  unfold bind at 1. unfold plugin_prefs_contains.
  rewrite Hp. rewrite bool_decide_eq_true_2 by eauto.
  unfold bind at 1. unfold bind at 1. unfold plugin_prefs_getitem.
  rewrite Hp. simpl default.
  unfold bind at 1. unfold read at 1. simpl py_contains. rewrite Hl, HJ.
  rewrite bool_decide_eq_true_2 by eauto.
  unfold bind at 1. unfold read at 1. simpl py_getitem. rewrite Hl, HJ.
  unfold bind at 1. unfold py_delitem. rewrite Hl, HJ.
  unfold bind at 1. unfold read at 1. simpl py_len.
  rewrite lookup_insert_eq.
  unfold legacy_removed, get_library_config_tail.
  destruct (size (delete (library_id s) d) =? 0)%nat.
  - unfold bind at 1. unfold plugin_prefs_delitem. simpl plugin_prefs.
    rewrite Hp. done.
  - done.
Qed.

(** A call that returns has evaluated the legacy test. *)
Lemma get_library_config_paths s r s' :
  get_library_config s = Ok (r, s') →
  legacy_entry s = Ok false ∨
  ∃ ll d J, plugin_prefs s !! "libraries" = Some (VRef ll) ∧
    heap s !! ll = Some (ODict d) ∧ d !! library_id s = Some J.
Proof.
  unfold get_library_config, legacy_entry. intros H.
  apply bind_Ok in H as (uuid & s1 & [= <- <-] & H).
  apply bind_Ok in H as (inp & s2 & [= <- <-] & H).
  apply bind_Ok in H as (lc0 & s3 & H0 & _).
  destruct (plugin_prefs s !! "libraries") as [libs|] eqn:Hp; [|by left].
  rewrite bool_decide_eq_true_2 in H0 by eauto.
  apply bind_Ok in H0 as (libs' & s4 & Hg & H0).
  unfold plugin_prefs_getitem in Hg. rewrite Hp in Hg.
  injection Hg as <- <-.
  apply bind_Ok in H0 as (found & s5 & Hc & H0).
  apply read_Ok in Hc as [Hc ->]. rewrite Hc.
  destruct found; [|by left]. right.
  apply bind_Ok in H0 as (J & s6 & HJ & _).
  apply read_Ok in HJ as [HJ ->].
  apply py_getitem_Ok in HJ as (ll & d & -> & Hl & HJ). by exists ll, d, J.
Qed.

(** What lines 89 to 93 have done when they return [r]: copied the defaults
    if there was no legacy record, and migrated [r]. *)
Lemma get_library_config_tail_Ok lc0 s r s' :
  get_library_config_tail lc0 s = Ok (r, s') →
  ∃ h', heap s ⊆ h' ∧
    migrate_library_config_if_required r (with_heap h' s) = Ok (tt, s') ∧
    ((lc0 ≠ VNone ∧ r = lc0 ∧ h' = heap s) ∨
     (lc0 = VNone ∧ ∃ lb la l,
        h' !! l = Some (ODict (DEFAULT_LIBRARY_VALUES (VRef lb) (VRef la))) ∧
        h' !! lb = Some (OList []) ∧ h' !! la = Some (OList []) ∧
        heap s !! l = None ∧ heap s !! lb = None ∧ heap s !! la = None ∧
        r = default (VRef l) (db_prefs s !! settings_key))).
Proof.
  unfold get_library_config_tail. intros H.
  apply bind_Ok in H as (lc & s1 & H1 & H).
  apply bind_Ok in H as ([] & s2 & Hm & H).
  apply ret_Ok in H as [-> ->].
  destruct lc0; simpl in H1;
    try (apply ret_Ok in H1 as [-> ->]; exists (heap s);
         rewrite with_heap_id; split; [done|]; split; [done|];
         left; by repeat split).
  destruct (deepcopy_Ok s) as (lb & la & l & h' & Hd & Hsub & F).
  rewrite (bind_run _ _ _ _ _ Hd) in H1.
  unfold get_namespaced in H1. injection H1 as <- <-.
  exists h'. split; [done|]. split; [done|]. right. split; [done|].
  exists lb, la, l. destruct F as (? & ? & ? & ? & ? & ?). by repeat split.
Qed.

(** Lines 89 to 93 leave the JSON file alone, and leave alone every object
    other than the record they return. *)
Lemma get_library_config_tail_frame lc0 s r s' :
  get_library_config_tail lc0 s = Ok (r, s') →
  plugin_prefs s' = plugin_prefs s ∧ json_commits s' = json_commits s ∧
  library_id s' = library_id s ∧ db_data s' = db_data s ∧
  ∀ l, is_Some (heap s !! l) → r ≠ VRef l → heap s' !! l = heap s !! l.
Proof.
  intros H. apply get_library_config_tail_Ok in H as (h' & Hsub & Hm & _).
  apply migrate_Ok in Hm as (lr & d & -> & Hlr & [[_ ->]|[_ ->]]);
    (repeat (split; [done|])); intros l [o Hl] Hne; simpl.
  - by rewrite (lookup_weaken _ _ _ _ Hl Hsub).
  - rewrite lookup_insert_ne by congruence.
    by rewrite (lookup_weaken _ _ _ _ Hl Hsub).
Qed.

(** The record they return is the legacy record, the stored one, or new. *)
Lemma get_library_config_tail_result lc0 s r s' :
  get_library_config_tail lc0 s = Ok (r, s') →
  (lc0 ≠ VNone ∧ r = lc0) ∨
  (lc0 = VNone ∧
   (db_prefs s !! settings_key = Some r ∨
    db_prefs s !! settings_key = None ∧ ∃ l, r = VRef l ∧ heap s !! l = None)).
Proof.
  intros H. apply get_library_config_tail_Ok in H as (h' & Hsub & Hm & H).
  destruct H as [(? & ? & ?)|(? & lb & la & l & ? & ? & ? & ? & ? & ? & Hr)].
  - by left.
  - right. split; [done|].
    destruct (db_prefs s !! settings_key) as [v|]; simpl in Hr; subst r.
    + by left.
    + right. split; [done|]. by exists l.
Qed.

Lemma get_library_config_tail_keeps lc0 s r s' ll :
  get_library_config_tail lc0 s = Ok (r, s') →
  is_Some (heap s !! ll) →
  lc0 ≠ VRef ll →
  db_prefs s !! settings_key ≠ Some (VRef ll) →
  heap s' !! ll = heap s !! ll.
Proof.
  intros H Hl Hlc Hst.
  pose proof (get_library_config_tail_result _ _ _ _ H) as Hr.
  apply get_library_config_tail_frame in H as (_ & _ & _ & _ & H).
  apply H; [done|]. intros ->.
  destruct Hr as [[_ <-]|[_ [?|(_ & l & [= <-] & Hn)]]]; try done.
  rewrite Hn in Hl. by destruct Hl.
Qed.

(** The legacy test reads the JSON dictionary and the object it names. *)
Lemma legacy_entry_keeps s s' b :
  plugin_prefs s' = plugin_prefs s →
  library_id s' = library_id s →
  (∀ ll, plugin_prefs s !! "libraries" = Some (VRef ll) →
         is_Some (heap s !! ll) → heap s' !! ll = heap s !! ll) →
  legacy_entry s = Ok b → legacy_entry s' = Ok b.
Proof.
  unfold legacy_entry. intros -> -> Hh.
  destruct (plugin_prefs s !! "libraries") as [libs|]; [|done].
  destruct libs as [| | | | |ll]; try done. simpl.
  destruct (heap s !! ll) as [o|] eqn:Hl; [|done].
  rewrite (Hh ll) by eauto. by rewrite Hl.
Qed.

Lemma libraries_apart_stored s ll :
  libraries_apart s = true →
  plugin_prefs s !! "libraries" = Some (VRef ll) →
  db_prefs s !! settings_key ≠ Some (VRef ll).
Proof.
  unfold libraries_apart. intros H Hp. rewrite Hp in H.
  apply andb_prop in H as [H _].
  by apply negb_true_iff, bool_decide_eq_false in H.
Qed.

Lemma libraries_apart_entry s ll d :
  libraries_apart s = true →
  plugin_prefs s !! "libraries" = Some (VRef ll) →
  heap s !! ll = Some (ODict d) →
  d !! library_id s ≠ Some (VRef ll).
Proof.
  unfold libraries_apart. intros H Hp Hl. rewrite Hp, Hl in H.
  apply andb_prop in H as [_ H].
  by apply negb_true_iff, bool_decide_eq_false in H.
Qed.

(** A call that returns leaves no legacy record behind. *)
Lemma get_library_config_clears_legacy s r s' :
  libraries_apart s = true →
  get_library_config s = Ok (r, s') →
  legacy_entry s' = Ok false ∧
  (∀ ll J, plugin_prefs s !! "libraries" = Some (VRef ll) →
     heap s !! ll = Some (ODict {[library_id s := J]}) →
     plugin_prefs s' !! "libraries" = None).
Proof.
  intros Hap H.
  destruct (get_library_config_paths _ _ _ H)
    as [Hleg|(ll & d & J & Hp & Hl & HJ)].
  - rewrite (get_library_config_no_legacy_tail s Hleg) in H. split.
    + pose proof (get_library_config_tail_frame _ _ _ _ H)
        as (Hpp & _ & Hid & _ & _).
      eapply legacy_entry_keeps; [done|done| |done].
      intros l Hpl Hsome.
      eapply get_library_config_tail_keeps; [done|done|done|].
      by apply libraries_apart_stored.
    + intros l J Hpl Hl. unfold legacy_entry in Hleg.
      rewrite Hpl in Hleg. simpl in Hleg. rewrite Hl in Hleg.
      rewrite lookup_singleton_eq in Hleg.
      rewrite bool_decide_eq_true_2 in Hleg by eauto. discriminate.
  - rewrite (get_library_config_legacy s ll d J Hp Hl HJ) in H.
    pose proof (get_library_config_tail_frame _ _ _ _ H)
      as (Hpp & _ & Hid & _ & _).
    assert (library_id (legacy_removed ll d s) = library_id s) as Hid1.
    { unfold legacy_removed. by destruct (_ =? _)%nat. }
    assert (db_prefs (legacy_removed ll d s) = db_prefs s) as Hdb1.
    { unfold legacy_removed. by destruct (_ =? _)%nat. }
    assert (heap (legacy_removed ll d s)
            = <[ll := ODict (delete (library_id s) d)]> (heap s)) as Hh1.
    { unfold legacy_removed. by destruct (_ =? _)%nat. }
    assert (heap s' !! ll = Some (ODict (delete (library_id s) d))) as Hll.
    { erewrite get_library_config_tail_keeps; [| exact H | | |].
      - rewrite Hh1. by rewrite lookup_insert_eq.
      - rewrite Hh1, lookup_insert_eq. eauto.
      - intros ->. by eapply libraries_apart_entry.
      - rewrite Hdb1. by apply libraries_apart_stored. }
    split.
    + unfold legacy_entry. rewrite Hpp, Hid, Hid1.
      unfold legacy_removed.
      destruct (size (delete (library_id s) d) =? 0)%nat; simpl.
      * by rewrite lookup_delete_eq.
      * rewrite lookup_insert_eq. simpl. rewrite Hll.
        rewrite lookup_delete_eq.
        by rewrite bool_decide_eq_false_2 by (by intros [? ?]).
    + intros l J' Hpl Hl'. rewrite Hpp.
      assert (l = ll) as -> by congruence.
      assert (d = {[library_id s := J']}) as -> by congruence.
      unfold legacy_removed. rewrite delete_singleton_eq.
      rewrite map_size_empty. simpl. by rewrite lookup_delete_eq.
Qed.

(** C2: the migration from the JSON file happens once.  After a call of
    [get_library_config] that returns, the library uuid is no key of
    [plugin_prefs['libraries']]; 'libraries' itself is gone from
    [plugin_prefs] if that uuid was its only entry; and a second call is
    lines 89 to 93 alone, run without a legacy record, which leave
    [plugin_prefs] and the JSON file as they are.  The JSON file is taken to
    be a tree: the dictionary under 'libraries' is not itself one of the
    library records. *)
Theorem legacy_migration_is_one_time (s s' : state) (r : pyval) :
  libraries_apart s = true →
  get_library_config s = Ok (r, s') →
  legacy_entry s' = Ok false ∧
  (∀ ll J, plugin_prefs s !! "libraries" = Some (VRef ll) →
     heap s !! ll = Some (ODict {[library_id s := J]}) →
     plugin_prefs s' !! "libraries" = None) ∧
  get_library_config s' = get_library_config_tail VNone s' ∧
  (∀ r2 s2, get_library_config s' = Ok (r2, s2) →
     plugin_prefs s2 = plugin_prefs s' ∧ json_commits s2 = json_commits s').
Proof.
  intros Hap H.
  destruct (get_library_config_clears_legacy _ _ _ Hap H) as [Hleg Hlast].
  split; [done|]. split; [done|].
  split; [by apply get_library_config_no_legacy_tail|].
  intros r2 s2 H2.
  rewrite (get_library_config_no_legacy_tail _ Hleg) in H2.
  by apply get_library_config_tail_frame in H2 as (? & ? & _).
Qed.

Lemma legacy_migration_is_one_time_witness :
  legacy_entry (exec get_library_config st_legacy_old) = Ok false ∧
  (∀ ll J, plugin_prefs st_legacy_old !! "libraries" = Some (VRef ll) →
     heap st_legacy_old !! ll
       = Some (ODict {[library_id st_legacy_old := J]}) →
     plugin_prefs (exec get_library_config st_legacy_old) !! "libraries"
       = None) ∧
  get_library_config (exec get_library_config st_legacy_old)
    = get_library_config_tail VNone (exec get_library_config st_legacy_old) ∧
  (∀ r2 s2,
     get_library_config (exec get_library_config st_legacy_old) = Ok (r2, s2) →
     plugin_prefs s2 = plugin_prefs (exec get_library_config st_legacy_old) ∧
     json_commits s2 = json_commits (exec get_library_config st_legacy_old)).
Proof.
  apply (legacy_migration_is_one_time st_legacy_old _ (VRef 2)).
  - vm_compute. reflexivity.
  - apply eval_exec. vm_compute. reflexivity.
Defined.

(** ** Saving and reading back *)

(** Once the stored record is current, [get_library_config] hands it out and
    changes nothing but for the copy of the defaults it makes and drops. *)
Lemma get_library_config_stored_current s l d v :
  legacy_entry s = Ok false →
  db_prefs s !! settings_key = Some (VRef l) →
  heap s !! l = Some (ODict d) →
  d !! KEY_SCHEMA_VERSION = Some v →
  py_eq_num v DEFAULT_SCHEMA_VERSION = true →
  ∃ h', heap s ⊆ h' ∧ get_library_config s = Ok (VRef l, with_heap h' s).
Proof.
  intros Hleg Hst Hl Hd Hv.
  destruct (get_library_config_no_legacy_eq s Hleg)
    as (lb & la & l0 & h' & Hsub & _ & _ & _ & _ & _ & _ & Heq).
  exists h'. split; [done|]. rewrite Heq, Hst. simpl default.
  erewrite bind_run; [done|].
  eapply migrate_current; [done| |exact Hd|exact Hv].
  simpl. by eapply lookup_weaken.
Qed.

Lemma set_exemption_list_Ok k v s u s1 :
  set_exemption_list k v s = Ok (u, s1) →
  ∃ l d sa, get_library_config s = Ok (VRef l, sa) ∧
    heap sa !! l = Some (ODict d) ∧
    s1 = with_db_prefs settings_key (VRef l)
           (with_heap (<[l := ODict (<[k := v]> d)]> (heap sa)) sa).
Proof.
  unfold set_exemption_list. intros H.
  apply bind_Ok in H as (lc & sa & Hg & H).
  apply bind_Ok in H as ([] & sb & Hset & H).
  apply py_setitem_Ok in Hset as (l & d & -> & Hl & ->).
  unfold set_library_config, set_namespaced in H. injection H as <-.
  by exists l, d, sa.
Qed.



(** ** Pruning the book exemptions *)

Lemma has_id_Ok v s b s' :
  has_id v s = Ok (b, s') → s' = s ∧ b = known (db_data s) v.
Proof. unfold has_id. destruct v; naive_solver. Qed.

Lemma known_not_iterable data v h :
  known data v = true → ∀ ys, py_iter v h ≠ Ok ys.
Proof. by destruct v. Qed.

Lemma filterM_has_id xs s kept s' :
  filterM has_id xs s = Ok (kept, s') →
  s' = s ∧ kept = List.filter (known (db_data s)) xs.
Proof.
  revert kept s'. induction xs as [|x xs IH]; intros kept s' H; simpl in H.
  - by apply ret_Ok in H as [-> ->].
  - apply bind_Ok in H as (b & s1 & Hb & H).
    apply has_id_Ok in Hb as [-> ->].
    apply bind_Ok in H as (r & s2 & Hr & H).
    apply IH in Hr as [-> ->].
    apply ret_Ok in H as [-> ->]. split; [done|]. simpl.
    by destruct (known (db_data s) x).
Qed.

Lemma filter_length_all {A} (f : A → bool) (xs : list A) :
  length (List.filter f xs) = length xs → Forall (λ x, f x = true) xs.
Proof.
  induction xs as [|x xs IH]; simpl; [by constructor|].
  pose proof (List.filter_length_le f xs) as Hle.
  destruct (f x) eqn:Hx; simpl; intros Hlen.
  - constructor; [done|]. apply IH. lia.
  - lia.
Qed.

Lemma filter_all {A} (f : A → bool) (xs : list A) :
  Forall (λ x, f x = true) (List.filter f xs).
Proof.
  apply Forall_forall. intros x Hx. apply list_elem_of_In in Hx.
  by apply List.filter_In in Hx as [_ ?].
Qed.

Lemma length_chars s : length (chars s) = String.length s.
Proof.
  unfold chars. rewrite length_fmap.
  induction s as [|c s IH]; simpl; [done|]. by rewrite IH.
Qed.

Lemma py_len_iter x h ys : py_iter x h = Ok ys → py_len x h = Ok (length ys).
Proof.
  unfold py_iter, py_len. destruct x as [| | | |s|l]; try discriminate.
  - intros [= <-]. by rewrite length_chars.
  - destruct (h !! l) as [[xs|d]|]; try discriminate; intros [= <-]; [done|].
    by rewrite !length_fmap, length_map_to_list.
Qed.

Lemma py_iter_weaken x h h' ys :
  h ⊆ h' → py_iter x h = Ok ys → py_iter x h' = Ok ys.
Proof.
  intros Hsub. unfold py_iter. destruct x as [| | | |s|l]; try done.
  destruct (h !! l) as [o|] eqn:Hl; [|done].
  by rewrite (lookup_weaken _ _ _ _ Hl Hsub).
Qed.

Lemma pruned_weaken data h h' x : h ⊆ h' → pruned data h x → pruned data h' x.
Proof. intros Hsub (ys & Hi & Hall). exists ys. eauto using py_iter_weaken. Qed.

(** Iterating [x] reads the object of [x] alone. *)
Lemma py_iter_same x h h' ys :
  (∀ l, x = VRef l → h' !! l = h !! l) →
  py_iter x h = Ok ys → py_iter x h' = Ok ys.
Proof.
  intros Hsame. unfold py_iter. destruct x as [| | | |s|l]; try done.
  by rewrite (Hsame l eq_refl).
Qed.

Lemma py_store_Ok c idx v s u s' :
  py_store c idx v s = Ok (u, s') →
  ∃ l xs, c = VRef l ∧ heap s !! l = Some (OList xs) ∧
    (idx < length xs)%nat ∧
    s' = with_heap (<[l := OList (<[idx := v]> xs)]> (heap s)) s.
Proof.
  unfold py_store. destruct c as [| | | | |l]; try discriminate.
  destruct (heap s !! l) as [[xs|d]|] eqn:Hl; try discriminate.
  destruct (decide (idx < length xs)%nat); [|discriminate].
  intros [= <-]. by exists l, xs.
Qed.

(** One round of the loop: the group at [idx] is read, filtered into a new
    list at [lN], and replaced by it if an id was dropped. *)
Lemma prune_at_Ok B idx c s c' s' :
  prune_at B idx c s = Ok (c', s') →
  ∃ old items lN,
    py_index B idx (heap s) = Ok old ∧
    py_iter old (heap s) = Ok items ∧
    heap s !! lN = None ∧
    let kept := List.filter (known (db_data s)) items in
    let h1 := <[lN := OList kept]> (heap s) in
    ((length items = length kept ∧ c' = c ∧ s' = with_heap h1 s) ∨
     (length items ≠ length kept ∧ c' = true ∧
      ∃ lB xs, B = VRef lB ∧ heap s !! lB = Some (OList xs) ∧
        (idx < length xs)%nat ∧ lB ≠ lN ∧
        s' = with_heap (<[lB := OList (<[idx := VRef lN]> xs)]> h1) s)).
Proof.
  unfold prune_at. intros H.
  apply bind_Ok in H as (old & s1 & Ho & H). apply read_Ok in Ho as [Ho ->].
  apply bind_Ok in H as (items & s1 & Hi & H). apply read_Ok in Hi as [Hi ->].
  apply bind_Ok in H as (kept & s1 & Hk & H).
  apply filterM_has_id in Hk as [-> ->].
  apply bind_Ok in H as (new & s1 & Ha & H).
  apply alloc_Ok in Ha as [-> ->].
  pose proof (fresh_loc_None (heap s)) as Hfresh.
  set (lN := fresh_loc (heap s)) in *.
  apply bind_Ok in H as (n & s1 & Hn & H). apply read_Ok in Hn as [Hn ->].
  simpl in Hn.
  assert (heap s ⊆ <[lN := OList (List.filter (known (db_data s)) items)]>
                     (heap s)) as Hsub by (by apply insert_subseteq).
  pose proof (py_len_iter _ _ _ (py_iter_weaken _ _ _ _ Hsub Hi)) as Hn'.
  rewrite Hn' in Hn. injection Hn as <-.
  exists old, items, lN. split; [done|]. split; [done|]. split; [done|].
  simpl. destruct (length items =? _)%nat eqn:Hlen; simpl in H.
  - apply Nat.eqb_eq in Hlen. apply ret_Ok in H as [-> ->]. by left.
  - apply Nat.eqb_neq in Hlen. right.
    apply bind_Ok in H as ([] & s1 & Hst & H).
    apply ret_Ok in H as [-> ->].
    apply py_store_Ok in Hst as (lB & xs & -> & HlB & Hidx & ->).
    simpl in HlB.
    assert (lB ≠ lN) as Hne.
    { intros ->. rewrite lookup_insert_eq in HlB. injection HlB as <-.
      (* the new list would be the list being pruned *)
      unfold py_index in Ho. rewrite Hfresh in Ho. discriminate. }
    rewrite lookup_insert_ne in HlB by done.
    split; [done|]. split; [done|]. by exists lB, xs.
Qed.

(** A round keeps what earlier rounds achieved and adds the group at [idx]:
    every group it has seen holds book ids of the library only. *)
Lemma prune_at_inv lB idx c s c' s' xs :
  prune_at (VRef lB) idx c s = Ok (c', s') →
  heap s !! lB = Some (OList xs) →
  ∃ xs',
    heap s' !! lB = Some (OList xs') ∧ length xs' = length xs ∧
    s' = with_heap (heap s') s ∧
    (∃ x, xs' !! idx = Some x ∧ pruned (db_data s) (heap s') x) ∧
    (∀ j x, j ≠ idx → xs !! j = Some x → pruned (db_data s) (heap s) x →
            xs' !! j = Some x ∧ pruned (db_data s) (heap s') x).
Proof.
  intros H HlB.
  apply prune_at_Ok in H as (old & items & lN & Ho & Hi & HlN & H).
  simpl in H. unfold py_index in Ho. rewrite HlB in Ho.
  destruct (xs !! idx) as [old'|] eqn:Hidx; [|discriminate].
  injection Ho as ->.
  set (kept := List.filter (known (db_data s)) items) in *.
  assert (heap s ⊆ <[lN := OList kept]> (heap s)) as Hsub
    by (by apply insert_subseteq).
  assert (lB ≠ lN) as Hne by congruence.
  destruct H as [(Hlen & -> & ->)|(Hlen & -> & lB' & xs0 & [= <-] & HlB' & Hlt
                                   & _ & ->)].
  - exists xs. simpl. rewrite lookup_insert_ne by done.
    split; [done|]. split; [done|]. split; [done|]. split.
    + exists old. split; [done|]. exists items.
      split; [by eapply py_iter_weaken|].
      apply filter_length_all. by fold kept.
    + intros j x _ Hj Hp. split; [done|]. by eapply pruned_weaken.
  - assert (xs0 = xs) as -> by congruence.
    exists (<[idx := VRef lN]> xs). simpl. rewrite lookup_insert_eq.
    split; [done|]. split; [by rewrite length_insert|]. split; [done|]. split.
    + exists (VRef lN). split; [by apply list_lookup_insert_eq|].
      exists kept. split; [|apply filter_all].
      simpl. rewrite lookup_insert_ne by done. by rewrite lookup_insert_eq.
    + intros j x Hj Hx (ys & Hys & Hall).
      split; [by rewrite list_lookup_insert_ne|].
      exists ys. split; [|done].
      eapply py_iter_same; [|exact Hys]. intros l ->.
      assert (l ≠ lN) as HlNe.
      { intros ->. simpl in Hys. by rewrite HlN in Hys. }
      assert (l ≠ lB) as HlBe.
      { intros ->. simpl in Hys. rewrite HlB in Hys. injection Hys as <-.
        (* the list being pruned holds the group just read, which is no id *)
        assert (known (db_data s) old = true) as Hk.
        { eapply (proj1 (Forall_forall _ _) Hall), list_elem_of_lookup_2.
          exact Hidx. }
        by eapply known_not_iterable in Hk. }
      by rewrite !lookup_insert_ne.
Qed.

(** The loop over the indices [idxs]: the groups at the indices in [G] or in
    [idxs] hold book ids of the library only when it ends. *)
Lemma prune_loop_inv lB idxs : ∀ c s c' s' xs (G : nat → Prop),
  prune_loop (VRef lB) idxs c s = Ok (c', s') →
  heap s !! lB = Some (OList xs) →
  (∀ j, G j → ∃ x, xs !! j = Some x ∧ pruned (db_data s) (heap s) x) →
  ∃ xs',
    heap s' !! lB = Some (OList xs') ∧ length xs' = length xs ∧
    s' = with_heap (heap s') s ∧
    (∀ j, G j ∨ j ∈ idxs →
          ∃ x, xs' !! j = Some x ∧ pruned (db_data s) (heap s') x).
Proof.
  induction idxs as [|idx idxs IH]; intros c s c' s' xs G H HlB HG;
    simpl in H.
  - apply ret_Ok in H as [-> ->]. exists xs.
    split; [done|]. split; [done|]. split; [by rewrite with_heap_id|].
    intros j [Hj|Hj]; [by apply HG|]. by apply elem_of_nil in Hj.
  - apply bind_Ok in H as (c1 & s1 & H1 & H).
    destruct (prune_at_inv _ _ _ _ _ _ _ H1 HlB)
      as (xs1 & HlB1 & Hlen1 & Hs1 & Hidx & Hkeep).
    assert (db_data s1 = db_data s) as Hdata by (by rewrite Hs1).
    destruct (IH c1 s1 c' s' xs1 (λ j, G j ∨ j = idx) H HlB1)
      as (xs' & HlB' & Hlen' & Hs' & Hall).
    { rewrite Hdata. intros j [Hj| ->]; [|done].
      destruct (decide (j = idx)) as [->|Hne]; [done|].
      destruct (HG j Hj) as (x & Hx & Hp). exists x. by apply Hkeep. }
    exists xs'. split; [done|]. split; [congruence|]. split.
    { rewrite Hs', Hs1. done. }
    rewrite Hdata in Hall. intros j Hj. apply Hall.
    rewrite elem_of_cons in Hj. tauto.
Qed.

(** A round that returns was run on a list. *)
Lemma prune_at_list B idx c s c' s' :
  prune_at B idx c s = Ok (c', s') →
  ∃ lB xs, B = VRef lB ∧ heap s !! lB = Some (OList xs).
Proof.
  intros H. apply prune_at_Ok in H as (old & items & lN & Ho & Hi & HlN & H).
  simpl in H. unfold py_index in Ho.
  destruct B as [| | | |str|lB]; try discriminate.
  - (* a character of a string is no id: the round assigns, and fails *)
    destruct (chars str !! idx) as [ch|] eqn:Hch; [|discriminate].
    injection Ho as <-.
    destruct H as [(Hlen & _)|(_ & _ & lB & xs & ? & _)]; [|done].
    unfold chars in Hch. rewrite list_lookup_fmap in Hch.
    destruct (list_ascii_of_string str !! idx) as [a|]; [|discriminate].
    injection Hch as <-. simpl in Hi. injection Hi as <-.
    simpl in Hlen. discriminate.
  - destruct (heap s !! lB) as [[xs|d]|] eqn:HlB; try discriminate.
    by exists lB, xs.
Qed.

Lemma bind_assoc {A B C} (m : M A) (k : A → M B) (k' : B → M C) s :
  bind (bind m k) k' s = bind m (λ a, bind (k a) k') s.
Proof. unfold bind. by destruct (m s) as [[? ?]|]. Qed.

Lemma bind_ext {A B} (m : M A) (k k' : A → M B) s :
  (∀ a s1, k a s1 = k' a s1) → bind m k s = bind m k' s.
Proof. intros H. unfold bind. by destruct (m s) as [[? ?]|]. Qed.

Lemma get_exemption_lists_eq s :
  get_exemption_lists s =
  (do library_config <- get_library_config;
   discard_legacy_maps library_config;;
   do book_exemptions <- prune_book_exemptions library_config;
   do dflt <- alloc (OList []);
   do author_exemptions <-
     read (py_get library_config KEY_AUTHOR_EXEMPTIONS dflt);
   ret (book_exemptions, author_exemptions)) s.
Proof.
  unfold get_exemption_lists. apply bind_ext. intros lc s1.
  unfold discard_legacy_maps, prune_book_exemptions.
  rewrite !bind_assoc. apply bind_ext. intros hb s2.
  rewrite !bind_assoc. apply bind_ext. intros [] s3.
  rewrite !bind_assoc. apply bind_ext. intros ha s4.
  apply bind_ext. intros [] s5.
  rewrite !bind_assoc. apply bind_ext. intros dflt s6.
  rewrite !bind_assoc. apply bind_ext. intros B s7.
  rewrite !bind_assoc. apply bind_ext. intros n s8.
  rewrite !bind_assoc. apply bind_ext. intros c s9.
  done.
Qed.

(** *** What is kept of the lists *)

Lemma lists_kept_refl h : lists_kept h h.
Proof. by intros l ys. Qed.

Lemma lists_kept_trans h1 h2 h3 :
  lists_kept h1 h2 → lists_kept h2 h3 → lists_kept h1 h3.
Proof. intros H12 H23 l ys Hl. by apply H23, H12. Qed.

Lemma lists_kept_subseteq h h' : h ⊆ h' → lists_kept h h'.
Proof. intros Hsub l ys Hl. by eapply lookup_weaken. Qed.

Lemma lists_kept_insert_dict h l d o :
  h !! l = Some (ODict d) → lists_kept h (<[l := o]> h).
Proof.
  intros Hl l' ys Hl'. rewrite lookup_insert_ne; [done|]. congruence.
Qed.

Lemma lists_kept_alloc h l o : h !! l = None → lists_kept h (<[l := o]> h).
Proof. intros Hl. by apply lists_kept_subseteq, insert_subseteq. Qed.

Lemma migrate_lists_kept lc s u s' :
  migrate_library_config_if_required lc s = Ok (u, s') →
  lists_kept (heap s) (heap s') ∧ db_data s' = db_data s.
Proof.
  intros H. apply migrate_Ok in H as (l & d & -> & Hl & [[_ ->]|[_ ->]]).
  - split; [apply lists_kept_refl|done].
  - split; [|done]. simpl. by eapply lists_kept_insert_dict.
Qed.

Lemma get_library_config_tail_lists_kept lc0 s r s' :
  get_library_config_tail lc0 s = Ok (r, s') →
  lists_kept (heap s) (heap s') ∧ db_data s' = db_data s.
Proof.
  intros H. apply get_library_config_tail_Ok in H as (h' & Hsub & Hm & _).
  apply migrate_lists_kept in Hm as [Hk Hd]. split; [|done].
  eapply lists_kept_trans; [by apply lists_kept_subseteq|done].
Qed.

Lemma get_library_config_lists_kept s r s' :
  get_library_config s = Ok (r, s') →
  lists_kept (heap s) (heap s') ∧ db_data s' = db_data s.
Proof.
  intros H.
  destruct (get_library_config_paths _ _ _ H)
    as [Hleg|(ll & d & J & Hp & Hl & HJ)].
  - rewrite (get_library_config_no_legacy_tail s Hleg) in H.
    by eapply get_library_config_tail_lists_kept.
  - rewrite (get_library_config_legacy s ll d J Hp Hl HJ) in H.
    apply get_library_config_tail_lists_kept in H as [Hk Hd].
    assert (heap (legacy_removed ll d s)
            = <[ll := ODict (delete (library_id s) d)]> (heap s)) as Hh1.
    { unfold legacy_removed. by destruct (_ =? _)%nat. }
    assert (db_data (legacy_removed ll d s) = db_data s) as Hd1.
    { unfold legacy_removed. by destruct (_ =? _)%nat. }
    split; [|congruence].
    eapply lists_kept_trans; [|exact Hk]. rewrite Hh1.
    by eapply lists_kept_insert_dict.
Qed.

Lemma set_exemption_list_lists_kept k v s u s' :
  set_exemption_list k v s = Ok (u, s') →
  lists_kept (heap s) (heap s') ∧ db_data s' = db_data s.
Proof.
  intros H. apply set_exemption_list_Ok in H as (l & d & sa & Hg & Hl & ->).
  apply get_library_config_lists_kept in Hg as [Hk Hd]. split; [|done].
  simpl. eapply lists_kept_trans; [exact Hk|].
  by eapply lists_kept_insert_dict.
Qed.

Lemma nonempty_Ok x s b s' :
  nonempty x s = Ok (b, s') →
  s' = s ∧ ∃ n, py_len x (heap s) = Ok n ∧ b = (0 <? n)%nat.
Proof.
  unfold nonempty. intros H.
  apply bind_Ok in H as (n & s1 & Hn & H). apply read_Ok in Hn as [Hn ->].
  apply ret_Ok in H as [-> ->]. eauto.
Qed.

Lemma filterM_nonempty xs s kept s' :
  filterM nonempty xs s = Ok (kept, s') →
  s' = s ∧
  ∀ x, x ∈ kept → x ∈ xs ∧ ∃ n, py_len x (heap s) = Ok n ∧ (0 < n)%nat.
Proof.
  revert kept s'. induction xs as [|x xs IH]; intros kept s' H; simpl in H.
  - apply ret_Ok in H as [-> ->]. split; [done|].
    intros x Hx. by apply elem_of_nil in Hx.
  - apply bind_Ok in H as (b & s1 & Hb & H).
    apply nonempty_Ok in Hb as (-> & n & Hn & ->).
    apply bind_Ok in H as (r & s2 & Hr & H).
    apply IH in Hr as [-> Hr].
    apply ret_Ok in H as [-> ->]. split; [done|].
    intros y Hy. destruct (0 <? n)%nat eqn:Hpos.
    + apply elem_of_cons in Hy as [->|Hy].
      * split; [left|]. exists n. split; [done|]. by apply Nat.ltb_lt.
      * destruct (Hr y Hy) as [? ?]. split; [by right|done].
    + destruct (Hr y Hy) as [? ?]. split; [by right|done].
Qed.

(** A group that is not empty and holds ids only is a list. *)
Lemma pruned_nonempty_list data h x n :
  pruned data h x → py_len x h = Ok n → (0 < n)%nat →
  ∃ l ys, x = VRef l ∧ h !! l = Some (OList ys).
Proof.
  intros (ys & Hi & Hall) Hn Hpos.
  rewrite (py_len_iter _ _ _ Hi) in Hn. injection Hn as <-.
  destruct ys as [|y ys]; [simpl in Hpos; lia|].
  apply Forall_cons in Hall as [Hy _].
  unfold py_iter in Hi. destruct x as [| | | |str|l]; try discriminate.
  - injection Hi as Hi. unfold chars in Hi.
    destruct (list_ascii_of_string str); [discriminate|].
    injection Hi as <- _. discriminate.
  - destruct (h !! l) as [[xs|d]|] eqn:Hl; try discriminate; [by exists l, xs|].
    injection Hi as Hi.
    destruct ((map_to_list d).*1) as [|key keys]; [discriminate|].
    injection Hi as <- _. discriminate.
Qed.

Lemma pruned_lists_kept data h h' l ys :
  h !! l = Some (OList ys) → lists_kept h h' →
  pruned data h (VRef l) → pruned data h' (VRef l).
Proof.
  intros Hl Hk (zs & Hi & Hall). exists zs. split; [|done].
  simpl in *. rewrite Hl in Hi. by rewrite (Hk l ys Hl).
Qed.

(** The whole loop, over the indices of the value [B] it is given: either
    [B] is a list, and each of its groups holds ids only in the end, or [B]
    is empty and nothing happens. *)
Lemma prune_loop_seq B n s c s' :
  py_len B (heap s) = Ok n →
  prune_loop B (seq 0 n) false s = Ok (c, s') →
  (∃ lB xs xs', B = VRef lB ∧ heap s !! lB = Some (OList xs) ∧
     heap s' !! lB = Some (OList xs') ∧ s' = with_heap (heap s') s ∧
     ∀ x, x ∈ xs' → pruned (db_data s) (heap s') x) ∨
  (c = false ∧ s' = s ∧
   ∀ l xs, B = VRef l → heap s !! l ≠ Some (OList xs)).
Proof.
  intros Hn H.
  assert ((∃ lB xs, B = VRef lB ∧ heap s !! lB = Some (OList xs)) ∨
          ¬ (∃ lB xs, B = VRef lB ∧ heap s !! lB = Some (OList xs))) as Hcase.
  { destruct B as [| | | | |lB]; try (right; by intros (? & ? & ? & ?)).
    destruct (heap s !! lB) as [[xs|d]|] eqn:HlB.
    - left. by exists lB, xs.
    - right. intros (? & ? & [= <-] & ?). congruence.
    - right. intros (? & ? & [= <-] & ?). congruence. }
  destruct Hcase as [(lB & xs & -> & HlB)|Hno].
  - left. simpl in Hn. rewrite HlB in Hn. injection Hn as <-.
    destruct (prune_loop_inv lB _ _ _ _ _ xs (λ _, False) H HlB)
      as (xs' & HlB' & Hlen & Hs' & Hall); [done|].
    exists lB, xs, xs'. repeat (split; [done|]).
    intros x Hx. apply list_elem_of_lookup in Hx as [j Hj].
    destruct (Hall j) as (x' & Hx' & Hp).
    { right. apply elem_of_seq. apply lookup_lt_Some in Hj. lia. }
    congruence.
  - right. destruct n as [|n].
    + simpl in H. apply ret_Ok in H as [-> ->]. split; [done|]. split; [done|].
      intros l xs -> Hl. apply Hno. by exists l, xs.
    + simpl in H. apply bind_Ok in H as (c1 & s1 & H1 & _).
      apply prune_at_list in H1. done.
Qed.

(** Lines 109 to 119 return a value whose groups hold book ids of the
    library only. *)
Lemma prune_book_exemptions_Ok lc s b s' :
  prune_book_exemptions lc s = Ok (b, s') →
  db_data s' = db_data s ∧
  ∀ l xs, b = VRef l → heap s' !! l = Some (OList xs) →
    ∀ x, x ∈ xs → pruned (db_data s) (heap s') x.
Proof.
  unfold prune_book_exemptions. intros H.
  apply bind_Ok in H as (dflt & s0 & Ha & H).
  apply alloc_Ok in Ha as [-> ->].
  apply bind_Ok in H as (B & s1 & HB & H). apply read_Ok in HB as [_ ->].
  apply bind_Ok in H as (n & s1 & Hn & H). apply read_Ok in Hn as [Hn ->].
  apply bind_Ok in H as (c & sM & Hloop & H).
  set (s0 := with_heap _ s) in *.
  assert (db_data s0 = db_data s) as Hd0 by done.
  destruct (prune_loop_seq _ _ _ _ _ Hn Hloop)
    as [(lB & xs & xs' & -> & HlB & HlB' & HsM & Hall)|(-> & -> & Hno)].
  - assert (db_data sM = db_data s) as HdM by (by rewrite HsM).
    rewrite Hd0 in Hall.
    destruct c.
    + apply bind_Ok in H as (items & s2 & Hi & H).
      apply read_Ok in Hi as [Hi ->]. simpl in Hi. rewrite HlB' in Hi.
      injection Hi as <-.
      apply bind_Ok in H as (kept & s2 & Hk & H).
      apply filterM_nonempty in Hk as [-> Hk].
      apply bind_Ok in H as (b' & s2 & Ha & H).
      apply alloc_Ok in Ha as [-> ->].
      pose proof (fresh_loc_None (heap sM)) as Hfresh.
      set (lK := fresh_loc (heap sM)) in *.
      apply bind_Ok in H as ([] & s3 & Hset & H).
      apply ret_Ok in H as [-> ->].
      apply set_exemption_list_lists_kept in Hset as [Hkept Hd3].
      simpl in Hkept, Hd3.
      assert (lists_kept (heap sM) (heap s3)) as HkM.
      { eapply lists_kept_trans; [|exact Hkept]. by apply lists_kept_alloc. }
      split; [congruence|].
      intros l zs [= <-] Hl.
      rewrite (Hkept lK kept) in Hl by apply lookup_insert_eq.
      injection Hl as <-. intros x Hx.
      destruct (Hk x Hx) as (Hin & m & Hm & Hpos).
      pose proof (Hall x Hin) as Hp.
      destruct (pruned_nonempty_list _ _ _ _ Hp Hm Hpos)
        as (li & ys & -> & Hli).
      by eapply pruned_lists_kept.
    + apply ret_Ok in H as [-> ->]. split; [done|].
      intros l zs [= <-] Hl. assert (zs = xs') as -> by congruence. done.
  - apply ret_Ok in H as [-> ->]. split; [done|].
    intros l xs -> Hl. by destruct (Hno l xs eq_refl).
Qed.

Lemma known_has_id s y : known (db_data s) y = true → has_id y s = Ok (true, s).
Proof.
  unfold has_id. destruct y as [|b|z|q|str|l]; simpl; try discriminate;
    by intros ->.
Qed.

(** C3: stale references are pruned.  Whenever [get_exemption_lists]
    returns a list of book exemptions, a loop over any of its groups visits
    values for which [db.data.has_id] answers True, and nothing else: the ids
    that are not in the library are not in the returned groups. *)
Theorem stale_references_pruned (s s' : state) (b a : pyval) :
  get_exemption_lists s = Ok ((b, a), s') →
  ∀ l xs, b = VRef l → heap s' !! l = Some (OList xs) →
    ∀ inner, inner ∈ xs →
      ∃ ys, py_iter inner (heap s') = Ok ys ∧
        ∀ book_id, book_id ∈ ys → has_id book_id s' = Ok (true, s').
Proof.
  rewrite get_exemption_lists_eq. intros H.
  apply bind_Ok in H as (lc & s1 & _ & H).
  apply bind_Ok in H as ([] & s2 & _ & H).
  apply bind_Ok in H as (b' & s3 & Hp & H).
  apply prune_book_exemptions_Ok in Hp as [Hd Hp].
  apply bind_Ok in H as (dflt & s4 & Ha & H).
  apply alloc_Ok in Ha as [-> ->].
  apply bind_Ok in H as (a' & s5 & Hg & H). apply read_Ok in Hg as [_ ->].
  apply ret_Ok in H as [[= <- <-] ->].
  pose proof (alloc_grows (OList []) s3) as Hsub.
  intros l xs -> Hl inner Hin. simpl in Hl.
  assert (heap s3 !! l = Some (OList xs)) as Hl3.
  { destruct (decide (l = fresh_loc (heap s3))) as [->|Hne].
    - rewrite lookup_insert_eq in Hl. injection Hl as <-.
      by apply elem_of_nil in Hin.
    - by rewrite lookup_insert_ne in Hl. }
  destruct (Hp l xs eq_refl Hl3 inner Hin) as (ys & Hi & Hall).
  exists ys. split; [by eapply py_iter_weaken|].
  intros y Hy. apply known_has_id. simpl. rewrite Hd.
  by eapply (proj1 (Forall_forall _ _) Hall).
Qed.

Lemma stale_references_pruned_witness :
  get_exemption_lists st_stored
    = Ok ((VRef 12, VRef 5), exec get_exemption_lists st_stored) ∧
  ∀ l xs, VRef 12 = VRef l →
    heap (exec get_exemption_lists st_stored) !! l = Some (OList xs) →
    ∀ inner, inner ∈ xs →
      ∃ ys, py_iter inner (heap (exec get_exemption_lists st_stored)) = Ok ys ∧
        ∀ book_id, book_id ∈ ys →
          has_id book_id (exec get_exemption_lists st_stored)
          = Ok (true, exec get_exemption_lists st_stored).
Proof.
  assert (get_exemption_lists st_stored
          = Ok ((VRef 12, VRef 5), exec get_exemption_lists st_stored)) as H.
  { apply eval_exec. vm_compute. reflexivity. }
  split; [exact H|].
  exact (stale_references_pruned st_stored _ (VRef 12) (VRef 5) H).
Defined.

(** ** A library whose record is in the per-library store *)

Lemma frame_but_refl l s : frame_but l s s.
Proof. by repeat split. Qed.

Lemma frame_but_trans l s1 s2 s3 :
  frame_but l s1 s2 → frame_but l s2 s3 → frame_but l s1 s3.
Proof.
  intros (? & ? & ? & ? & ? & H12) (? & ? & ? & ? & ? & H23).
  repeat split; try congruence. intros l' o Hne Hl. by apply H23, H12.
Qed.

Lemma frame_but_grow l s h' : heap s ⊆ h' → frame_but l s (with_heap h' s).
Proof.
  intros Hsub. repeat split. intros l' o _ Hl. by eapply lookup_weaken.
Qed.

Lemma frame_but_update l s o :
  frame_but l s (with_heap (<[l := o]> (heap s)) s).
Proof.
  repeat split. intros l' o' Hne Hl. simpl. by rewrite lookup_insert_ne.
Qed.

Lemma frame_but_save l s v :
  db_prefs s !! settings_key = Some v →
  frame_but l s (with_db_prefs settings_key v s).
Proof.
  intros Hst. repeat split; simpl; [|done]. by rewrite lookup_insert_eq.
Qed.

Lemma settled_keep s s' l :
  settled s l → frame_but l s s' →
  (∃ d v, heap s' !! l = Some (ODict d) ∧
     d !! KEY_SCHEMA_VERSION = Some v ∧
     py_eq_num v DEFAULT_SCHEMA_VERSION = true) →
  settled s' l.
Proof.
  intros (Hleg & Hne & Hst & _) (Hpp & _ & Hid & _ & Hdb & Hfr) Hrec.
  split; [|split; [by rewrite Hpp|split; [by rewrite Hdb|done]]].
  eapply legacy_entry_keeps; [done|done| |done].
  intros ll Hp [o Ho]. rewrite Ho. apply Hfr; [|done]. congruence.
Qed.

Lemma settled_frame s s' l :
  settled s l → frame_but l s s' → heap s' !! l = heap s !! l → settled s' l.
Proof.
  intros Hs Hfr Hl. eapply settled_keep; [done|done|].
  destruct Hs as (_ & _ & _ & d & v & ? & ? & ?). exists d, v.
  by rewrite Hl.
Qed.

Lemma settled_grow s l h' : settled s l → heap s ⊆ h' → settled (with_heap h' s) l.
Proof.
  intros Hs Hsub. eapply settled_frame; [done|by apply frame_but_grow|].
  destruct Hs as (_ & _ & _ & d & v & Hl & _). simpl.
  rewrite Hl. by eapply lookup_weaken.
Qed.

(** In a settled library [get_library_config] hands out the stored record;
    only the heap grows, by the copy of the defaults it drops. *)
Lemma get_library_config_settled s l :
  settled s l →
  ∃ h', heap s ⊆ h' ∧ get_library_config s = Ok (VRef l, with_heap h' s).
Proof.
  intros (Hleg & _ & Hst & d & v & Hl & Hd & Hv).
  by eapply get_library_config_stored_current.
Qed.

Lemma set_exemption_list_settled s l d k v :
  settled s l → heap s !! l = Some (ODict d) →
  ∃ h', heap s ⊆ h' ∧
    set_exemption_list k v s
    = Ok (tt, with_db_prefs settings_key (VRef l)
                (with_heap (<[l := ODict (<[k := v]> d)]> h') s)).
Proof.
  intros Hs Hl. destruct (get_library_config_settled s l Hs) as (h' & Hsub & Hg).
  exists h'. split; [done|]. unfold set_exemption_list.
  rewrite (bind_run _ _ _ _ _ Hg).
  erewrite bind_run; cycle 1.
  { apply py_setitem_run. simpl. by eapply lookup_weaken. }
  done.
Qed.

Lemma migrate_outdated l d s :
  heap s !! l = Some (ODict d) →
  py_eq_num (default (VInt 0) (d !! KEY_SCHEMA_VERSION))
    DEFAULT_SCHEMA_VERSION = false →
  migrate_library_config_if_required (VRef l) s
  = Ok (tt, with_db_prefs settings_key (VRef l)
              (with_heap
                 (<[l := ODict (<[KEY_SCHEMA_VERSION :=
                                    VFloat DEFAULT_SCHEMA_VERSION]> d)]>
                    (heap s)) s)).
Proof.
  intros Hl Hv. unfold migrate_library_config_if_required.
  erewrite bind_run; cycle 1.
  { apply read_run. unfold py_get. by rewrite Hl. }
  rewrite Hv.
  erewrite bind_run; cycle 1.
  { by apply py_setitem_run. }
  done.
Qed.

(** The first call on a library whose record is in the per-library store
    settles it: the record is stamped and saved if its schema version was
    not current, and is unchanged otherwise. *)
Lemma get_library_config_stored s l d :
  legacy_entry s = Ok false →
  plugin_prefs s !! "libraries" ≠ Some (VRef l) →
  db_prefs s !! settings_key = Some (VRef l) →
  heap s !! l = Some (ODict d) →
  ∃ s1 d1, get_library_config s = Ok (VRef l, s1) ∧
    settled s1 l ∧ frame_but l s s1 ∧
    heap s1 !! l = Some (ODict d1) ∧
    (∀ k, k ≠ KEY_SCHEMA_VERSION → d1 !! k = d !! k) ∧
    (∃ rows, db_writes s1 = (rows ++ db_writes s)%list) ∧
    ((∃ v, d !! KEY_SCHEMA_VERSION = Some v ∧
           py_eq_num v DEFAULT_SCHEMA_VERSION = true) →
     d1 = d ∧ db_writes s1 = db_writes s ∧ db_prefs s1 = db_prefs s).
Proof.
  intros Hleg Hne Hst Hl.
  destruct (get_library_config_no_legacy_eq s Hleg)
    as (lb & la & l0 & h' & Hsub & _ & _ & _ & _ & _ & _ & Heq).
  rewrite Hst in Heq. simpl default in Heq.
  assert (h' !! l = Some (ODict d)) as Hl' by (by eapply lookup_weaken).
  destruct (py_eq_num (default (VInt 0) (d !! KEY_SCHEMA_VERSION))
              DEFAULT_SCHEMA_VERSION) eqn:Hv.
  - apply py_eq_num_default in Hv as (v & Hd & Hv).
    exists (with_heap h' s), d. split.
    { rewrite Heq. erewrite bind_run; [done|].
      by eapply migrate_current. }
    assert (settled s l) as Hs.
    { split; [done|]. split; [done|]. split; [done|]. by exists d, v. }
    split; [by apply settled_grow|].
    split; [by apply frame_but_grow|].
    split; [done|]. split; [done|]. split; [by exists []|]. done.
  - set (d1 := <[KEY_SCHEMA_VERSION := VFloat DEFAULT_SCHEMA_VERSION]> d).
    set (s1 := with_db_prefs settings_key (VRef l)
                 (with_heap (<[l := ODict d1]> h') s)).
    exists s1, d1. split.
    { rewrite Heq. erewrite bind_run; [done|].
      by apply (migrate_outdated l d (with_heap h' s)). }
    assert (heap s1 !! l = Some (ODict d1)) as Hl1.
    { simpl. by rewrite lookup_insert_eq. }
    assert (frame_but l s s1) as Hfr.
    { eapply frame_but_trans; [by apply (frame_but_grow l s h')|].
      eapply frame_but_trans;
        [apply (frame_but_update l (with_heap h' s) (ODict d1))|].
      by apply frame_but_save. }
    split.
    { destruct Hfr as (Hpp & _ & Hid & _ & Hdb & Hfr).
      split; [|split; [by rewrite Hpp|split; [by rewrite Hdb|]]].
      - eapply legacy_entry_keeps; [done|done| |done].
        intros ll Hp [o Ho]. rewrite Ho. apply Hfr; [|done]. congruence.
      - exists d1, (VFloat DEFAULT_SCHEMA_VERSION). split; [done|].
        split; [|done]. subst d1. by rewrite lookup_insert_eq. }
    split; [done|]. split; [done|]. split.
    { intros k Hk. subst d1. by rewrite lookup_insert_ne. }
    split; [by eexists [_]|].
    intros (v & Hd & Hv'). rewrite Hd in Hv. simpl in Hv. congruence.
Qed.

(** One block of lines 102 to 107 in a settled library: with the legacy map
    present, the map leaves the record, an empty list takes the place of the
    exemptions and the record is saved; without it nothing happens. *)
Lemma discard_one_settled k_old k_new s l d :
  settled s l → heap s !! l = Some (ODict d) →
  k_old ≠ KEY_SCHEMA_VERSION → k_new ≠ KEY_SCHEMA_VERSION → k_old ≠ k_new →
  ∃ s' d', discard_one k_old k_new (VRef l) s = Ok (tt, s') ∧
    settled s' l ∧ frame_but l s s' ∧
    heap s' !! l = Some (ODict d') ∧
    d' !! k_old = None ∧
    (∀ k, k ≠ k_old → k ≠ k_new → d' !! k = d !! k) ∧
    (∃ rows, db_writes s' = (rows ++ db_writes s)%list) ∧
    (is_Some (d !! k_old) →
     ∃ le, d' !! k_new = Some (VRef le) ∧ heap s' !! le = Some (OList []) ∧
       heap s !! le = None ∧
       db_writes s' = (settings_key, VRef l, heap s') :: db_writes s) ∧
    (d !! k_old = None → d' = d ∧ s' = s).
Proof.
  intros Hs Hl Hold Hnew Hne. unfold discard_one.
  erewrite bind_run; cycle 1.
  { apply read_run. simpl. by rewrite Hl. }
  destruct (d !! k_old) as [vold|] eqn:Hk.
  - rewrite bool_decide_eq_true_2 by eauto.
    set (d2 := delete k_old d).
    set (s2 := with_heap (<[l := ODict d2]> (heap s)) s).
    assert (py_delitem (VRef l) k_old s = Ok (tt, s2)) as Hdel.
    { unfold py_delitem. by rewrite Hl, Hk. }
    rewrite (bind_run _ _ _ _ _ Hdel).
    assert (heap s2 !! l = Some (ODict d2)) as Hl2.
    { simpl. by rewrite lookup_insert_eq. }
    assert (frame_but l s s2) as Hfr2 by apply frame_but_update.
    assert (settled s2 l) as Hs2.
    { eapply settled_keep; [done|done|].
      destruct Hs as (_ & _ & _ & d0 & v & Hl0 & Hd0 & Hv).
      assert (d0 = d) as -> by congruence.
      exists d2, v. split; [done|]. split; [|done].
      subst d2. by rewrite lookup_delete_ne. }
    pose proof (fresh_loc_None (heap s2)) as Hfresh.
    set (le := fresh_loc (heap s2)) in *.
    set (s3 := with_heap (<[le := OList []]> (heap s2)) s2).
    assert (alloc (OList []) s2 = Ok (VRef le, s3)) as Hal by done.
    rewrite (bind_run _ _ _ _ _ Hal).
    assert (heap s2 ⊆ heap s3) as Hsub3 by (by apply insert_subseteq).
    assert (settled s3 l) as Hs3 by (by apply (settled_grow s2)).
    assert (heap s3 !! l = Some (ODict d2)) as Hl3 by (by eapply lookup_weaken).
    destruct (set_exemption_list_settled s3 l d2 k_new (VRef le) Hs3 Hl3)
      as (h' & Hsub' & Hset).
    rewrite Hset.
    set (d' := <[k_new := VRef le]> d2).
    set (s4 := with_db_prefs _ _ _).
    assert (le ≠ l) as Hle by congruence.
    assert (heap s4 !! l = Some (ODict d')) as Hl4.
    { simpl. by rewrite lookup_insert_eq. }
    assert (frame_but l s s4) as Hfr4.
    { eapply frame_but_trans; [exact Hfr2|].
      eapply frame_but_trans; [apply (frame_but_grow l s2 (heap s3) Hsub3)|].
      eapply frame_but_trans; [apply (frame_but_grow l s3 h' Hsub')|].
      eapply frame_but_trans;
        [apply (frame_but_update l (with_heap h' s3) (ODict d'))|].
      apply frame_but_save. by destruct Hs as (_ & _ & ? & _). }
    exists s4, d'. split; [done|]. split.
    { eapply settled_keep; [exact Hs|done|].
      destruct Hs2 as (_ & _ & _ & d0 & v & Hl0 & Hd0 & Hv).
      assert (d0 = d2) as -> by congruence.
      exists d', v. split; [done|]. split; [|done].
      subst d'. by rewrite lookup_insert_ne. }
    split; [done|]. split; [done|]. split.
    { subst d' d2. rewrite lookup_insert_ne by done. apply lookup_delete_eq. }
    split.
    { intros k Hk1 Hk2. subst d' d2.
      rewrite lookup_insert_ne by done. by rewrite lookup_delete_ne. }
    split; [by eexists [_]|]. split.
    + intros _. exists le. split; [subst d'; by rewrite lookup_insert_eq|].
      split.
      { simpl. rewrite lookup_insert_ne by done.
        eapply lookup_weaken; [|exact Hsub']. simpl. apply lookup_insert_eq. }
      split; [|done].
      simpl in Hfresh. by rewrite lookup_insert_ne in Hfresh.
    + discriminate.
  - rewrite bool_decide_eq_false_2 by (by intros [? ?]).
    exists s, d. split; [done|]. split; [done|].
    split; [apply frame_but_refl|]. split; [done|]. split; [done|].
    split; [done|]. split; [by exists []|]. split; [by intros [? ?]|done].
Qed.

Lemma discard_legacy_maps_eq lc s :
  discard_legacy_maps lc s
  = (discard_one "bookNotDuplicates" KEY_BOOK_EXEMPTIONS lc;;
     discard_one "authorNotDuplicates" KEY_AUTHOR_EXEMPTIONS lc) s.
Proof.
  unfold discard_legacy_maps, discard_one. by rewrite !bind_assoc.
Qed.

(** *** What the loop leaves alone *)

Lemma loop_frame_refl B s : loop_frame B s s.
Proof.
  split; [by rewrite with_heap_id|]. split; [done|]. split; [done|].
  intros l xs Hl. exists xs. split; [done|]. split; [done|]. by left.
Qed.

Lemma loop_frame_trans B s1 s2 s3 :
  loop_frame B s1 s2 → loop_frame B s2 s3 → loop_frame B s1 s3.
Proof.
  intros (E12 & D12 & O12 & L12) (E23 & D23 & O23 & L23). split.
  { rewrite E23, E12. done. }
  split; [intros l d Hl; by apply D23, D12|].
  split; [intros l o Hl Hne; apply O23; [|done]; by apply O12|].
  intros l xs Hl.
  destruct (L12 l xs Hl) as (xs2 & Hl2 & Hlen2 & Hel2).
  destruct (L23 l xs2 Hl2) as (xs3 & Hl3 & Hlen3 & Hel3).
  exists xs3. split; [done|]. split; [congruence|].
  intros v Hv. destruct (Hel3 v Hv) as [Hv2|?]; [|by right]. by apply Hel2.
Qed.

Lemma prune_at_frame B idx c s c' s' :
  prune_at B idx c s = Ok (c', s') → loop_frame B s s'.
Proof.
  intros H. apply prune_at_Ok in H as (old & items & lN & Ho & Hi & HlN & H).
  simpl in H.
  destruct H as [(_ & _ & ->)|(_ & _ & lB & xs & -> & HlB & Hlt & Hne & ->)].
  - split; [done|]. simpl.
    assert (∀ l o, heap s !! l = Some o →
                   <[lN := OList (List.filter (known (db_data s)) items)]>
                     (heap s) !! l = Some o) as Hkeep.
    { intros l o Hl. rewrite lookup_insert_ne; [done|]. congruence. }
    split; [intros l d Hl; by apply Hkeep|].
    split; [intros l o Hl _; by apply Hkeep|].
    intros l xs Hl. exists xs. split; [by apply Hkeep|]. split; [done|].
    by left.
  - split; [done|]. simpl.
    assert (∀ l o, heap s !! l = Some o → l ≠ lB →
                   <[lB := OList (<[idx := VRef lN]> xs)]>
                     (<[lN := OList (List.filter (known (db_data s)) items)]>
                        (heap s)) !! l = Some o) as Hkeep.
    { intros l o Hl HlB'. rewrite lookup_insert_ne by done.
      rewrite lookup_insert_ne; [done|]. congruence. }
    split; [intros l d Hl; apply Hkeep; [done|congruence]|].
    split; [intros l o Hl HB; apply Hkeep; [done|congruence]|].
    intros l ys Hl. destruct (decide (l = lB)) as [->|HlB'].
    + assert (ys = xs) as -> by congruence.
      exists (<[idx := VRef lN]> xs). rewrite lookup_insert_eq.
      split; [done|]. split; [by rewrite length_insert|].
      intros v Hv. apply list_elem_of_lookup in Hv as [j Hj].
      destruct (decide (j = idx)) as [->|Hj'].
      * rewrite list_lookup_insert_eq in Hj by done. injection Hj as <-.
        right. by exists lN.
      * rewrite list_lookup_insert_ne in Hj by done. left.
        by eapply list_elem_of_lookup_2.
    + exists ys. split; [by apply Hkeep|]. split; [done|]. by left.
Qed.

Lemma prune_loop_frame B idxs : ∀ c s c' s',
  prune_loop B idxs c s = Ok (c', s') → loop_frame B s s'.
Proof.
  induction idxs as [|idx idxs IH]; intros c s c' s' H; simpl in H.
  - apply ret_Ok in H as [-> ->]. apply loop_frame_refl.
  - apply bind_Ok in H as (c1 & s1 & H1 & H).
    eapply loop_frame_trans; [by eapply prune_at_frame|by eapply IH].
Qed.

Lemma legacy_entry_loop B s s' :
  legacy_entry s = Ok false → loop_frame B s s' → legacy_entry s' = Ok false.
Proof.
  unfold legacy_entry. intros H (Hs' & HD & _ & HL).
  assert (plugin_prefs s' = plugin_prefs s) as -> by (by rewrite Hs').
  assert (library_id s' = library_id s) as -> by (by rewrite Hs').
  destruct (plugin_prefs s !! "libraries") as [libs|]; [|done].
  destruct libs as [| | | | |ll]; try done. simpl in *.
  destruct (heap s !! ll) as [[xs|d]|] eqn:Hl; [| |done].
  - destruct (HL ll xs Hl) as (xs' & -> & _ & Hel). f_equal.
    injection H as H.
    destruct (existsb (py_eq_str (library_id s)) xs') eqn:Hex; [|done].
    apply existsb_exists in Hex as (v & Hv & Heq).
    apply list_elem_of_In in Hv. destruct (Hel v Hv) as [Hv'|[l' ->]].
    + rewrite <- H. symmetry. apply existsb_exists. exists v.
      split; [by apply list_elem_of_In|done].
    + discriminate.
  - by rewrite (HD ll d Hl).
Qed.

Lemma settled_loop B s s' l :
  settled s l → loop_frame B s s' → settled s' l.
Proof.
  intros (Hleg & Hne & Hst & d & v & Hl & Hd & Hv) Hfr.
  split; [by eapply legacy_entry_loop|].
  destruct Hfr as (Hs' & HD & _).
  split; [by rewrite Hs'|]. split; [by rewrite Hs'|].
  exists d, v. split; [|done]. by apply HD.
Qed.

(** On groups that hold book ids only the loop changes nothing: it reports
    no change and only drops the lists it has built. *)
Lemma prune_loop_unchanged lB xs idxs : ∀ c s c' s',
  prune_loop (VRef lB) idxs c s = Ok (c', s') →
  heap s !! lB = Some (OList xs) →
  Forall (pruned (db_data s) (heap s)) xs →
  c' = c ∧ heap s ⊆ heap s' ∧ s' = with_heap (heap s') s.
Proof.
  induction idxs as [|idx idxs IH]; intros c s c' s' H HlB Hall; simpl in H.
  - apply ret_Ok in H as [-> ->]. by rewrite with_heap_id.
  - apply bind_Ok in H as (c1 & s1 & H1 & H).
    apply prune_at_Ok in H1 as (old & items & lN & Ho & Hi & HlN & H1).
    simpl in H1. unfold py_index in Ho. rewrite HlB in Ho.
    destruct (xs !! idx) as [old'|] eqn:Hidx; [|discriminate].
    injection Ho as ->.
    destruct H1 as [(_ & -> & ->)|(Hlen & _)].
    + assert (heap s ⊆ <[lN := OList (List.filter (known (db_data s)) items)]>
                         (heap s)) as Hsub by (by apply insert_subseteq).
      destruct (IH _ _ _ _ H) as (-> & Hsub' & Hs').
      * simpl. by eapply lookup_weaken.
      * simpl. eapply Forall_impl; [exact Hall|].
        intros x Hx. by eapply pruned_weaken.
      * split; [done|]. split; [by etrans|]. by rewrite Hs'.
    + exfalso. apply Hlen.
      assert (pruned (db_data s) (heap s) old) as (ys & Hys & Hk).
      { eapply (proj1 (Forall_forall _ _) Hall), list_elem_of_lookup_2.
        exact Hidx. }
      assert (ys = items) as -> by congruence.
      clear -Hk. induction Hk as [|y ys Hy _ IH]; simpl; [done|].
      rewrite Hy. simpl. by rewrite IH.
Qed.

(** Lines 109 to 119 in a settled library.  The record changes under
    'bookExemptions' at most; a list is kept unless it is the non-empty list
    of book exemptions; and when every group of that list holds book ids
    only, the list is returned as it is and nothing is written. *)
Lemma prune_book_exemptions_settled l s d b s' :
  settled s l → heap s !! l = Some (ODict d) →
  prune_book_exemptions (VRef l) s = Ok (b, s') →
  settled s' l ∧ db_data s' = db_data s ∧
  (∃ rows, db_writes s' = (rows ++ db_writes s)%list) ∧
  (∃ d', heap s' !! l = Some (ODict d') ∧
     ∀ k, k ≠ KEY_BOOK_EXEMPTIONS → d' !! k = d !! k) ∧
  (∀ la ys, heap s !! la = Some (OList ys) →
     d !! KEY_BOOK_EXEMPTIONS ≠ Some (VRef la) ∨ ys = [] →
     heap s' !! la = Some (OList ys)) ∧
  (∀ lb xs, d !! KEY_BOOK_EXEMPTIONS = Some (VRef lb) →
     heap s !! lb = Some (OList xs) →
     Forall (pruned (db_data s) (heap s)) xs →
     b = VRef lb ∧ heap s' !! lb = Some (OList xs) ∧
     heap s' !! l = Some (ODict d) ∧
     db_writes s' = db_writes s ∧ db_prefs s' = db_prefs s).
Proof.
  intros Hs Hl. unfold prune_book_exemptions. intros H.
  apply bind_Ok in H as (dflt & s0' & Ha & H).
  apply alloc_Ok in Ha as [-> ->].
  pose proof (fresh_loc_None (heap s)) as Hl0.
  set (l0 := fresh_loc (heap s)) in *.
  set (s0 := with_heap (<[l0 := OList []]> (heap s)) s) in *.
  assert (heap s ⊆ heap s0) as Hsub0 by (by apply insert_subseteq).
  assert (settled s0 l) as Hs0 by (by apply (settled_grow s)).
  assert (heap s0 !! l = Some (ODict d)) as Hl' by (by eapply lookup_weaken).
  apply bind_Ok in H as (B & s1 & HB & H). apply read_Ok in HB as [HB ->].
  unfold py_get in HB. rewrite Hl' in HB. injection HB as HB.
  apply bind_Ok in H as (n & s1 & Hn & H). apply read_Ok in Hn as [Hn ->].
  apply bind_Ok in H as (c & sM & Hloop & H).
  pose proof (prune_loop_frame _ _ _ _ _ _ Hloop) as Hfr.
  assert (settled sM l) as HsM by (by eapply settled_loop).
  pose proof Hfr as (HsMeq & HD & HO & _).
  assert (heap sM !! l = Some (ODict d)) as HlM by (by apply HD).
  assert (db_data sM = db_data s) as HdataM by (by rewrite HsMeq).
  assert (db_writes sM = db_writes s) as HwM by (by rewrite HsMeq).
  assert (db_prefs sM = db_prefs s) as HpM by (by rewrite HsMeq).
  (* the lists that the loop keeps *)
  assert (∀ la ys, heap s !! la = Some (OList ys) →
            d !! KEY_BOOK_EXEMPTIONS ≠ Some (VRef la) ∨ ys = [] →
            heap sM !! la = Some (OList ys)) as HkeepM.
  { intros la ys Hla Hor.
    assert (heap s0 !! la = Some (OList ys)) as Hla0
      by (by eapply lookup_weaken).
    destruct (decide (B = VRef la)) as [HBla|HBla]; [|by apply HO].
    destruct Hor as [Hne| ->].
    - exfalso. subst B.
      destruct (d !! KEY_BOOK_EXEMPTIONS) as [vb|] eqn:Hdb; simpl in HBla.
      + by subst vb.
      + injection HBla as <-. congruence.
    - subst B. rewrite HBla in Hn. unfold py_len in Hn. rewrite Hla0 in Hn.
      injection Hn as <-. rewrite HBla in Hloop. simpl in Hloop.
      apply ret_Ok in Hloop as [_ ->]. done. }
  (* the groups that need no pruning *)
  assert (∀ lb xs, d !! KEY_BOOK_EXEMPTIONS = Some (VRef lb) →
            heap s !! lb = Some (OList xs) →
            Forall (pruned (db_data s) (heap s)) xs →
            B = VRef lb ∧ c = false ∧ heap sM !! lb = Some (OList xs))
    as Hsame.
  { intros lb xs Hdb Hlb Hall. rewrite Hdb in HB. simpl in HB. subst B.
    assert (heap s0 !! lb = Some (OList xs)) as Hlb0
      by (by eapply lookup_weaken).
    destruct (prune_loop_unchanged lb xs _ _ _ _ _ Hloop Hlb0)
      as (-> & HsubM & _).
    { eapply Forall_impl; [exact Hall|]. intros x Hx.
      by eapply pruned_weaken. }
    split; [done|]. split; [done|]. by eapply lookup_weaken. }
  destruct c.
  - apply bind_Ok in H as (items & s2 & Hi & H).
    apply read_Ok in Hi as [Hi ->].
    apply bind_Ok in H as (kept & s2 & Hk & H).
    apply filterM_nonempty in Hk as [-> _].
    apply bind_Ok in H as (b' & sK' & Ha & H).
    apply alloc_Ok in Ha as [-> ->].
    pose proof (fresh_loc_None (heap sM)) as HlKn.
    set (lK := fresh_loc (heap sM)) in *.
    set (sK := with_heap (<[lK := OList kept]> (heap sM)) sM) in *.
    assert (heap sM ⊆ heap sK) as HsubK by (by apply insert_subseteq).
    assert (settled sK l) as HsK by (by apply (settled_grow sM)).
    assert (heap sK !! l = Some (ODict d)) as HlK by (by eapply lookup_weaken).
    apply bind_Ok in H as ([] & s3 & Hset & H).
    apply ret_Ok in H as [-> ->].
    destruct (set_exemption_list_settled sK l d KEY_BOOK_EXEMPTIONS (VRef lK)
                HsK HlK) as (h' & Hsub' & Hset').
    rewrite Hset' in Hset. injection Hset as <-.
    set (d' := <[KEY_BOOK_EXEMPTIONS := VRef lK]> d).
    split.
    { eapply settled_keep; [exact HsK| |].
      - eapply frame_but_trans; [apply (frame_but_grow l sK h' Hsub')|].
        eapply frame_but_trans;
          [apply (frame_but_update l (with_heap h' sK) (ODict d'))|].
        apply frame_but_save. by destruct HsK as (_ & _ & ? & _).
      - destruct HsK as (_ & _ & _ & d0 & v & Hl0' & Hd0 & Hv).
        assert (d0 = d) as -> by congruence.
        exists d', v. split; [simpl; by rewrite lookup_insert_eq|].
        split; [|done]. subst d'. by rewrite lookup_insert_ne. }
    split; [done|].
    split; [simpl; rewrite HwM; by eexists [_]|].
    split.
    { exists d'. split; [simpl; by rewrite lookup_insert_eq|].
      intros k Hk'. subst d'. by rewrite lookup_insert_ne. }
    split.
    { intros la ys Hla Hor. simpl.
      rewrite lookup_insert_ne by congruence.
      eapply lookup_weaken; [|exact Hsub'].
      eapply lookup_weaken; [|exact HsubK]. by apply HkeepM. }
    intros lb xs Hdb Hlb Hall.
    by destruct (Hsame lb xs Hdb Hlb Hall) as (_ & ? & _).
  - apply ret_Ok in H as [-> ->].
    split; [done|]. split; [done|].
    split; [rewrite HwM; by exists []|].
    split; [by exists d|]. split; [done|].
    intros lb xs Hdb Hlb Hall.
    destruct (Hsame lb xs Hdb Hlb Hall) as (-> & _ & HlbM).
    by repeat split.
Qed.

(** ** The exemptions of a library whose record is stored *)

Lemma get_exemption_lists_run s l s1 s2 s3 :
  get_library_config s = Ok (VRef l, s1) →
  discard_one "bookNotDuplicates" KEY_BOOK_EXEMPTIONS (VRef l) s1
    = Ok (tt, s2) →
  discard_one "authorNotDuplicates" KEY_AUTHOR_EXEMPTIONS (VRef l) s2
    = Ok (tt, s3) →
  get_exemption_lists s =
  (do book_exemptions <- prune_book_exemptions (VRef l);
   do dflt <- alloc (OList []);
   do author_exemptions <- read (py_get (VRef l) KEY_AUTHOR_EXEMPTIONS dflt);
   ret (book_exemptions, author_exemptions)) s3.
Proof.
  intros Hg H1 H2. rewrite get_exemption_lists_eq.
  rewrite (bind_run _ _ _ _ _ Hg).
  erewrite (bind_run (discard_legacy_maps _)); [done|].
  rewrite discard_legacy_maps_eq.
  by rewrite (bind_run _ _ _ _ _ H1).
Qed.

Lemma libraries_apart_settled s l :
  libraries_apart s = true →
  db_prefs s !! settings_key = Some (VRef l) →
  plugin_prefs s !! "libraries" ≠ Some (VRef l).
Proof.
  intros Hap Hst Hp. by apply (libraries_apart_stored s l Hap Hp).
Qed.

(** With an empty list under 'bookExemptions' lines 109 to 119 return it and
    change nothing. *)
Lemma prune_book_exemptions_empty l d lb s :
  heap s !! l = Some (ODict d) →
  d !! KEY_BOOK_EXEMPTIONS = Some (VRef lb) →
  heap s !! lb = Some (OList []) →
  ∃ h', heap s ⊆ h' ∧
    prune_book_exemptions (VRef l) s = Ok (VRef lb, with_heap h' s).
Proof.
  intros Hl Hd Hlb.
  pose proof (fresh_loc_None (heap s)) as Hl0.
  set (h' := <[fresh_loc (heap s) := OList []]> (heap s)).
  assert (heap s ⊆ h') as Hsub by (by apply insert_subseteq).
  exists h'. split; [done|]. unfold prune_book_exemptions.
  erewrite (bind_run (alloc _)) by done.
  erewrite bind_run; cycle 1.
  { apply read_run. unfold py_get. cbn [heap with_heap]. fold h'.
    by rewrite (lookup_weaken _ _ _ _ Hl Hsub), Hd. }
  erewrite bind_run; cycle 1.
  { apply read_run. unfold py_len. cbn [heap with_heap]. fold h'. simpl.
    by rewrite (lookup_weaken _ _ _ _ Hlb Hsub). }
  done.
Qed.

(** C9 (amended): the legacy maps of version 1.0 are discarded, not
    converted, and they do leave the stored record.  For a library without a
    legacy record in the JSON file (a tree, see [libraries_apart]), whose
    stored record is a dictionary with the key 'bookNotDuplicates',
    [get_exemption_lists] returns; the book exemptions it returns are a new
    empty list; that list is what the stored record holds under
    'bookExemptions'; a row with it has been written to the per-library
    store; and the stored record, in memory and in that row, no longer has the
    key 'bookNotDuplicates', because the object [get_library_config] hands
    out is the stored record itself.  The same holds for
    'authorNotDuplicates' and 'authorExemptions' whenever the call returns. *)
Theorem legacy_maps_discarded (s : state) (l : loc) (d : gmap string pyval) :
  legacy_entry s = Ok false →
  libraries_apart s = true →
  db_prefs s !! settings_key = Some (VRef l) →
  heap s !! l = Some (ODict d) →
  (is_Some (d !! "bookNotDuplicates") →
   ∃ lb a s' d' rows row,
     get_exemption_lists s = Ok ((VRef lb, a), s') ∧
     heap s' !! lb = Some (OList []) ∧
     db_prefs s' !! settings_key = Some (VRef l) ∧
     heap s' !! l = Some (ODict d') ∧
     d' !! KEY_BOOK_EXEMPTIONS = Some (VRef lb) ∧
     d' !! "bookNotDuplicates" = None ∧
     db_writes s' = (rows ++ db_writes s)%list ∧ row ∈ rows ∧
     saved_empty "bookNotDuplicates" KEY_BOOK_EXEMPTIONS l lb row) ∧
  (is_Some (d !! "authorNotDuplicates") →
   ∀ b a s', get_exemption_lists s = Ok ((b, a), s') →
   ∃ la d' rows row,
     a = VRef la ∧ heap s' !! la = Some (OList []) ∧
     db_prefs s' !! settings_key = Some (VRef l) ∧
     heap s' !! l = Some (ODict d') ∧
     d' !! KEY_AUTHOR_EXEMPTIONS = Some (VRef la) ∧
     d' !! "authorNotDuplicates" = None ∧
     db_writes s' = (rows ++ db_writes s)%list ∧ row ∈ rows ∧
     saved_empty "authorNotDuplicates" KEY_AUTHOR_EXEMPTIONS l la row).
Proof.
  intros Hleg Hap Hst Hl.
  pose proof (libraries_apart_settled s l Hap Hst) as Hne.
  destruct (get_library_config_stored s l d Hleg Hne Hst Hl)
    as (s1 & d1 & Hg & Hs1 & Hfr1 & Hl1 & Hd1 & [rows1 Hw1] & _).
  destruct (discard_one_settled "bookNotDuplicates" KEY_BOOK_EXEMPTIONS
              s1 l d1 Hs1 Hl1)
    as (s2 & d2 & H1 & Hs2 & Hfr2 & Hl2 & Hold2 & Hd2 & [rows2 Hw2]
        & Hyes2 & _); [done..|].
  destruct (discard_one_settled "authorNotDuplicates" KEY_AUTHOR_EXEMPTIONS
              s2 l d2 Hs2 Hl2)
    as (s3 & d3 & H2 & Hs3 & Hfr3 & Hl3 & Hold3 & Hd3 & [rows3 Hw3]
        & Hyes3 & _); [done..|].
  pose proof (get_exemption_lists_run s l s1 s2 s3 Hg H1 H2) as Hrun.
  assert (db_prefs s3 !! settings_key = Some (VRef l)) as Hst3
    by (by destruct Hs3 as (_ & _ & ? & _)).
  split.
  - intros Hbook. rewrite <- (Hd1 "bookNotDuplicates") in Hbook by done.
    destruct (Hyes2 Hbook) as (lb & Hb2 & Hlb2 & _ & Hrow).
    assert (lb ≠ l) as Hlb by congruence.
    assert (heap s3 !! lb = Some (OList [])) as Hlb3.
    { destruct Hfr3 as (_ & _ & _ & _ & _ & Hfr3). by apply Hfr3. }
    assert (d3 !! KEY_BOOK_EXEMPTIONS = Some (VRef lb)) as Hb3.
    { rewrite Hd3 by done. done. }
    destruct (prune_book_exemptions_empty l d3 lb s3 Hl3 Hb3 Hlb3)
      as (h4 & Hsub4 & Hp).
    pose proof (fresh_loc_None h4) as Hl5.
    set (h5 := <[fresh_loc h4 := OList []]> h4).
    assert (h4 ⊆ h5) as Hsub5 by (by apply insert_subseteq).
    assert (heap s3 ⊆ h5) as Hsub by (by etrans).
    exists lb, (default (VRef (fresh_loc h4)) (d3 !! KEY_AUTHOR_EXEMPTIONS)),
      (with_heap h5 s3), d3,
      ((rows3 ++ (settings_key, VRef l, heap s2) :: rows1)%list),
      (settings_key, VRef l, heap s2).
    split.
    { rewrite Hrun. rewrite (bind_run _ _ _ _ _ Hp).
      erewrite (bind_run (alloc _)) by done.
      erewrite bind_run; cycle 1.
      { apply read_run. unfold py_get. cbn [heap with_heap]. fold h5.
        by rewrite (lookup_weaken _ _ _ _ Hl3 Hsub). }
      done. }
    split; [by eapply lookup_weaken|]. split; [done|].
    split; [by eapply lookup_weaken|]. split; [done|].
    split; [rewrite Hd3 by done; done|].
    split.
    { simpl. rewrite Hw3, Hrow, Hw1. by rewrite <- !app_assoc. }
    split.
    { apply elem_of_app. right. by left. }
    exists (heap s2), d2. by repeat split.
  - intros Hauthor b a s' Hgel.
    rewrite <- (Hd1 "authorNotDuplicates") in Hauthor by done.
    rewrite <- (Hd2 "authorNotDuplicates") in Hauthor by done.
    destruct (Hyes3 Hauthor) as (la & Ha3 & Hla3 & _ & Hrow).
    rewrite Hrun in Hgel.
    apply bind_Ok in Hgel as (b' & s4 & Hp & Hgel).
    apply bind_Ok in Hgel as (dflt & s5 & Hal & Hgel).
    apply alloc_Ok in Hal as [-> ->].
    apply bind_Ok in Hgel as (a' & s6 & Hget & Hgel).
    apply read_Ok in Hget as [Hget ->].
    apply ret_Ok in Hgel as [[= <- <-] ->].
    destruct (prune_book_exemptions_settled l s3 d3 b s4 Hs3 Hl3 Hp)
      as (Hs4 & _ & [rows4 Hw4] & (d4 & Hl4 & Hd4) & Hlists & _).
    pose proof (alloc_grows (OList []) s4) as Hsub5.
    assert (d4 !! KEY_AUTHOR_EXEMPTIONS = Some (VRef la)) as Ha4.
    { rewrite Hd4 by done. done. }
    unfold py_get in Hget. cbn [heap with_heap] in Hget.
    rewrite (lookup_weaken _ _ _ _ Hl4 Hsub5), Ha4 in Hget.
    injection Hget as <-.
    exists la, d4,
      ((rows4 ++ (settings_key, VRef l, heap s3) :: rows2 ++ rows1)%list),
      (settings_key, VRef l, heap s3).
    split; [done|].
    split.
    { simpl. eapply lookup_weaken; [|exact Hsub5]. apply Hlists; [done|].
      by right. }
    split; [by destruct Hs4 as (_ & _ & ? & _)|].
    split; [by eapply lookup_weaken|]. split; [done|].
    split; [rewrite Hd4 by done; done|].
    split.
    { simpl. rewrite Hw4, Hrow, Hw2, Hw1.
      repeat (rewrite <- app_assoc || rewrite <- app_comm_cons). done. }
    split.
    { apply elem_of_app. right. by left. }
    exists (heap s3), d3. by repeat split.
Qed.

Lemma legacy_maps_discarded_witness :
  (is_Some (list_to_map (M := gmap string pyval)
              [("bookNotDuplicates", VRef 2);
               (KEY_BOOK_EXEMPTIONS, VRef 3);
               (KEY_AUTHOR_EXEMPTIONS, VRef 5)] !! "bookNotDuplicates") →
   ∃ lb a s' d' rows row,
     get_exemption_lists st_v10 = Ok ((VRef lb, a), s') ∧
     heap s' !! lb = Some (OList []) ∧
     db_prefs s' !! settings_key = Some (VRef 1) ∧
     heap s' !! 1%positive = Some (ODict d') ∧
     d' !! KEY_BOOK_EXEMPTIONS = Some (VRef lb) ∧
     d' !! "bookNotDuplicates" = None ∧
     db_writes s' = (rows ++ db_writes st_v10)%list ∧ row ∈ rows ∧
     saved_empty "bookNotDuplicates" KEY_BOOK_EXEMPTIONS 1 lb row) ∧
  (is_Some (list_to_map (M := gmap string pyval)
              [("bookNotDuplicates", VRef 2);
               (KEY_BOOK_EXEMPTIONS, VRef 3);
               (KEY_AUTHOR_EXEMPTIONS, VRef 5)] !! "authorNotDuplicates") →
   ∀ b a s', get_exemption_lists st_v10 = Ok ((b, a), s') →
   ∃ la d' rows row,
     a = VRef la ∧ heap s' !! la = Some (OList []) ∧
     db_prefs s' !! settings_key = Some (VRef 1) ∧
     heap s' !! 1%positive = Some (ODict d') ∧
     d' !! KEY_AUTHOR_EXEMPTIONS = Some (VRef la) ∧
     d' !! "authorNotDuplicates" = None ∧
     db_writes s' = (rows ++ db_writes st_v10)%list ∧ row ∈ rows ∧
     saved_empty "authorNotDuplicates" KEY_AUTHOR_EXEMPTIONS 1 la row).
Proof.
  apply (legacy_maps_discarded st_v10 1).
  - vm_compute. reflexivity.
  - vm_compute. reflexivity.
  - vm_compute. reflexivity.
  - vm_compute. reflexivity.
Defined.

(** C9, the claim as stated fails.  On [st_v10], whose stored record has the
    key 'bookNotDuplicates', the key is gone from the stored record after
    [get_exemption_lists], in memory and in the last row written; the claim
    says it is still there.  On [st_v10_legacy], where the JSON file has a
    record for the library as well, the stored record has the key and the
    book exemptions returned are not empty. *)
Lemma legacy_key_kept_counterexample :
  (db_prefs st_v10 !! settings_key = Some (VRef 1) ∧
   py_contains (VRef 1) "bookNotDuplicates" (heap st_v10) = Ok true ∧
   get_exemption_lists st_v10
     = Ok ((VRef 9, VRef 5), exec get_exemption_lists st_v10) ∧
   db_prefs (exec get_exemption_lists st_v10) !! settings_key
     = Some (VRef 1) ∧
   py_contains (VRef 1) "bookNotDuplicates"
     (heap (exec get_exemption_lists st_v10)) = Ok false ∧
   match head (db_writes (exec get_exemption_lists st_v10)) with
   | Some (k, v, h) =>
       k = settings_key ∧ v = VRef 1 ∧
       py_contains (VRef 1) "bookNotDuplicates" h = Ok false
   | None => False
   end) ∧
  (db_prefs st_v10_legacy !! settings_key = Some (VRef 1) ∧
   py_contains (VRef 1) "bookNotDuplicates" (heap st_v10_legacy) = Ok true ∧
   get_exemption_lists st_v10_legacy
     = Ok ((VRef 8, VRef 5), exec get_exemption_lists st_v10_legacy) ∧
   heap (exec get_exemption_lists st_v10_legacy) !! 8%positive
     = Some (OList [VRef 4]) ∧
   heap (exec get_exemption_lists st_v10_legacy) !! 4%positive
     = Some (OList [VInt 1; VInt 2])).
Proof.
  split.
  - split; [vm_compute; reflexivity|]. split; [vm_compute; reflexivity|].
    split; [apply eval_exec; vm_compute; reflexivity|].
    split; [vm_compute; reflexivity|]. split; [vm_compute; reflexivity|].
    vm_compute. by repeat split.
  - split; [vm_compute; reflexivity|]. split; [vm_compute; reflexivity|].
    split; [apply eval_exec; vm_compute; reflexivity|].
    split; vm_compute; reflexivity.
Qed.

Lemma id_list_pruned data h x : id_list data h x → pruned data h x.
Proof.
  intros (lx & ys & -> & Hlx & Hall). exists ys. split; [|done].
  simpl. by rewrite Hlx.
Qed.

Lemma id_list_frame data l s s' x d :
  heap s !! l = Some (ODict d) → frame_but l s s' →
  id_list data (heap s) x → id_list data (heap s') x.
Proof.
  intros Hl (_ & _ & _ & _ & _ & Hfr) (lx & ys & -> & Hlx & Hall).
  exists lx, ys. split; [done|]. split; [|done].
  apply Hfr; [congruence|done].
Qed.

(** Lines 109 to 119 change no object but the record and the list of book
    exemptions: the lists the loop builds are new, and only the list it runs
    over is assigned to. *)
Lemma prune_book_exemptions_frame l s d b s' :
  settled s l → heap s !! l = Some (ODict d) →
  prune_book_exemptions (VRef l) s = Ok (b, s') →
  ∀ l' o, l' ≠ l → d !! KEY_BOOK_EXEMPTIONS ≠ Some (VRef l') →
    heap s !! l' = Some o → heap s' !! l' = Some o.
Proof.
  intros Hs Hl H l' o Hl'l Hbook Ho. unfold prune_book_exemptions in H.
  apply bind_Ok in H as (dflt & s0' & Ha & H).
  apply alloc_Ok in Ha as [-> ->].
  pose proof (fresh_loc_None (heap s)) as Hl0.
  set (l0 := fresh_loc (heap s)) in *.
  set (s0 := with_heap (<[l0 := OList []]> (heap s)) s) in *.
  assert (heap s ⊆ heap s0) as Hsub0 by (by apply insert_subseteq).
  assert (settled s0 l) as Hs0 by (by apply (settled_grow s)).
  assert (heap s0 !! l = Some (ODict d)) as Hl' by (by eapply lookup_weaken).
  apply bind_Ok in H as (B & s1 & HB & H). apply read_Ok in HB as [HB ->].
  unfold py_get in HB. rewrite Hl' in HB. injection HB as HB.
  apply bind_Ok in H as (n & s1 & Hn & H). apply read_Ok in Hn as [Hn ->].
  apply bind_Ok in H as (c & sM & Hloop & H).
  pose proof (prune_loop_frame _ _ _ _ _ _ Hloop) as Hfr.
  assert (settled sM l) as HsM by (by eapply settled_loop).
  pose proof Hfr as (HsMeq & HD & HO & _).
  assert (heap sM !! l = Some (ODict d)) as HlM by (by apply HD).
  assert (heap sM !! l' = Some o) as HoM.
  { apply HO; [by eapply lookup_weaken|]. subst B.
    destruct (d !! KEY_BOOK_EXEMPTIONS) as [vb|]; simpl.
    - by intros ->.
    - intros [= ->]. congruence. }
  destruct c.
  - apply bind_Ok in H as (items & s2 & Hi & H).
    apply read_Ok in Hi as [Hi ->].
    apply bind_Ok in H as (kept & s2 & Hk & H).
    apply filterM_nonempty in Hk as [-> _].
    apply bind_Ok in H as (b' & sK' & Ha & H).
    apply alloc_Ok in Ha as [-> ->].
    set (lK := fresh_loc (heap sM)) in *.
    set (sK := with_heap (<[lK := OList kept]> (heap sM)) sM) in *.
    assert (heap sM ⊆ heap sK) as HsubK by apply alloc_grows.
    assert (settled sK l) as HsK by (by apply (settled_grow sM)).
    assert (heap sK !! l = Some (ODict d)) as HlK by (by eapply lookup_weaken).
    apply bind_Ok in H as ([] & s3 & Hset & H).
    apply ret_Ok in H as [-> ->].
    destruct (set_exemption_list_settled sK l d KEY_BOOK_EXEMPTIONS (VRef lK)
                HsK HlK) as (h' & Hsub' & Hset').
    rewrite Hset' in Hset. injection Hset as <-.
    simpl. rewrite lookup_insert_ne by done.
    eapply lookup_weaken; [|exact Hsub'].
    by eapply lookup_weaken.
  - by apply ret_Ok in H as [-> ->].
Qed.

(** C10 (amended): only the book exemptions are pruned, and apart from the
    legacy maps of C9 the author exemptions are not touched.  For a library
    without a legacy record in the JSON file (a tree, see [libraries_apart])
    whose stored record is a dictionary without the key
    'authorNotDuplicates': whenever [get_exemption_lists] returns, the author
    exemptions it returns are the very value the record held under
    'authorExemptions', which the record still holds; when that value is a
    list other than the list of book exemptions its content is as it was,
    and so is every group in it, since every object other than the record
    and the list of book exemptions is as it was.
    If moreover the record has no 'bookNotDuplicates' and every group of its
    list of book exemptions is a list of book ids of the library, that list
    is returned as it is, empty groups included, with every group as it was,
    and nothing is written if the schema version was current. *)
Theorem only_books_pruned (s s' : state) (l : loc) (d : gmap string pyval)
    (b a : pyval) :
  legacy_entry s = Ok false →
  libraries_apart s = true →
  db_prefs s !! settings_key = Some (VRef l) →
  heap s !! l = Some (ODict d) →
  d !! "authorNotDuplicates" = None →
  get_exemption_lists s = Ok ((b, a), s') →
  (∀ va, d !! KEY_AUTHOR_EXEMPTIONS = Some va →
     a = va ∧
     (∃ d', heap s' !! l = Some (ODict d') ∧
        d' !! KEY_AUTHOR_EXEMPTIONS = Some va) ∧
     (∀ la ys, va = VRef la → heap s !! la = Some (OList ys) →
        d !! KEY_BOOK_EXEMPTIONS ≠ Some (VRef la) →
        heap s' !! la = Some (OList ys)) ∧
     (∀ la ys lg g, va = VRef la → heap s !! la = Some (OList ys) →
        VRef lg ∈ ys → heap s !! lg = Some g →
        lg ≠ l → d !! KEY_BOOK_EXEMPTIONS ≠ Some (VRef lg) →
        heap s' !! lg = Some g)) ∧
  (∀ l' o, l' ≠ l → d !! KEY_BOOK_EXEMPTIONS ≠ Some (VRef l') →
     heap s !! l' = Some o → heap s' !! l' = Some o) ∧
  (d !! "bookNotDuplicates" = None →
   ∀ lb xs, d !! KEY_BOOK_EXEMPTIONS = Some (VRef lb) →
     heap s !! lb = Some (OList xs) →
     Forall (id_list (db_data s) (heap s)) xs →
     b = VRef lb ∧ heap s' !! lb = Some (OList xs) ∧
     (∀ lx ys, VRef lx ∈ xs → heap s !! lx = Some (OList ys) →
        heap s' !! lx = Some (OList ys)) ∧
     (∃ d', heap s' !! l = Some (ODict d') ∧
        d' !! KEY_BOOK_EXEMPTIONS = Some (VRef lb)) ∧
     ((∃ v, d !! KEY_SCHEMA_VERSION = Some v ∧
            py_eq_num v DEFAULT_SCHEMA_VERSION = true) →
      db_writes s' = db_writes s ∧ db_prefs s' = db_prefs s)).
Proof.
  intros Hleg Hap Hst Hl Hnoauth Hgel.
  pose proof (libraries_apart_settled s l Hap Hst) as Hne.
  destruct (get_library_config_stored s l d Hleg Hne Hst Hl)
    as (s1 & d1 & Hg & Hs1 & Hfr1 & Hl1 & Hd1 & _ & Hcur).
  destruct (discard_one_settled "bookNotDuplicates" KEY_BOOK_EXEMPTIONS
              s1 l d1 Hs1 Hl1)
    as (s2 & d2 & H1 & Hs2 & Hfr2 & Hl2 & Hold2 & Hd2 & _ & Hyes2 & Hno2);
    [done..|].
  destruct (discard_one_settled "authorNotDuplicates" KEY_AUTHOR_EXEMPTIONS
              s2 l d2 Hs2 Hl2)
    as (s3 & d3 & H2 & Hs3 & Hfr3 & Hl3 & _ & _ & _ & _ & Hno3); [done..|].
  destruct Hno3 as [-> ->].
  { rewrite Hd2 by done. rewrite Hd1 by done. done. }
  rewrite (get_exemption_lists_run s l s1 s2 s2 Hg H1 H2) in Hgel.
  apply bind_Ok in Hgel as (b' & s4 & Hp & Hgel).
  apply bind_Ok in Hgel as (dflt & s5 & Hal & Hgel).
  apply alloc_Ok in Hal as [-> ->].
  apply bind_Ok in Hgel as (a' & s6 & Hget & Hgel).
  apply read_Ok in Hget as [Hget ->].
  apply ret_Ok in Hgel as [[= <- <-] ->].
  destruct (prune_book_exemptions_settled l s2 d2 b s4 Hs2 Hl2 Hp)
    as (Hs4 & _ & _ & (d4 & Hl4 & Hd4) & Hlists & Hsame).
  pose proof (prune_book_exemptions_frame l s2 d2 b s4 Hs2 Hl2 Hp) as Hobjs.
  pose proof (alloc_grows (OList []) s4) as Hsub5.
  unfold py_get in Hget. cbn [heap with_heap] in Hget.
  rewrite (lookup_weaken _ _ _ _ Hl4 Hsub5) in Hget. injection Hget as <-.
  assert (frame_but l s s2) as Hfr by (by eapply frame_but_trans).
  assert (∀ la ys, heap s !! la = Some (OList ys) →
                   heap s2 !! la = Some (OList ys)) as Hkeep.
  { intros la ys Hla. destruct Hfr as (_ & _ & _ & _ & _ & Hfr).
    apply Hfr; [congruence|done]. }
  (* every object but the record and the list of book exemptions is kept *)
  assert (∀ l' o, l' ≠ l → d !! KEY_BOOK_EXEMPTIONS ≠ Some (VRef l') →
            heap s !! l' = Some o →
            heap (with_heap (<[fresh_loc (heap s4) := OList []]> (heap s4)) s4)
              !! l' = Some o) as Hframe.
  { intros l' o Hl'l Hbook Ho. simpl.
    eapply lookup_weaken; [|exact Hsub5].
    assert (heap s1 !! l' = Some o) as Ho1.
    { destruct Hfr1 as (_ & _ & _ & _ & _ & Hfr1). by apply Hfr1. }
    assert (heap s2 !! l' = Some o) as Ho2.
    { destruct Hfr as (_ & _ & _ & _ & _ & Hfr'). by apply Hfr'. }
    apply Hobjs; [done| |done].
    destruct (d1 !! "bookNotDuplicates") as [vold|] eqn:Hold.
    + destruct Hyes2 as (lb & Hb2 & _ & Hlb1 & _); [by eauto|].
      rewrite Hb2. intros [= ->]. congruence.
    + destruct (Hno2 eq_refl) as [-> _]. by rewrite Hd1. }
  split; [|split; [exact Hframe|]].
  - intros va Hva.
    assert (d4 !! KEY_AUTHOR_EXEMPTIONS = Some va) as Ha4.
    { rewrite Hd4 by done. rewrite Hd2 by done. rewrite Hd1 by done. done. }
    rewrite Ha4. split; [done|]. split.
    { exists d4. split; [|done]. simpl. by eapply lookup_weaken. }
    split.
    { intros la ys -> Hla Hbook. apply Hframe; [congruence|done..]. }
    intros la ys lg g -> Hla Hin Hlg Hlgl Hbook. by apply Hframe.
  - intros Hnobook lb xs Hb Hlb Hall.
    destruct Hno2 as [-> ->]; [by rewrite Hd1|].
    assert (d1 !! KEY_BOOK_EXEMPTIONS = Some (VRef lb)) as Hb1
      by (by rewrite Hd1).
    destruct (Hsame lb xs Hb1 (Hkeep lb xs Hlb))
      as (-> & Hlb4 & Hl4' & Hw4 & Hp4).
    { pose proof Hfr1 as (_ & _ & _ & Hdata & _). rewrite Hdata.
      eapply Forall_impl; [exact Hall|]. intros x Hx.
      apply id_list_pruned. exact (id_list_frame _ l s s1 x d Hl Hfr Hx). }
    split; [done|]. split; [simpl; by eapply lookup_weaken|]. split.
    { intros lx ys Hin Hlx. simpl. eapply lookup_weaken; [|exact Hsub5].
      apply Hlists; [by apply Hkeep|]. left. rewrite Hb1. intros [= ->].
      (* a group that is the list of groups itself holds references *)
      assert (ys = xs) as -> by congruence.
      destruct (proj1 (Forall_forall _ _) Hall _ Hin)
        as (lz & zs & [= <-] & Hlx' & Hk).
      assert (zs = xs) as -> by congruence.
      by pose proof (proj1 (Forall_forall _ _) Hk _ Hin). }
    split.
    { exists d1. split; [simpl; by eapply lookup_weaken|done]. }
    intros Hv. destruct (Hcur Hv) as (_ & Hw1 & Hp1). simpl.
    split; congruence.
Qed.

Lemma only_books_pruned_witness :
  (∀ va, list_to_map (M := gmap string pyval)
           [(KEY_BOOK_EXEMPTIONS, VRef 2); (KEY_AUTHOR_EXEMPTIONS, VRef 5);
            (KEY_SCHEMA_VERSION, VFloat DEFAULT_SCHEMA_VERSION)]
         !! KEY_AUTHOR_EXEMPTIONS = Some va →
     VRef 5 = va ∧
     (∃ d', heap (exec get_exemption_lists st_clean) !! 1%positive
              = Some (ODict d') ∧
        d' !! KEY_AUTHOR_EXEMPTIONS = Some va) ∧
     (∀ la ys, va = VRef la → heap st_clean !! la = Some (OList ys) →
        list_to_map (M := gmap string pyval)
          [(KEY_BOOK_EXEMPTIONS, VRef 2); (KEY_AUTHOR_EXEMPTIONS, VRef 5);
           (KEY_SCHEMA_VERSION, VFloat DEFAULT_SCHEMA_VERSION)]
        !! KEY_BOOK_EXEMPTIONS ≠ Some (VRef la) →
        heap (exec get_exemption_lists st_clean) !! la = Some (OList ys)) ∧
     (∀ la ys lg g, va = VRef la → heap st_clean !! la = Some (OList ys) →
        VRef lg ∈ ys → heap st_clean !! lg = Some g →
        lg ≠ 1%positive →
        list_to_map (M := gmap string pyval)
          [(KEY_BOOK_EXEMPTIONS, VRef 2); (KEY_AUTHOR_EXEMPTIONS, VRef 5);
           (KEY_SCHEMA_VERSION, VFloat DEFAULT_SCHEMA_VERSION)]
        !! KEY_BOOK_EXEMPTIONS ≠ Some (VRef lg) →
        heap (exec get_exemption_lists st_clean) !! lg = Some g)) ∧
  (∀ l' o, l' ≠ 1%positive →
     list_to_map (M := gmap string pyval)
       [(KEY_BOOK_EXEMPTIONS, VRef 2); (KEY_AUTHOR_EXEMPTIONS, VRef 5);
        (KEY_SCHEMA_VERSION, VFloat DEFAULT_SCHEMA_VERSION)]
     !! KEY_BOOK_EXEMPTIONS ≠ Some (VRef l') →
     heap st_clean !! l' = Some o →
     heap (exec get_exemption_lists st_clean) !! l' = Some o) ∧
  (list_to_map (M := gmap string pyval)
     [(KEY_BOOK_EXEMPTIONS, VRef 2); (KEY_AUTHOR_EXEMPTIONS, VRef 5);
      (KEY_SCHEMA_VERSION, VFloat DEFAULT_SCHEMA_VERSION)]
   !! "bookNotDuplicates" = None →
   ∀ lb xs,
     list_to_map (M := gmap string pyval)
       [(KEY_BOOK_EXEMPTIONS, VRef 2); (KEY_AUTHOR_EXEMPTIONS, VRef 5);
        (KEY_SCHEMA_VERSION, VFloat DEFAULT_SCHEMA_VERSION)]
     !! KEY_BOOK_EXEMPTIONS = Some (VRef lb) →
     heap st_clean !! lb = Some (OList xs) →
     Forall (id_list (db_data st_clean) (heap st_clean)) xs →
     VRef 2 = VRef lb ∧
     heap (exec get_exemption_lists st_clean) !! lb = Some (OList xs) ∧
     (∀ lx ys, VRef lx ∈ xs → heap st_clean !! lx = Some (OList ys) →
        heap (exec get_exemption_lists st_clean) !! lx = Some (OList ys)) ∧
     (∃ d', heap (exec get_exemption_lists st_clean) !! 1%positive
              = Some (ODict d') ∧
        d' !! KEY_BOOK_EXEMPTIONS = Some (VRef lb)) ∧
     ((∃ v, list_to_map (M := gmap string pyval)
              [(KEY_BOOK_EXEMPTIONS, VRef 2); (KEY_AUTHOR_EXEMPTIONS, VRef 5);
               (KEY_SCHEMA_VERSION, VFloat DEFAULT_SCHEMA_VERSION)]
            !! KEY_SCHEMA_VERSION = Some v ∧
            py_eq_num v DEFAULT_SCHEMA_VERSION = true) →
      db_writes (exec get_exemption_lists st_clean) = db_writes st_clean ∧
      db_prefs (exec get_exemption_lists st_clean) = db_prefs st_clean)).
Proof.
  apply (only_books_pruned st_clean _ 1).
  - vm_compute. reflexivity.
  - vm_compute. reflexivity.
  - vm_compute. reflexivity.
  - vm_compute. reflexivity.
  - vm_compute. reflexivity.
  - apply eval_exec. vm_compute. reflexivity.
Defined.

(** C10, the claim as stated fails.  On [st_v10_author] the stored record
    holds the list at 5, one group of two authors, under 'authorExemptions',
    next to the legacy map 'authorNotDuplicates', and its schema version is
    current.  [get_exemption_lists] returns a new empty list instead, puts
    it in the record and writes the record back. *)
Lemma author_exemptions_as_stored_counterexample :
  py_getitem (VRef 1) KEY_AUTHOR_EXEMPTIONS (heap st_v10_author)
    = Ok (VRef 5) ∧
  heap st_v10_author !! 5%positive = Some (OList [VRef 6]) ∧
  get_exemption_lists st_v10_author
    = Ok ((VRef 3, VRef 10), exec get_exemption_lists st_v10_author) ∧
  heap (exec get_exemption_lists st_v10_author) !! 10%positive
    = Some (OList []) ∧
  py_getitem (VRef 1) KEY_AUTHOR_EXEMPTIONS
    (heap (exec get_exemption_lists st_v10_author)) = Ok (VRef 10) ∧
  db_writes st_v10_author = [] ∧
  length (db_writes (exec get_exemption_lists st_v10_author)) = 1%nat.
Proof.
  split; [vm_compute; reflexivity|]. split; [vm_compute; reflexivity|].
  split; [apply eval_exec; vm_compute; reflexivity|].
  repeat split; vm_compute; reflexivity.
Qed.

(** ** The legacy record whose schema version is not current *)

(** X10: a legacy record whose schema version is missing or differs from 1.5
    is moved.  [get_library_config] returns it, stamped, and the per-library
    store holds it, in memory and in the row written. *)
Lemma legacy_record_migrated s ll dl lj dj :
  plugin_prefs s !! "libraries" = Some (VRef ll) →
  heap s !! ll = Some (ODict dl) →
  dl !! library_id s = Some (VRef lj) →
  lj ≠ ll →
  heap s !! lj = Some (ODict dj) →
  py_eq_num (default (VInt 0) (dj !! KEY_SCHEMA_VERSION))
    DEFAULT_SCHEMA_VERSION = false →
  ∃ s', get_library_config s = Ok (VRef lj, s') ∧
    db_prefs s' !! settings_key = Some (VRef lj) ∧
    heap s' !! lj
      = Some (ODict (<[KEY_SCHEMA_VERSION := VFloat DEFAULT_SCHEMA_VERSION]>
                      dj)) ∧
    db_writes s' = (settings_key, VRef lj, heap s') :: db_writes s.
Proof.
  intros Hp Hll HJ Hne Hlj Hv.
  rewrite (get_library_config_legacy s ll dl (VRef lj) Hp Hll HJ).
  set (s1 := legacy_removed ll dl s).
  assert (heap s1 = <[ll := ODict (delete (library_id s) dl)]> (heap s)) as Hh1.
  { unfold s1, legacy_removed. by destruct (_ =? _)%nat. }
  assert (db_writes s1 = db_writes s) as Hw1.
  { unfold s1, legacy_removed. by destruct (_ =? _)%nat. }
  assert (heap s1 !! lj = Some (ODict dj)) as Hlj1.
  { rewrite Hh1. by rewrite lookup_insert_ne. }
  eexists. split.
  { unfold get_library_config_tail. simpl is_None. cbv iota.
    erewrite (bind_run (ret _)) by done.
    erewrite bind_run; [done|]. by apply migrate_outdated. }
  simpl. rewrite !lookup_insert_eq. by rewrite Hw1.
Qed.


(** ** The configuration widget *)

Lemma append_nil (s : string) : "" +:+ s = s.
Proof. reflexivity. Qed.

Lemma append_cons a (p s : string) : String a p +:+ s = String a (p +:+ s).
Proof. reflexivity. Qed.

Lemma startswith_spec s p : startswith s p = true ↔ ∃ q, s = p +:+ q.
Proof.
  unfold startswith. revert s. induction p as [|a p IH]; intros s.
  - split; [intros _; by exists s|by destruct s].
  - destruct s as [|b s]; simpl.
    + split; [done|]. intros [q Hq]. discriminate.
    + destruct (Ascii.ascii_dec a b) as [->|Hab].
      * rewrite IH. split; intros [q Hq]; exists q.
        -- by rewrite append_cons, Hq.
        -- rewrite append_cons in Hq. congruence.
      * split; [done|]. intros [q Hq]. rewrite append_cons in Hq. congruence.
Qed.

Lemma endswith_spec s p : endswith s p = true ↔ ∃ q, s = q +:+ p.
Proof.
  induction s as [|a s IH]; cbn [endswith].
  - rewrite orb_false_r, String.eqb_eq. split.
    + intros <-. by exists "".
    + intros [q Hq]. destruct q; [done|discriminate].
  - rewrite orb_true_iff, String.eqb_eq, IH. split.
    + intros [<-|[q ->]]; [by exists ""|by exists (String a q)].
    + intros [q Hq]. destruct q as [|b q]; [by left|].
      rewrite append_cons in Hq. right. exists q. congruence.
Qed.

Lemma is_False_spec v : is_False v = true ↔ v = VBool false.
Proof. destruct v as [|[]| | | |]; simpl; naive_solver. Qed.

Lemma reset_dialog_lookup c k key :
  dynamic (reset_dialog c k) !! key =
  if bool_decide (key = k) && is_dialog_flag key
     && is_False (dynamic_getitem key c)
  then Some (VBool true) else dynamic c !! key.
Proof.
  unfold reset_dialog, is_dialog_flag. case_bool_decide as Hk.
  - subst k. simpl.
    destruct (_ && _ && _); [|done]. simpl. by rewrite lookup_insert_eq.
  - simpl. destruct (_ && _ && _); [|done]. simpl. by rewrite lookup_insert_ne.
Qed.

(** The loop over any list of keys: a flag among them that is [False]
    becomes [True], every other entry stays. *)
Lemma reset_loop_lookup ks : ∀ c key,
  dynamic (foldl reset_dialog c ks) !! key =
  if bool_decide (key ∈ ks) && is_dialog_flag key
     && is_False (dynamic_getitem key c)
  then Some (VBool true) else dynamic c !! key.
Proof.
  induction ks as [|k ks IH]; intros c key; cbn [foldl].
  - rewrite bool_decide_eq_false_2; [done|]. apply not_elem_of_nil.
  - rewrite IH. unfold dynamic_getitem at 1. rewrite !reset_dialog_lookup.
    unfold dynamic_getitem.
    destruct (decide (key = k)) as [->|Hne].
    + rewrite (bool_decide_eq_true_2 (k = k)) by done.
      rewrite (bool_decide_eq_true_2 (k ∈ k :: ks)) by left.
      simpl. destruct (is_dialog_flag k); simpl.
      * destruct (is_False (default VNone (dynamic c !! k))) eqn:HF; simpl.
        -- by rewrite andb_false_r.
        -- rewrite HF. rewrite andb_false_r. done.
      * by rewrite andb_false_r.
    + rewrite (bool_decide_eq_false_2 (key = k)) by done. simpl.
      rewrite (bool_decide_ext (key ∈ k :: ks) (key ∈ ks)); [done|].
      rewrite elem_of_cons. split; [by intros [?|?]|by right].
Qed.

(** What [reset_dialogs] leaves under a key. *)
Lemma reset_dialogs_entry (c : dynamic_config) (key : string) :
  dynamic (reset_dialogs c) !! key =
  if is_dialog_flag key && bool_decide (dynamic c !! key = Some (VBool false))
  then Some (VBool true) else dynamic c !! key.
Proof.
  unfold reset_dialogs. rewrite reset_loop_lookup. unfold dynamic_getitem.
  destruct (dynamic c !! key) as [v|] eqn:Hk; simpl.
  - rewrite bool_decide_eq_true_2; [|].
    + simpl. destruct (is_dialog_flag key); simpl; [|done].
      destruct (is_False v) eqn:HF.
      * apply is_False_spec in HF as ->. by rewrite bool_decide_eq_true_2.
      * rewrite bool_decide_eq_false_2; [done|]. intros [= ->]. done.
    + apply list_elem_of_fmap. exists (key, v). split; [done|].
      by apply elem_of_map_to_list.
  - by rewrite !andb_false_r.
Qed.

(** A loop over keys none of which is a flag that is [False] changes
    nothing. *)
Lemma reset_loop_fixed ks : ∀ c,
  (∀ k, k ∈ ks → is_dialog_flag k && is_False (dynamic_getitem k c) = false) →
  foldl reset_dialog c ks = c.
Proof.
  induction ks as [|k ks IH]; intros c H; simpl; [done|].
  assert (reset_dialog c k = c) as ->.
  { unfold reset_dialog. fold (is_dialog_flag k). rewrite H; [done|left]. }
  apply IH. intros k' Hk'. apply H. by right.
Qed.

Lemma is_dialog_flag_spec key :
  is_dialog_flag key = true ↔
  (∃ q, key = "find_duplicates_" +:+ q) ∧ (∃ q, key = q +:+ "_again").
Proof.
  unfold is_dialog_flag.
  by rewrite andb_true_iff, startswith_spec, endswith_spec.
Qed.

(** X2: after [reset_dialogs], every key of [dynamic] that starts with
    'find_duplicates_', ends with '_again' and held [False] holds [True];
    every other entry is as before, whether its key has another form or its
    value is not [False] (0 and [None] are not); no key is added or
    removed. *)
Theorem reset_dialogs_resets_flags (c : dynamic_config) :
  (∀ p q, "find_duplicates_" +:+ p = q +:+ "_again" →
     dynamic c !! ("find_duplicates_" +:+ p) = Some (VBool false) →
     dynamic (reset_dialogs c) !! ("find_duplicates_" +:+ p)
     = Some (VBool true)) ∧
  (∀ key, (¬ ∃ p q, key = "find_duplicates_" +:+ p ∧ key = q +:+ "_again") →
     dynamic (reset_dialogs c) !! key = dynamic c !! key) ∧
  (∀ key, dynamic c !! key ≠ Some (VBool false) →
     dynamic (reset_dialogs c) !! key = dynamic c !! key) ∧
  dom (dynamic (reset_dialogs c)) = dom (dynamic c).
Proof.
  split; [|split; [|split]].
  - intros p q Hpq Hk. rewrite reset_dialogs_entry.
    rewrite bool_decide_eq_true_2 by done.
    assert (is_dialog_flag ("find_duplicates_" +:+ p) = true) as ->; [|done].
    apply is_dialog_flag_spec. split; [by exists p|by exists q].
  - intros key Hkey. rewrite reset_dialogs_entry.
    destruct (is_dialog_flag key) eqn:Hf; [|done].
    apply is_dialog_flag_spec in Hf as [[p Hp] [q Hq]].
    destruct Hkey. by exists p, q.
  - intros key Hkey. rewrite reset_dialogs_entry.
    rewrite (bool_decide_eq_false_2 _ Hkey). by rewrite andb_false_r.
  - apply set_eq. intros key. rewrite !elem_of_dom, reset_dialogs_entry.
    destruct (_ && _) eqn:Hb; [|done].
    apply andb_true_iff in Hb as [_ Hb]. apply bool_decide_eq_true in Hb.
    rewrite Hb. by split.
Qed.

(** X3: [reset_dialogs] is idempotent: once it has run, a second run finds no
    flag to reset, so it changes nothing and commits nothing. *)
Theorem reset_dialogs_idempotent (c : dynamic_config) :
  reset_dialogs (reset_dialogs c) = reset_dialogs c.
Proof.
  unfold reset_dialogs at 1. apply reset_loop_fixed. intros k _.
  unfold dynamic_getitem. rewrite reset_dialogs_entry.
  destruct (is_dialog_flag k) eqn:Hf; [|done]. simpl.
  case_bool_decide as Hk; simpl; [done|].
  destruct (dynamic c !! k) as [v|]; [|done]. simpl.
  destruct (is_False v) eqn:HF; [|done].
  apply is_False_spec in HF as ->. done.
Qed.

(** Over keys that are all different, the loop commits the file once for
    each flag it resets. *)
Lemma reset_loop_commits ks : ∀ c,
  NoDup ks →
  length (dynamic_commits (foldl reset_dialog c ks)) =
  (length (dynamic_commits c) +
   length (List.filter
             (λ k, is_dialog_flag k && is_False (dynamic_getitem k c)) ks))%nat.
Proof.
  induction ks as [|k ks IH]; intros c Hnd; simpl; [lia|].
  apply NoDup_cons in Hnd as [Hk Hnd]. rewrite IH by done.
  assert (List.filter
            (λ k0, is_dialog_flag k0
                   && is_False (dynamic_getitem k0 (reset_dialog c k))) ks
          = List.filter
              (λ k0, is_dialog_flag k0 && is_False (dynamic_getitem k0 c)) ks)
    as ->.
  { apply filter_ext_in. intros k0 Hk0. apply list_elem_of_In in Hk0.
    unfold dynamic_getitem. rewrite reset_dialog_lookup.
    rewrite (bool_decide_eq_false_2 (k0 = k)); [done|]. by intros ->. }
  unfold reset_dialog at 1. fold (is_dialog_flag k).
  destruct (is_dialog_flag k && is_False (dynamic_getitem k c)); simpl; lia.
Qed.

(** X4: [reset_dialogs] commits the file of [dynamic] once for every flag it
    resets, and not at all when there is none. *)
Theorem reset_dialogs_commits (c : dynamic_config) :
  length (dynamic_commits (reset_dialogs c)) =
  (length (dynamic_commits c) +
   length (List.filter (λ kv, is_dialog_flag kv.1 && is_False kv.2)
                       (map_to_list (dynamic c))))%nat.
Proof.
  unfold reset_dialogs. rewrite reset_loop_commits
    by apply NoDup_fst_map_to_list.
  f_equal.
  assert (∀ kvs : list (string * pyval),
            (∀ kv, kv ∈ kvs → dynamic_getitem kv.1 c = kv.2) →
            length (List.filter
                      (λ k, is_dialog_flag k && is_False (dynamic_getitem k c))
                      kvs.*1)
            = length (List.filter
                        (λ kv, is_dialog_flag kv.1 && is_False kv.2) kvs))
    as Hlen.
  { induction kvs as [|[k v] kvs IH]; intros Hget; [done|].
    pose proof (Hget (k, v) ltac:(left)) as Hkv. simpl in Hkv.
    rewrite fmap_cons. cbn [List.filter fst snd]. rewrite Hkv.
    assert (∀ kv, kv ∈ kvs → dynamic_getitem kv.1 c = kv.2) as Hget'.
    { intros kv Hkv'. apply Hget. by right. }
    specialize (IH Hget').
    destruct (is_dialog_flag k && is_False v); cbn [length]; by rewrite IH. }
  apply Hlen. intros [k v] Hkv. apply elem_of_map_to_list in Hkv.
  unfold dynamic_getitem. simpl. by rewrite Hkv.
Qed.

(** X1: [save_settings] always returns and leaves the JSON file without the
    legacy key 'options': the key is deleted, with one commit, when it was
    there, and nothing happens when it was not.  The other keys of the file,
    the library records among them, the objects and the per-library store
    are untouched, and a second call changes nothing. *)
Theorem save_settings_drops_options (s : state) :
  ∃ s', save_settings s = Ok (tt, s') ∧
    plugin_prefs s' = delete "options" (plugin_prefs s) ∧
    heap s' = heap s ∧ db_prefs s' = db_prefs s ∧
    db_writes s' = db_writes s ∧
    legacy_entry s' = legacy_entry s ∧
    json_commits s' =
      (if bool_decide (is_Some (plugin_prefs s !! "options"))
       then (plugin_prefs s', heap s) :: json_commits s
       else json_commits s) ∧
    save_settings s' = Ok (tt, s').
Proof.
  unfold save_settings, bind, plugin_prefs_contains, plugin_prefs_delitem, ret.
  destruct (plugin_prefs s !! "options") as [v|] eqn:Ho.
  - rewrite bool_decide_eq_true_2 by done. rewrite Ho.
    eexists. split; [done|]. simpl. rewrite lookup_delete_eq.
    rewrite bool_decide_eq_false_2 by (by intros [? ?]).
    repeat split; try done.
    unfold legacy_entry. simpl. by rewrite lookup_delete_ne.
  - rewrite bool_decide_eq_false_2 by (by intros [? ?]).
    exists s. rewrite Ho. rewrite bool_decide_eq_false_2 by (by intros [? ?]).
    repeat split; try done. by rewrite delete_id.
Qed.

(** ** Saving into a stored record *)

(** X5: with a record in the per-library store, [set_exemption_list] always
    returns and changes the entry under [config_key] only (and the schema
    version, when the record was out of date): every other entry of the
    record and every other object is kept, the JSON file is not touched, and
    the latest row of the preference table holds the record as it now is. *)
Theorem set_exemption_list_changes_one_key (s : state) (l : loc)
    (d : gmap string pyval) (k : string) (v : pyval) :
  legacy_entry s = Ok false →
  libraries_apart s = true →
  db_prefs s !! settings_key = Some (VRef l) →
  heap s !! l = Some (ODict d) →
  ∃ s' d' rows,
    set_exemption_list k v s = Ok (tt, s') ∧
    heap s' !! l = Some (ODict d') ∧
    d' !! k = Some v ∧
    (∀ k', k' ≠ k → k' ≠ KEY_SCHEMA_VERSION → d' !! k' = d !! k') ∧
    (∀ l' o, l' ≠ l → heap s !! l' = Some o → heap s' !! l' = Some o) ∧
    db_prefs s' !! settings_key = Some (VRef l) ∧
    db_writes s' = ((settings_key, VRef l, heap s') :: rows ++ db_writes s)%list ∧
    plugin_prefs s' = plugin_prefs s ∧ json_commits s' = json_commits s.
Proof.
  intros Hleg Hap Hdb Hl.
  pose proof (libraries_apart_settled s l Hap Hdb) as Hne.
  destruct (get_library_config_stored s l d Hleg Hne Hdb Hl)
    as (s1 & d1 & Hg & _ & Hfr & Hl1 & Hagree & [rows Hrows] & _).
  destruct Hfr as (Hpp & Hjc & _ & _ & _ & Hheap).
  exists (with_db_prefs settings_key (VRef l)
            (with_heap (<[l := ODict (<[k := v]> d1)]> (heap s1)) s1)),
    (<[k := v]> d1), rows.
  split.
  { unfold set_exemption_list. rewrite (bind_run _ _ _ _ _ Hg). cbv beta.
    by rewrite (bind_run _ _ _ _ _ (py_setitem_run l d1 k v s1 Hl1)). }
  simpl. rewrite !lookup_insert_eq. repeat split; try done.
  - intros k' Hk' Hsv. rewrite lookup_insert_ne by done. by apply Hagree.
  - intros l' o Hl' Ho. rewrite lookup_insert_ne by done. by apply Hheap.
  - by rewrite Hrows.
Qed.

Lemma set_exemption_list_changes_one_key_witness :
  ∃ s' d' rows,
    set_exemption_list KEY_BOOK_EXEMPTIONS (VRef 5) st_stored = Ok (tt, s') ∧
    heap s' !! 1%positive = Some (ODict d') ∧
    d' !! KEY_BOOK_EXEMPTIONS = Some (VRef 5) ∧
    (∀ k', k' ≠ KEY_BOOK_EXEMPTIONS → k' ≠ KEY_SCHEMA_VERSION →
       d' !! k' = (list_to_map [(KEY_BOOK_EXEMPTIONS, VRef 2);
                                (KEY_AUTHOR_EXEMPTIONS, VRef 5)]
                   : gmap string pyval) !! k') ∧
    (∀ l' o, l' ≠ 1%positive → heap st_stored !! l' = Some o →
       heap s' !! l' = Some o) ∧
    db_prefs s' !! settings_key = Some (VRef 1) ∧
    db_writes s'
      = ((settings_key, VRef 1, heap s') :: rows ++ db_writes st_stored)%list ∧
    plugin_prefs s' = plugin_prefs st_stored ∧
    json_commits s' = json_commits st_stored.
Proof.
  apply (set_exemption_list_changes_one_key st_stored 1
           (list_to_map [(KEY_BOOK_EXEMPTIONS, VRef 2);
                         (KEY_AUTHOR_EXEMPTIONS, VRef 5)])
           KEY_BOOK_EXEMPTIONS (VRef 5)).
  - vm_compute. reflexivity.
  - vm_compute. reflexivity.
  - vm_compute. reflexivity.
  - vm_compute. reflexivity.
Defined.

(** X6: the first save in a library that has nothing stored creates the
    record: [set_exemption_list] returns, and the per-library store then
    holds a new dictionary, the defaults with the saved list under
    [config_key], written in one row. *)
Theorem first_save_creates_record (s : state) (k : string) (v : pyval) :
  legacy_entry s = Ok false →
  db_prefs s !! settings_key = None →
  ∃ l lb la s',
    set_exemption_list k v s = Ok (tt, s') ∧
    heap s !! l = None ∧
    heap s' !! l
      = Some (ODict (<[k := v]> (DEFAULT_LIBRARY_VALUES (VRef lb) (VRef la)))) ∧
    heap s' !! lb = Some (OList []) ∧ heap s' !! la = Some (OList []) ∧
    (∀ l' o, heap s !! l' = Some o → heap s' !! l' = Some o) ∧
    db_prefs s' = <[settings_key := VRef l]> (db_prefs s) ∧
    db_writes s' = (settings_key, VRef l, heap s') :: db_writes s ∧
    plugin_prefs s' = plugin_prefs s.
Proof.
  intros Hleg Hdb.
  destruct (get_library_config_no_legacy_eq s Hleg)
    as (lb & la & l & h' & Hsub & Hl & Hlb & Hla & Hnl & Hnlb & Hnla & Hg).
  rewrite Hdb in Hg. simpl in Hg.
  assert (get_library_config s = Ok (VRef l, with_heap h' s)) as Hg'.
  { rewrite Hg.
    erewrite bind_run; [done|].
    eapply migrate_current; [done|exact Hl|apply DEFAULT_lookup_version|done]. }
  exists l, lb, la. eexists. split.
  { unfold set_exemption_list. rewrite (bind_run _ _ _ _ _ Hg'). cbv beta.
    erewrite bind_run; [|by apply py_setitem_run]. done. }
  simpl. rewrite !lookup_insert_eq.
  assert (lb ≠ l) by (intros ->; congruence).
  assert (la ≠ l) by (intros ->; congruence).
  rewrite !lookup_insert_ne by done. repeat split; try done.
  intros l' o Ho. rewrite lookup_insert_ne by (intros ->; congruence).
  by eapply lookup_weaken.
Qed.

Lemma first_save_creates_record_witness :
  ∃ l lb la s',
    set_exemption_list KEY_AUTHOR_EXEMPTIONS (VInt 7) st_empty = Ok (tt, s') ∧
    heap st_empty !! l = None ∧
    heap s' !! l
      = Some (ODict (<[KEY_AUTHOR_EXEMPTIONS := VInt 7]>
                       (DEFAULT_LIBRARY_VALUES (VRef lb) (VRef la)))) ∧
    heap s' !! lb = Some (OList []) ∧ heap s' !! la = Some (OList []) ∧
    (∀ l' o, heap st_empty !! l' = Some o → heap s' !! l' = Some o) ∧
    db_prefs s' = <[settings_key := VRef l]> (db_prefs st_empty) ∧
    db_writes s' = (settings_key, VRef l, heap s') :: db_writes st_empty ∧
    plugin_prefs s' = plugin_prefs st_empty.
Proof.
  apply (first_save_creates_record st_empty KEY_AUTHOR_EXEMPTIONS (VInt 7)).
  - vm_compute. reflexivity.
  - vm_compute. reflexivity.
Defined.

Lemma legacy_record_migrated_witness :
  ∃ s', get_library_config st_legacy_old = Ok (VRef 2, s') ∧
    db_prefs s' !! settings_key = Some (VRef 2) ∧
    heap s' !! 2%positive
      = Some (ODict (<[KEY_SCHEMA_VERSION := VFloat DEFAULT_SCHEMA_VERSION]>
                      (list_to_map [(KEY_BOOK_EXEMPTIONS, VRef 3);
                                    (KEY_AUTHOR_EXEMPTIONS, VRef 5)]))) ∧
    db_writes s' = (settings_key, VRef 2, heap s') :: db_writes st_legacy_old.
Proof.
  apply (legacy_record_migrated st_legacy_old 1
           (list_to_map [(uuid0, VRef 2); ("ffff", VRef 6)]) 2
           (list_to_map [(KEY_BOOK_EXEMPTIONS, VRef 3);
                         (KEY_AUTHOR_EXEMPTIONS, VRef 5)])).
  - vm_compute. reflexivity.
  - vm_compute. reflexivity.
  - vm_compute. reflexivity.
  - discriminate.
  - vm_compute. reflexivity.
  - vm_compute. reflexivity.
Defined.

(** ** Reading a record that is stored and current *)

(** X7: when the per-library store holds a record that carries the current
    schema version and the JSON file has no record for the library,
    [get_library_config] returns that very object and writes nothing: the
    JSON file, the per-library store, both logs and every existing object
    are as before, and the next call returns the same object again. *)
Theorem stored_record_read_in_place (s : state) (l : loc)
    (d : gmap string pyval) (v : pyval) :
  legacy_entry s = Ok false →
  db_prefs s !! settings_key = Some (VRef l) →
  heap s !! l = Some (ODict d) →
  d !! KEY_SCHEMA_VERSION = Some v →
  py_eq_num v DEFAULT_SCHEMA_VERSION = true →
  ∃ s' s'',
    get_library_config s = Ok (VRef l, s') ∧
    heap s ⊆ heap s' ∧
    plugin_prefs s' = plugin_prefs s ∧ json_commits s' = json_commits s ∧
    db_prefs s' = db_prefs s ∧ db_writes s' = db_writes s ∧
    get_library_config s' = Ok (VRef l, s'').
Proof.
  intros Hleg Hdb Hl Hd Hv.
  destruct (get_library_config_stored_current s l d v Hleg Hdb Hl Hd Hv)
    as (h' & Hsub & Hg).
  assert (legacy_entry (with_heap h' s) = Ok false) as Hleg'.
  { apply (legacy_entry_keeps s); try done.
    intros ll _ [o Ho]. simpl. rewrite Ho. by eapply lookup_weaken. }
  destruct (get_library_config_stored_current (with_heap h' s) l d v)
    as (h'' & _ & Hg'); try done.
  { simpl. by eapply lookup_weaken. }
  by exists (with_heap h' s), (with_heap h'' (with_heap h' s)).
Qed.

Lemma stored_record_read_in_place_witness :
  ∃ s' s'',
    get_library_config st_clean = Ok (VRef 1, s') ∧
    heap st_clean ⊆ heap s' ∧
    plugin_prefs s' = plugin_prefs st_clean ∧
    json_commits s' = json_commits st_clean ∧
    db_prefs s' = db_prefs st_clean ∧ db_writes s' = db_writes st_clean ∧
    get_library_config s' = Ok (VRef 1, s'').
Proof.
  apply (stored_record_read_in_place st_clean 1
           (list_to_map [(KEY_BOOK_EXEMPTIONS, VRef 2);
                         (KEY_AUTHOR_EXEMPTIONS, VRef 5);
                         (KEY_SCHEMA_VERSION, VFloat DEFAULT_SCHEMA_VERSION)])
           (VFloat DEFAULT_SCHEMA_VERSION)).
  - vm_compute. reflexivity.
  - vm_compute. reflexivity.
  - vm_compute. reflexivity.
  - vm_compute. reflexivity.
  - vm_compute. reflexivity.
Defined.

(** ** The records of other libraries *)

Lemma get_library_config_tail_dict lj dj s :
  heap s !! lj = Some (ODict dj) →
  ∃ s', get_library_config_tail (VRef lj) s = Ok (VRef lj, s') ∧
    plugin_prefs s' = plugin_prefs s ∧ json_commits s' = json_commits s ∧
    ∀ l' o, l' ≠ lj → heap s !! l' = Some o → heap s' !! l' = Some o.
Proof.
  intros Hlj. unfold get_library_config_tail. simpl is_None. cbv iota.
  erewrite (bind_run (ret _)) by done.
  destruct (py_eq_num (default (VInt 0) (dj !! KEY_SCHEMA_VERSION))
              DEFAULT_SCHEMA_VERSION) eqn:Hv.
  - apply py_eq_num_default in Hv as (v & Hd & Hv).
    exists s. erewrite bind_run; [|by eapply migrate_current]. done.
  - eexists. erewrite bind_run; [|by apply migrate_outdated].
    split; [done|]. simpl. repeat split; try done.
    intros l' o Hl' Ho. by rewrite lookup_insert_ne.
Qed.

(** X8: moving the legacy record of this library out of the JSON file
    leaves the records of the other libraries where they are.
    [get_library_config] returns the record; the dictionary under
    'libraries' loses the entry of this library only; the file is committed
    once, with 'libraries' bound to that dictionary, or without the key when
    no entry is left; the other keys of the file and the other objects are
    untouched. *)
Theorem legacy_move_keeps_other_libraries (s : state) (ll lj : loc)
    (dl dj : gmap string pyval) :
  plugin_prefs s !! "libraries" = Some (VRef ll) →
  heap s !! ll = Some (ODict dl) →
  dl !! library_id s = Some (VRef lj) →
  lj ≠ ll →
  heap s !! lj = Some (ODict dj) →
  ∃ s',
    get_library_config s = Ok (VRef lj, s') ∧
    heap s' !! ll = Some (ODict (delete (library_id s) dl)) ∧
    (∀ u, u ≠ library_id s → delete (library_id s) dl !! u = dl !! u) ∧
    plugin_prefs s' !! "libraries"
      = (if bool_decide (delete (library_id s) dl = ∅) then None
         else Some (VRef ll)) ∧
    (∀ k, k ≠ "libraries" → plugin_prefs s' !! k = plugin_prefs s !! k) ∧
    json_commits s'
      = (plugin_prefs s', <[ll := ODict (delete (library_id s) dl)]> (heap s))
        :: json_commits s ∧
    (∀ l' o, l' ≠ ll → l' ≠ lj → heap s !! l' = Some o →
       heap s' !! l' = Some o).
Proof.
  intros Hp Hll HJ Hne Hlj.
  rewrite (get_library_config_legacy s ll dl (VRef lj) Hp Hll HJ).
  set (s1 := legacy_removed ll dl s).
  assert (heap s1 = <[ll := ODict (delete (library_id s) dl)]> (heap s)) as Hh1.
  { unfold s1, legacy_removed. by destruct (_ =? _)%nat. }
  assert (plugin_prefs s1 !! "libraries"
          = (if bool_decide (delete (library_id s) dl = ∅) then None
             else Some (VRef ll))) as Hp1.
  { unfold s1, legacy_removed.
    destruct (size (delete (library_id s) dl) =? 0)%nat eqn:Hsz; simpl.
    - apply Nat.eqb_eq, map_size_empty_iff in Hsz.
      rewrite bool_decide_eq_true_2 by done. by rewrite lookup_delete_eq.
    - apply Nat.eqb_neq in Hsz.
      rewrite bool_decide_eq_false_2; [by rewrite lookup_insert_eq|].
      intros He. by apply map_size_empty_iff in He. }
  assert (∀ k, k ≠ "libraries" → plugin_prefs s1 !! k = plugin_prefs s !! k)
    as Hk1.
  { intros k Hk. unfold s1, legacy_removed.
    destruct (_ =? _)%nat; simpl;
      [by rewrite lookup_delete_ne|by rewrite lookup_insert_ne]. }
  assert (json_commits s1 = (plugin_prefs s1, heap s1) :: json_commits s)
    as Hj1.
  { unfold s1, legacy_removed. by destruct (_ =? _)%nat. }
  destruct (get_library_config_tail_dict lj dj s1) as (s' & Hg & Hpp & Hjc & Hh).
  { rewrite Hh1. by rewrite lookup_insert_ne. }
  exists s'. split; [done|]. rewrite Hpp, Hjc, Hj1, <- Hh1.
  repeat split; try done.
  - apply Hh; [done|]. rewrite Hh1. by rewrite lookup_insert_eq.
  - intros u Hu. by rewrite lookup_delete_ne.
  - intros l' o Hl' Hl'' Ho. apply Hh; [done|]. rewrite Hh1.
    by rewrite lookup_insert_ne.
Qed.

Lemma legacy_move_keeps_other_libraries_witness :
  ∃ s',
    get_library_config st_legacy_old = Ok (VRef 2, s') ∧
    heap s' !! 1%positive
      = Some (ODict (delete (library_id st_legacy_old)
                       (list_to_map [(uuid0, VRef 2); ("ffff", VRef 6)]))) ∧
    (∀ u, u ≠ library_id st_legacy_old →
       delete (library_id st_legacy_old)
         (list_to_map [(uuid0, VRef 2); ("ffff", VRef 6)]
          : gmap string pyval) !! u
       = (list_to_map [(uuid0, VRef 2); ("ffff", VRef 6)]
          : gmap string pyval) !! u) ∧
    plugin_prefs s' !! "libraries"
      = (if bool_decide (delete (library_id st_legacy_old)
                           (list_to_map [(uuid0, VRef 2); ("ffff", VRef 6)]
                            : gmap string pyval) = ∅)
         then None else Some (VRef 1)) ∧
    (∀ k, k ≠ "libraries" →
       plugin_prefs s' !! k = plugin_prefs st_legacy_old !! k) ∧
    json_commits s'
      = (plugin_prefs s',
         <[1%positive := ODict (delete (library_id st_legacy_old)
                                  (list_to_map [(uuid0, VRef 2);
                                                ("ffff", VRef 6)]))]>
           (heap st_legacy_old))
        :: json_commits st_legacy_old ∧
    (∀ l' o, l' ≠ 1%positive → l' ≠ 2%positive →
       heap st_legacy_old !! l' = Some o → heap s' !! l' = Some o).
Proof.
  apply (legacy_move_keeps_other_libraries st_legacy_old 1 2
           (list_to_map [(uuid0, VRef 2); ("ffff", VRef 6)])
           (list_to_map [(KEY_BOOK_EXEMPTIONS, VRef 3);
                         (KEY_AUTHOR_EXEMPTIONS, VRef 5)])).
  - vm_compute. reflexivity.
  - vm_compute. reflexivity.
  - vm_compute. reflexivity.
  - discriminate.
  - vm_compute. reflexivity.
Defined.

(** ** A stored value that is not a dictionary *)

(** X9: a record must be a dictionary.  When the per-library store holds
    under the settings key a value that is not one (a number, a string,
    [None], a list), and the JSON file has no record for the library, the
    three accessors raise [AttributeError]: the value has no method
    [get]. *)
Theorem stored_value_must_be_dict (s : state) (v : pyval) :
  legacy_entry s = Ok false →
  db_prefs s !! settings_key = Some v →
  (∀ l, v = VRef l → ∃ xs, heap s !! l = Some (OList xs)) →
  get_library_config s = Raise AttributeError ∧
  (∀ k x, set_exemption_list k x s = Raise AttributeError) ∧
  get_exemption_lists s = Raise AttributeError.
Proof.
  intros Hleg Hdb Hv.
  assert (get_library_config s = Raise AttributeError) as Hg.
  { destruct (get_library_config_no_legacy_eq s Hleg)
      as (lb & la & l & h' & Hsub & _ & _ & _ & _ & _ & _ & Hg).
    rewrite Hg, Hdb. simpl.
    unfold bind, migrate_library_config_if_required, bind, read, py_get.
    simpl. destruct v as [| | | | |l0]; try done.
    destruct (Hv l0 eq_refl) as [xs Hxs].
    by rewrite (lookup_weaken _ _ _ _ Hxs Hsub). }
  split; [done|]. split.
  - intros k x. unfold set_exemption_list, bind. by rewrite Hg.
  - unfold get_exemption_lists, bind. by rewrite Hg.
Qed.

Lemma stored_value_must_be_dict_witness :
  get_library_config (mk_state [] [] [1; 2] [(settings_key, VInt 3)])
    = Raise AttributeError ∧
  (∀ k x, set_exemption_list k x
            (mk_state [] [] [1; 2] [(settings_key, VInt 3)])
          = Raise AttributeError) ∧
  get_exemption_lists (mk_state [] [] [1; 2] [(settings_key, VInt 3)])
    = Raise AttributeError.
Proof.
  apply (stored_value_must_be_dict
           (mk_state [] [] [1; 2] [(settings_key, VInt 3)]) (VInt 3)).
  - vm_compute. reflexivity.
  - vm_compute. reflexivity.
  - intros l Hl. discriminate Hl.
Defined.

(** ** The pruning of the book exemptions, on the groups as data *)

Lemma group_items_Some h x ys :
  group_items h x = Some ys ↔
  ∃ lx, x = VRef lx ∧ h !! lx = Some (OList ys) ∧ forallb atom ys = true.
Proof.
  unfold group_items. split.
  - destruct x as [| | | | |lx]; try done.
    destruct (h !! lx) as [[zs|]|] eqn:Hlx; try done.
    destruct (forallb atom zs) eqn:Hzs; [|done]. intros [= <-]. by exists lx.
  - intros (lx & -> & -> & ->). done.
Qed.

Lemma group_items_kept h h' x ys :
  lists_kept h h' → group_items h x = Some ys → group_items h' x = Some ys.
Proof.
  intros Hk (lx & -> & Hlx & Hys)%group_items_Some.
  apply group_items_Some. exists lx. split; [done|]. split; [|done].
  by apply Hk.
Qed.

Lemma groups_kept h h' xs gs :
  lists_kept h h' →
  Forall2 (λ x g, group_items h x = Some g) xs gs →
  Forall2 (λ x g, group_items h' x = Some g) xs gs.
Proof.
  intros Hk H. eapply Forall2_impl; [exact H|].
  intros x g. by apply group_items_kept.
Qed.

Lemma has_id_atom y s :
  atom y = true → has_id y s = Ok (known (db_data s) y, s).
Proof. by destruct y. Qed.

Lemma filterM_has_id_run ys s :
  forallb atom ys = true →
  filterM has_id ys s = Ok (List.filter (known (db_data s)) ys, s).
Proof.
  induction ys as [|y ys IH]; [done|]. cbn [forallb filterM List.filter].
  intros [Hy Hys]%andb_true_iff.
  rewrite (bind_run _ _ _ _ _ (has_id_atom y s Hy)). cbv beta.
  rewrite (bind_run _ _ _ _ _ (IH Hys)). done.
Qed.

Lemma forallb_atom_filter (f : pyval → bool) ys :
  forallb atom ys = true → forallb atom (List.filter f ys) = true.
Proof.
  induction ys as [|y ys IH]; [done|]. cbn [forallb List.filter].
  intros [Hy Hys]%andb_true_iff. destruct (f y); cbn [forallb]; [|by apply IH].
  by rewrite Hy, IH.
Qed.

Lemma filter_length_eq {A} (f : A → bool) (xs : list A) :
  length (List.filter f xs) = length xs → List.filter f xs = xs.
Proof.
  induction xs as [|x xs IH]; [done|]. simpl.
  destruct (f x); simpl; intros Hlen.
  - f_equal. apply IH. lia.
  - pose proof (filter_length_le f xs). lia.
Qed.

Lemma stale_false data g :
  stale data g = false → List.filter (known data) g = g.
Proof.
  unfold stale. intros H%negb_false_iff%Nat.eqb_eq.
  by apply filter_length_eq.
Qed.

(** One round of the loop on a group: the ids the library knows go to a new
    list, which replaces the group when ids were dropped. *)
Lemma prune_at_run lB xs idx x ys c s :
  heap s !! lB = Some (OList xs) →
  xs !! idx = Some x →
  group_items (heap s) x = Some ys →
  prune_at (VRef lB) idx c s =
  Ok (stale (db_data s) ys || c,
      with_heap
        (let lN := fresh_loc (heap s) in
         let h1 := <[lN := OList (List.filter (known (db_data s)) ys)]>
                     (heap s) in
         if stale (db_data s) ys
         then <[lB := OList (<[idx := VRef lN]> xs)]> h1 else h1) s).
Proof.
  intros HlB Hidx (lx & -> & Hlx & Hys)%group_items_Some.
  pose proof (fresh_loc_None (heap s)) as Hfresh.
  unfold prune_at.
  erewrite bind_run; [|apply read_run; unfold py_index; by rewrite HlB, Hidx].
  erewrite bind_run; [|apply read_run; unfold py_iter; by rewrite Hlx].
  rewrite (bind_run _ _ _ _ _ (filterM_has_id_run ys s Hys)). cbv beta.
  erewrite (bind_run (alloc _)) by reflexivity.
  erewrite bind_run.
  2:{ apply read_run. unfold py_len. cbn [heap with_heap].
      rewrite lookup_insert_ne by (intros <-; congruence). by rewrite Hlx. }
  cbv beta zeta. unfold stale.
  destruct (negb _); [|done].
  unfold bind, py_store. cbn [heap with_heap].
  rewrite lookup_insert_ne by (intros <-; congruence). rewrite HlB.
  rewrite decide_True by (by eapply lookup_lt_Some). done.
Qed.

(** The loop over the groups that are left, [post], after the groups
    [pre]: every group is cut down to the ids the library knows, and the
    flag tells whether one of them lost an id. *)
Lemma prune_loop_run lB : ∀ post gpost pre gpre c s,
  heap s !! lB = Some (OList (pre ++ post)%list) →
  Forall2 (λ x g, group_items (heap s) x = Some g) pre gpre →
  Forall2 (λ x g, group_items (heap s) x = Some g) post gpost →
  ∃ h' xs',
    prune_loop (VRef lB) (seq (length pre) (length post)) c s
      = Ok (c || existsb (stale (db_data s)) gpost, with_heap h' s) ∧
    h' !! lB = Some (OList xs') ∧
    Forall2 (λ x g, group_items h' x = Some g) xs'
      (gpre ++ (List.filter (known (db_data s)) <$> gpost))%list ∧
    (∀ l o, l ≠ lB → heap s !! l = Some o → h' !! l = Some o) ∧
    (existsb (stale (db_data s)) gpost = false → xs' = (pre ++ post)%list).
Proof.
  induction post as [|x post IH]; intros gpost pre gpre c s HlB Hpre Hpost.
  - apply Forall2_nil_inv_l in Hpost as ->. exists (heap s), pre.
    cbn [length seq prune_loop existsb fmap list_fmap].
    rewrite orb_false_r, with_heap_id. rewrite !app_nil_r in *. done.
  - apply Forall2_cons_inv_l in Hpost as (ys & gpost' & Hx & Hpost & ->).
    cbn [length seq prune_loop existsb fmap list_fmap].
    assert ((pre ++ x :: post)%list !! length pre = Some x) as Hidx
      by apply list_lookup_middle, eq_refl.
    rewrite (bind_run _ _ _ _ _ (prune_at_run lB _ _ x ys c s HlB Hidx Hx)).
    cbv beta zeta.
    pose proof (fresh_loc_None (heap s)) as Hfresh.
    set (lN := fresh_loc (heap s)) in *.
    set (kept := List.filter (known (db_data s)) ys) in *.
    assert (lB ≠ lN) as HBN by congruence.
    assert (∀ h1, (∀ l o, l ≠ lB → heap s !! l = Some o → h1 !! l = Some o) →
              ∀ y g, group_items (heap s) y = Some g →
                     group_items h1 y = Some g) as Htr.
    { intros h1 Hh1 y g (ly & -> & Hly & Hg)%group_items_Some.
      apply group_items_Some. exists ly. split; [done|]. split; [|done].
      apply Hh1; [|done]. intros ->. rewrite HlB in Hly. injection Hly as <-.
      apply group_items_Some in Hx as (lx & -> & _).
      rewrite forallb_app in Hg. simpl in Hg. by rewrite andb_false_r in Hg. }
    destruct (stale (db_data s) ys) eqn:Hst.
    + set (h1 := <[lB := OList (<[length pre := VRef lN]> (pre ++ x :: post)%list)]>
                   (<[lN := OList kept]> (heap s))).
      assert (∀ l o, l ≠ lB → heap s !! l = Some o → h1 !! l = Some o) as Hfr1.
      { intros l o Hl Ho. unfold h1. rewrite lookup_insert_ne by done.
        rewrite lookup_insert_ne by congruence. done. }
      cbn [orb].
      destruct (IH gpost' (pre ++ [VRef lN])%list (gpre ++ [kept])%list true
                  (with_heap h1 s)) as (h' & xs' & Hrun & HlB' & Hgs & Hfr & _).
      * cbn [heap with_heap]. unfold h1. rewrite lookup_insert_eq.
        rewrite insert_app_r_alt by lia. rewrite Nat.sub_diag.
        by rewrite <- app_assoc.
      * cbn [heap with_heap]. apply Forall2_app.
        -- eapply Forall2_impl; [exact Hpre|]. by apply Htr.
        -- constructor; [|constructor]. apply group_items_Some. exists lN.
           split; [done|]. split.
           ++ unfold h1. rewrite lookup_insert_ne by done.
              by rewrite lookup_insert_eq.
           ++ apply forallb_atom_filter.
              by apply group_items_Some in Hx as (lx & _ & _ & Hys).
      * cbn [heap with_heap]. eapply Forall2_impl; [exact Hpost|]. by apply Htr.
      * exists h', xs'. rewrite length_app in Hrun. cbn [length] in Hrun.
        rewrite Nat.add_1_r in Hrun. rewrite Hrun.
        cbn [db_data with_heap] in *.
        rewrite orb_true_r. split; [done|]. split; [done|]. split.
        { by rewrite <- app_assoc in Hgs. }
        split; [|done]. intros l o Hl Ho. apply Hfr; [done|]. by apply Hfr1.
    + set (h1 := <[lN := OList kept]> (heap s)).
      assert (heap s ⊆ h1) as Hsub by apply alloc_grows.
      assert (∀ l o, heap s !! l = Some o → h1 !! l = Some o) as Hfr1.
      { intros l o Ho. by eapply lookup_weaken. }
      cbn [orb].
      destruct (IH gpost' (pre ++ [x])%list (gpre ++ [ys])%list c (with_heap h1 s))
        as (h' & xs' & Hrun & HlB' & Hgs & Hfr & Hsame).
      * cbn [heap with_heap]. rewrite <- app_assoc. by apply Hfr1.
      * cbn [heap with_heap]. apply Forall2_app.
        -- eapply Forall2_impl; [exact Hpre|]. apply Htr. auto.
        -- constructor; [|constructor]. eapply Htr; [|done]. auto.
      * cbn [heap with_heap]. eapply Forall2_impl; [exact Hpost|].
        apply Htr. auto.
      * exists h', xs'. rewrite length_app in Hrun. cbn [length] in Hrun.
        rewrite Nat.add_1_r in Hrun. rewrite Hrun.
        cbn [db_data with_heap] in *.
        split; [done|]. split; [done|]. split.
        { rewrite <- app_assoc in Hgs. simpl in Hgs.
          unfold kept. by rewrite (stale_false _ _ Hst). }
        split.
        { intros l o Hl Ho. apply Hfr; [done|]. by apply Hfr1. }
        intros Hno. rewrite (Hsame Hno). by rewrite <- app_assoc.
Qed.

Lemma groups_of_Some h b gs :
  groups_of h b = Some gs ↔
  ∃ lb xs, b = VRef lb ∧ h !! lb = Some (OList xs) ∧
    Forall2 (λ x g, group_items h x = Some g) xs gs.
Proof.
  unfold groups_of. split.
  - destruct b as [| | | | |lb]; try done.
    destruct (h !! lb) as [[xs|]|] eqn:Hlb; try done.
    intros H%mapM_Some. by exists lb, xs.
  - intros (lb & xs & -> & -> & H). by apply mapM_Some.
Qed.

Lemma groups_of_kept h h' b gs :
  lists_kept h h' → groups_of h b = Some gs → groups_of h' b = Some gs.
Proof.
  intros Hk (lb & xs & -> & Hlb & H)%groups_of_Some.
  apply groups_of_Some. exists lb, xs. split; [done|].
  split; [by apply Hk|]. by eapply groups_kept.
Qed.

Lemma nonempty_run x g s :
  group_items (heap s) x = Some g →
  nonempty x s = Ok ((0 <? length g)%nat, s).
Proof.
  intros (lx & -> & Hlx & _)%group_items_Some. unfold nonempty.
  erewrite bind_run; [|apply read_run; unfold py_len; by rewrite Hlx]. done.
Qed.

Lemma filterM_nonempty_run xs gs s :
  Forall2 (λ x g, group_items (heap s) x = Some g) xs gs →
  ∃ kept, filterM nonempty xs s = Ok (kept, s) ∧
    Forall2 (λ x g, group_items (heap s) x = Some g) kept
      (List.filter (λ g, (0 <? length g)%nat) gs).
Proof.
  induction 1 as [|x g xs gs Hx _ (kept & Hrun & Hk)]; [by exists []|].
  cbn [filterM List.filter].
  rewrite (bind_run _ _ _ _ _ (nonempty_run x g s Hx)). cbv beta.
  rewrite (bind_run _ _ _ _ _ Hrun). cbv beta.
  destruct (0 <? length g)%nat; eexists; (split; [reflexivity|]);
    [by constructor|done].
Qed.

Lemma no_stale_filter data gs :
  existsb (stale data) gs = false → List.filter (known data) <$> gs = gs.
Proof.
  induction gs as [|g gs IH]; [done|]. cbn [existsb fmap list_fmap].
  intros [Hg Hgs]%orb_false_iff. by rewrite (stale_false _ _ Hg), IH.
Qed.

(** Lines 109 to 119 in a settled library whose book exemptions are groups
    of atoms: the call returns, and the list it returns, which the record
    holds, has the groups [pruned_groups] computes. *)
Lemma prune_book_exemptions_run l s d b gs :
  settled s l → heap s !! l = Some (ODict d) →
  d !! KEY_BOOK_EXEMPTIONS = Some b →
  groups_of (heap s) b = Some gs →
  ∃ b' s' d',
    prune_book_exemptions (VRef l) s = Ok (b', s') ∧
    groups_of (heap s') b' = Some (pruned_groups (db_data s) gs) ∧
    heap s' !! l = Some (ODict d') ∧
    d' !! KEY_BOOK_EXEMPTIONS = Some b' ∧
    plugin_prefs s' = plugin_prefs s ∧ json_commits s' = json_commits s ∧
    (existsb (stale (db_data s)) gs = true →
       db_writes s' = (settings_key, VRef l, heap s') :: db_writes s) ∧
    (existsb (stale (db_data s)) gs = false →
       b' = b ∧ ∃ h', heap s ⊆ h' ∧ s' = with_heap h' s).
Proof.
  intros Hset Hl Hb (lB & xs & -> & HlB & Hgs)%groups_of_Some.
  unfold prune_book_exemptions.
  (* the default of [get], a new empty list *)
  erewrite (bind_run (alloc _)) by reflexivity.
  pose proof (fresh_loc_None (heap s)) as HfD.
  set (lD := fresh_loc (heap s)) in *.
  set (s0 := with_heap (<[lD := OList []]> (heap s)) s).
  assert (heap s ⊆ heap s0) as Hsub0 by apply alloc_grows.
  assert (settled s0 l) as Hset0 by by apply settled_grow.
  erewrite bind_run.
  2:{ apply read_run. unfold py_get.
      rewrite (lookup_weaken _ _ _ _ Hl Hsub0). by rewrite Hb. }
  cbv beta. simpl default.
  erewrite bind_run.
  2:{ apply read_run. unfold py_len.
      by rewrite (lookup_weaken _ _ _ _ HlB Hsub0). }
  cbv beta.
  (* the loop *)
  destruct (prune_loop_run lB xs gs [] [] false s0)
    as (h' & xs' & Hrun & HlB' & Hgs' & Hfr & Hsame).
  { by apply (lookup_weaken _ _ _ _ HlB Hsub0). }
  { constructor. }
  { eapply groups_kept; [|exact Hgs]. by apply lists_kept_subseteq. }
  cbn [length app orb] in Hrun, Hgs', Hsame.
  rewrite (bind_run _ _ _ _ _ Hrun). cbv beta.
  set (s1 := with_heap h' s0) in *.
  assert (settled s1 l) as Hset1.
  { eapply settled_loop; [exact Hset0|]. eapply prune_loop_frame, Hrun. }
  assert (l ≠ lB) as HlBne by (intros ->; congruence).
  assert (h' !! l = Some (ODict d)) as Hl'.
  { apply Hfr; [done|]. by apply (lookup_weaken _ _ _ _ Hl Hsub0). }
  change (db_data s0) with (db_data s) in *.
  unfold pruned_groups.
  destruct (existsb (stale (db_data s)) gs) eqn:Hex.
  - (* a group was stale: the groups left empty are dropped, the list saved *)
    erewrite bind_run.
    2:{ apply read_run. unfold py_iter. cbn [heap with_heap s1].
        by rewrite HlB'. }
    destruct (filterM_nonempty_run xs' _ s1 Hgs') as (kept & Hkept & Hgk).
    rewrite (bind_run _ _ _ _ _ Hkept). cbv beta.
    erewrite (bind_run (alloc _)) by reflexivity.
    pose proof (fresh_loc_None (heap s1)) as HfN.
    set (lN := fresh_loc (heap s1)) in *.
    set (s2 := with_heap (<[lN := OList kept]> (heap s1)) s1).
    assert (heap s1 ⊆ heap s2) as Hsub2 by apply alloc_grows.
    assert (settled s2 l) as Hset2 by by apply settled_grow.
    assert (heap s2 !! l = Some (ODict d)) as Hl2
      by by apply (lookup_weaken _ _ _ _ Hl' Hsub2).
    destruct (set_exemption_list_settled s2 l d KEY_BOOK_EXEMPTIONS (VRef lN)
                Hset2 Hl2) as (h3 & Hsub3 & Hsave).
    rewrite (bind_run _ _ _ _ _ Hsave).
    eexists _, _, _. split; [reflexivity|].
    cbn [heap with_heap with_db_prefs plugin_prefs json_commits db_writes].
    rewrite lookup_insert_eq.
    assert (h3 !! lN = Some (OList kept)) as HlN3.
    { apply (lookup_weaken _ _ _ _ (lookup_insert_eq _ _ _) Hsub3). }
    assert (lN ≠ l) as HNl by (intros ->; cbn in HfN; congruence).
    split.
    { apply groups_of_Some. exists lN, kept. split; [done|].
      split; [by rewrite lookup_insert_ne|].
      eapply groups_kept; [|exact Hgk].
      eapply lists_kept_trans; [by apply lists_kept_subseteq, Hsub2|].
      eapply lists_kept_trans; [by apply lists_kept_subseteq, Hsub3|].
      eapply lists_kept_insert_dict.
      by apply (lookup_weaken _ _ _ _ Hl2 Hsub3). }
    split; [done|]. split; [by rewrite lookup_insert_eq|].
    split; [done|]. split; [done|]. split; [done|]. done.
  - (* no group was stale: the list is returned as it is *)
    specialize (Hsame eq_refl). subst xs'.
    exists (VRef lB), s1, d. split; [done|]. split.
    { apply groups_of_Some. exists lB, xs. split; [done|]. split; [done|].
      by rewrite (no_stale_filter _ _ Hex) in Hgs'. }
    split; [done|]. split; [done|]. split; [done|]. split; [done|].
    split; [done|]. intros _. split; [done|]. exists h'. split; [|done].
    apply map_subseteq_spec. intros i o Hi.
    destruct (decide (i = lB)) as [->|Hne]; [congruence|].
    apply Hfr; [done|]. by apply (lookup_weaken _ _ _ _ Hi Hsub0).
Qed.

Lemma filter_id_Forall {A} (f : A → bool) (xs : list A) :
  Forall (λ x, f x = true) xs → List.filter f xs = xs.
Proof.
  induction 1 as [|x xs Hx _ IH]; [done|]. simpl. by rewrite Hx, IH.
Qed.

Lemma stale_filter data g : stale data (List.filter (known data) g) = false.
Proof.
  unfold stale. rewrite (filter_id_Forall _ (List.filter _ g)).
  - by rewrite Nat.eqb_refl.
  - apply filter_all.
Qed.

(** The groups that come out of the pruning have no stale id: pruning them
    again changes nothing. *)
Lemma pruned_groups_no_stale data gs :
  existsb (stale data) (pruned_groups data gs) = false.
Proof.
  unfold pruned_groups. destruct (existsb (stale data) gs) eqn:Hex; [|done].
  clear Hex. induction gs as [|g gs IH]; [done|].
  cbn [fmap list_fmap List.filter].
  destruct (0 <? length _)%nat; [|done].
  cbn [existsb]. by rewrite stale_filter, IH.
Qed.

Lemma pruned_groups_idempotent data gs :
  pruned_groups data (pruned_groups data gs) = pruned_groups data gs.
Proof.
  unfold pruned_groups at 1. by rewrite pruned_groups_no_stale.
Qed.

(** The ids of the pruned groups, in their order, are the ids of the groups
    that the library knows. *)
Lemma pruned_groups_concat data gs :
  concat (pruned_groups data gs) = List.filter (known data) (concat gs).
Proof.
  unfold pruned_groups. destruct (existsb (stale data) gs) eqn:Hex.
  - clear Hex. induction gs as [|g gs IH]; [done|].
    cbn [fmap list_fmap List.filter concat]. rewrite List.filter_app, <- IH.
    destruct (List.filter (known data) g) as [|y ys]; [done|].
    done.
  - rewrite <- (no_stale_filter _ _ Hex) at 1. clear Hex.
    induction gs as [|g gs IH]; [done|].
    cbn [fmap list_fmap concat]. by rewrite List.filter_app, IH.
Qed.

(** [get_exemption_lists] in a library whose record is stored, has no legacy
    map, and holds groups of atoms: the call returns, and the list of book
    exemptions it returns, which the record holds, has the groups
    [pruned_groups] computes. *)
Lemma get_exemption_lists_groups s l d b gs va :
  legacy_entry s = Ok false →
  plugin_prefs s !! "libraries" ≠ Some (VRef l) →
  db_prefs s !! settings_key = Some (VRef l) →
  heap s !! l = Some (ODict d) →
  d !! "bookNotDuplicates" = None →
  d !! "authorNotDuplicates" = None →
  d !! KEY_BOOK_EXEMPTIONS = Some b →
  groups_of (heap s) b = Some gs →
  d !! KEY_AUTHOR_EXEMPTIONS = Some va →
  ∃ b' s' d',
    get_exemption_lists s = Ok ((b', va), s') ∧
    groups_of (heap s') b' = Some (pruned_groups (db_data s) gs) ∧
    settled s' l ∧
    heap s' !! l = Some (ODict d') ∧
    d' !! KEY_BOOK_EXEMPTIONS = Some b' ∧
    (∀ k, k ≠ KEY_BOOK_EXEMPTIONS → k ≠ KEY_SCHEMA_VERSION →
          d' !! k = d !! k) ∧
    db_data s' = db_data s ∧
    plugin_prefs s' = plugin_prefs s ∧ json_commits s' = json_commits s ∧
    (existsb (stale (db_data s)) gs = true →
     ∃ hrow rows,
       db_writes s' = ((settings_key, VRef l, hrow) :: rows ++ db_writes s)%list ∧
       hrow !! l = Some (ODict d') ∧
       groups_of hrow b' = Some (pruned_groups (db_data s) gs)) ∧
    (existsb (stale (db_data s)) gs = false →
     b' = b ∧
     ((∃ v, d !! KEY_SCHEMA_VERSION = Some v ∧
            py_eq_num v DEFAULT_SCHEMA_VERSION = true) →
      db_writes s' = db_writes s ∧ db_prefs s' = db_prefs s ∧
      heap s ⊆ heap s')).
Proof.
  intros Hleg Hne Hst Hl Hnb Hna Hb Hgs Hva.
  destruct (get_library_config_stored s l d Hleg Hne Hst Hl)
    as (s1 & d1 & Hg & Hs1 & Hfr1 & Hl1 & Hd1 & [rows Hrows] & Hcur).
  destruct (discard_one_settled "bookNotDuplicates" KEY_BOOK_EXEMPTIONS
              s1 l d1 Hs1 Hl1)
    as (s2 & d2 & H1 & _ & _ & _ & _ & _ & _ & _ & Hno2); [done..|].
  destruct Hno2 as [-> ->]; [by rewrite Hd1|].
  destruct (discard_one_settled "authorNotDuplicates" KEY_AUTHOR_EXEMPTIONS
              s1 l d1 Hs1 Hl1)
    as (s3 & d3 & H2 & _ & _ & _ & _ & _ & _ & _ & Hno3); [done..|].
  destruct Hno3 as [-> ->]; [by rewrite Hd1|].
  rewrite (get_exemption_lists_run s l s1 s1 s1 Hg H1 H2).
  destruct (get_library_config_lists_kept s _ _ Hg) as [Hk1 Hdata1].
  assert (d1 !! KEY_BOOK_EXEMPTIONS = Some b) as Hb1 by by rewrite Hd1.
  destruct (prune_book_exemptions_run l s1 d1 b gs Hs1 Hl1 Hb1)
    as (b' & s2 & d2 & Hrun & Hgs2 & Hl2 & Hb2 & Hpp2 & Hjc2 & Hch & Hsame).
  { by eapply groups_of_kept. }
  destruct (prune_book_exemptions_settled l s1 d1 b' s2 Hs1 Hl1 Hrun)
    as (Hs2 & Hdata2 & _ & (d2' & Hl2' & Hd2) & _ & _).
  assert (d2' = d2) as -> by congruence.
  rewrite (bind_run _ _ _ _ _ Hrun). cbv beta.
  erewrite (bind_run (alloc _)) by reflexivity.
  set (s' := with_heap (<[fresh_loc (heap s2) := OList []]> (heap s2)) s2).
  assert (heap s2 ⊆ heap s') as Hsub' by apply alloc_grows.
  erewrite bind_run.
  2:{ apply read_run. unfold py_get.
      rewrite (lookup_weaken _ _ _ _ Hl2 Hsub').
      rewrite Hd2 by done. rewrite Hd1 by done. by rewrite Hva. }
  rewrite Hdata1 in *.
  destruct Hfr1 as (Hpp1 & Hjc1 & _ & _ & _ & Hheap1).
  exists b', s', d2. split; [done|].
  split. { eapply groups_of_kept; [|exact Hgs2]. by apply lists_kept_subseteq. }
  split; [by apply settled_grow|].
  split; [by apply (lookup_weaken _ _ _ _ Hl2 Hsub')|].
  split; [done|].
  split. { intros k Hk Hk'. rewrite Hd2 by done. by apply Hd1. }
  split; [cbn; congruence|].
  split; [cbn; congruence|]. split; [cbn; congruence|]. split.
  - intros Hex. exists (heap s2), rows. cbn [db_writes with_heap s'].
    rewrite (Hch Hex), Hrows. done.
  - intros Hex. destruct (Hsame Hex) as (-> & h' & Hsubh & ->).
    split; [done|]. intros Hv. destruct (Hcur Hv) as (-> & Hw & Hp).
    cbn [db_writes db_prefs with_heap s']. split; [done|]. split; [done|].
    transitivity (heap s1).
    + apply map_subseteq_spec. intros i o Hi.
      destruct (decide (i = l)) as [->|Hil]; [congruence|]. by apply Hheap1.
    + etrans; [exact Hsubh|]. exact Hsub'.
Qed.

(** X11: the pruning of the book exemptions, as a function of the stored
    groups.  In a library whose record is stored (no record in the JSON
    file, a tree), has no legacy map and holds, under 'bookExemptions', a
    list of groups of atoms [gs]: [get_exemption_lists] returns, and the
    groups of the list it returns are [pruned_groups] of [gs], so that its
    ids are, in their order, the ids of [gs] that the library knows.  The
    record holds the returned list, and the author exemptions are returned
    as stored.  If a group had a stale id, the latest row of the preference
    table holds the record with the pruned groups; if none had, the stored
    list itself is returned. *)
Theorem book_exemptions_pruned_as_groups (s : state) (l : loc)
    (d : gmap string pyval) (b va : pyval) (gs : list (list pyval)) :
  legacy_entry s = Ok false →
  libraries_apart s = true →
  db_prefs s !! settings_key = Some (VRef l) →
  heap s !! l = Some (ODict d) →
  d !! "bookNotDuplicates" = None →
  d !! "authorNotDuplicates" = None →
  d !! KEY_BOOK_EXEMPTIONS = Some b →
  groups_of (heap s) b = Some gs →
  d !! KEY_AUTHOR_EXEMPTIONS = Some va →
  ∃ b' s' d',
    get_exemption_lists s = Ok ((b', va), s') ∧
    groups_of (heap s') b' = Some (pruned_groups (db_data s) gs) ∧
    concat (pruned_groups (db_data s) gs)
      = List.filter (known (db_data s)) (concat gs) ∧
    db_prefs s' !! settings_key = Some (VRef l) ∧
    heap s' !! l = Some (ODict d') ∧
    d' !! KEY_BOOK_EXEMPTIONS = Some b' ∧
    d' !! KEY_AUTHOR_EXEMPTIONS = Some va ∧
    (existsb (stale (db_data s)) gs = true →
     ∃ hrow rows,
       db_writes s' = ((settings_key, VRef l, hrow) :: rows ++ db_writes s)%list ∧
       hrow !! l = Some (ODict d') ∧
       groups_of hrow b' = Some (pruned_groups (db_data s) gs)) ∧
    (existsb (stale (db_data s)) gs = false → b' = b).
Proof.
  intros Hleg Hap Hst Hl Hnb Hna Hb Hgs Hva.
  pose proof (libraries_apart_settled s l Hap Hst) as Hne.
  destruct (get_exemption_lists_groups s l d b gs va)
    as (b' & s' & d' & Hrun & Hgs' & Hset & Hl' & Hb' & Hd' & _ & _ & _
        & Hch & Hsame); try done.
  destruct Hset as (_ & _ & Hst' & _).
  exists b', s', d'. split; [done|]. split; [done|].
  split; [apply pruned_groups_concat|]. split; [done|]. split; [done|].
  split; [done|]. split; [by rewrite Hd'|]. split; [done|].
  intros Hex. by destruct (Hsame Hex).
Qed.

Lemma book_exemptions_pruned_as_groups_witness :
  ∃ b' s' d',
    get_exemption_lists st_stored = Ok ((b', VRef 5), s') ∧
    groups_of (heap s') b'
      = Some (pruned_groups (db_data st_stored)
                [[VInt 1; VInt 2]; [VInt 1; VInt 9]]) ∧
    concat (pruned_groups (db_data st_stored)
              [[VInt 1; VInt 2]; [VInt 1; VInt 9]])
      = List.filter (known (db_data st_stored))
          (concat [[VInt 1; VInt 2]; [VInt 1; VInt 9]]) ∧
    db_prefs s' !! settings_key = Some (VRef 1) ∧
    heap s' !! 1%positive = Some (ODict d') ∧
    d' !! KEY_BOOK_EXEMPTIONS = Some b' ∧
    d' !! KEY_AUTHOR_EXEMPTIONS = Some (VRef 5) ∧
    (existsb (stale (db_data st_stored))
       [[VInt 1; VInt 2]; [VInt 1; VInt 9]] = true →
     ∃ hrow rows,
       db_writes s'
         = ((settings_key, VRef 1, hrow) :: rows ++ db_writes st_stored)%list ∧
       hrow !! 1%positive = Some (ODict d') ∧
       groups_of hrow b'
         = Some (pruned_groups (db_data st_stored)
                   [[VInt 1; VInt 2]; [VInt 1; VInt 9]])) ∧
    (existsb (stale (db_data st_stored))
       [[VInt 1; VInt 2]; [VInt 1; VInt 9]] = false → b' = VRef 2).
Proof.
  apply (book_exemptions_pruned_as_groups st_stored 1
           (list_to_map [(KEY_BOOK_EXEMPTIONS, VRef 2);
                         (KEY_AUTHOR_EXEMPTIONS, VRef 5)])
           (VRef 2) (VRef 5) [[VInt 1; VInt 2]; [VInt 1; VInt 9]]).
  - vm_compute. reflexivity.
  - vm_compute. reflexivity.
  - vm_compute. reflexivity.
  - vm_compute. reflexivity.
  - vm_compute. reflexivity.
  - vm_compute. reflexivity.
  - vm_compute. reflexivity.
  - vm_compute. reflexivity.
  - vm_compute. reflexivity.
Defined.

(** X12: in such a library a second call of [get_exemption_lists] repeats
    the first: it returns the same two objects, with the same groups, and
    writes nothing, neither to the JSON file nor to the per-library store,
    and changes no object. *)
Theorem second_call_repeats_first (s : state) (l : loc)
    (d : gmap string pyval) (b va : pyval) (gs : list (list pyval)) :
  legacy_entry s = Ok false →
  libraries_apart s = true →
  db_prefs s !! settings_key = Some (VRef l) →
  heap s !! l = Some (ODict d) →
  d !! "bookNotDuplicates" = None →
  d !! "authorNotDuplicates" = None →
  d !! KEY_BOOK_EXEMPTIONS = Some b →
  groups_of (heap s) b = Some gs →
  d !! KEY_AUTHOR_EXEMPTIONS = Some va →
  ∃ b' s1 s2,
    get_exemption_lists s = Ok ((b', va), s1) ∧
    get_exemption_lists s1 = Ok ((b', va), s2) ∧
    groups_of (heap s1) b' = Some (pruned_groups (db_data s) gs) ∧
    groups_of (heap s2) b' = Some (pruned_groups (db_data s) gs) ∧
    db_writes s2 = db_writes s1 ∧ db_prefs s2 = db_prefs s1 ∧
    plugin_prefs s2 = plugin_prefs s1 ∧ json_commits s2 = json_commits s1 ∧
    heap s1 ⊆ heap s2.
Proof.
  intros Hleg Hap Hst Hl Hnb Hna Hb Hgs Hva.
  pose proof (libraries_apart_settled s l Hap Hst) as Hne.
  destruct (get_exemption_lists_groups s l d b gs va)
    as (b' & s1 & d1 & Hrun1 & Hgs1 & Hset1 & Hl1 & Hb1 & Hd1 & Hdata1 & _ & _
        & _ & _); try done.
  destruct Hset1 as (Hleg1 & Hne1 & Hst1 & dd & v & Hdd & Hv & Hcur).
  assert (dd = d1) as -> by congruence.
  destruct (get_exemption_lists_groups s1 l d1 b'
              (pruned_groups (db_data s) gs) va)
    as (b'' & s2 & d2 & Hrun2 & Hgs2 & _ & _ & _ & _ & _ & Hpp2 & Hjc2
        & _ & Hsame); try done.
  { by rewrite Hd1. }
  { by rewrite Hd1. }
  { by rewrite Hd1. }
  rewrite Hdata1 in Hgs2, Hsame.
  rewrite pruned_groups_idempotent in Hgs2.
  destruct (Hsame (pruned_groups_no_stale _ _)) as [-> Hno].
  destruct Hno as (Hw & Hp & Hsub); [by exists v|].
  by exists b', s1, s2.
Qed.

Lemma second_call_repeats_first_witness :
  ∃ b' s1 s2,
    get_exemption_lists st_stored = Ok ((b', VRef 5), s1) ∧
    get_exemption_lists s1 = Ok ((b', VRef 5), s2) ∧
    groups_of (heap s1) b'
      = Some (pruned_groups (db_data st_stored)
                [[VInt 1; VInt 2]; [VInt 1; VInt 9]]) ∧
    groups_of (heap s2) b'
      = Some (pruned_groups (db_data st_stored)
                [[VInt 1; VInt 2]; [VInt 1; VInt 9]]) ∧
    db_writes s2 = db_writes s1 ∧ db_prefs s2 = db_prefs s1 ∧
    plugin_prefs s2 = plugin_prefs s1 ∧ json_commits s2 = json_commits s1 ∧
    heap s1 ⊆ heap s2.
Proof.
  apply (second_call_repeats_first st_stored 1
           (list_to_map [(KEY_BOOK_EXEMPTIONS, VRef 2);
                         (KEY_AUTHOR_EXEMPTIONS, VRef 5)])
           (VRef 2) (VRef 5) [[VInt 1; VInt 2]; [VInt 1; VInt 9]]).
  - vm_compute. reflexivity.
  - vm_compute. reflexivity.
  - vm_compute. reflexivity.
  - vm_compute. reflexivity.
  - vm_compute. reflexivity.
  - vm_compute. reflexivity.
  - vm_compute. reflexivity.
  - vm_compute. reflexivity.
  - vm_compute. reflexivity.
Defined.

(** ** The footprint of the module *)

Lemma footprint_refl s : footprint s s.
Proof. repeat split; try done. by exists []. Qed.

Lemma footprint_trans s1 s2 s3 :
  footprint s1 s2 → footprint s2 s3 → footprint s1 s3.
Proof.
  intros (Hi1 & Hd1 & Hp1 & Hj1 & rows1 & Hw1 & Hr1)
         (Hi2 & Hd2 & Hp2 & Hj2 & rows2 & Hw2 & Hr2).
  split; [congruence|]. split; [congruence|].
  split. { intros k Hk. rewrite Hp2 by done. by apply Hp1. }
  split. { intros k Hk. rewrite Hj2 by done. by apply Hj1. }
  exists (rows2 ++ rows1)%list. split.
  - by rewrite Hw2, Hw1, app_assoc.
  - by apply Forall_app.
Qed.

Lemma footprint_heap s h : footprint s (with_heap h s).
Proof. repeat split; try done. by exists []. Qed.

Lemma within_ret {A} (a : A) : within_footprint (ret a).
Proof. intros s a' s' [_ ->]%ret_Ok. apply footprint_refl. Qed.

Lemma within_bind {A B} (m : M A) (k : A → M B) :
  within_footprint m → (∀ a, within_footprint (k a)) →
  within_footprint (bind m k).
Proof.
  intros Hm Hk s b s' (a & s1 & H1 & H2)%bind_Ok.
  eapply footprint_trans; [by eapply Hm|by eapply Hk].
Qed.

Lemma within_read {A} (f : gmap loc obj → result A) : within_footprint (read f).
Proof. intros s a s' [_ ->]%read_Ok. apply footprint_refl. Qed.

Lemma within_alloc o : within_footprint (alloc o).
Proof. intros s a s' [_ ->]%alloc_Ok. apply footprint_heap. Qed.

Lemma within_py_setitem c k v : within_footprint (py_setitem c k v).
Proof.
  intros s a s' (l & d & _ & _ & ->)%py_setitem_Ok. apply footprint_heap.
Qed.

Lemma within_py_delitem c k : within_footprint (py_delitem c k).
Proof.
  intros s a s'. unfold py_delitem.
  destruct c as [| | | | |l]; try done.
  destruct (heap s !! l) as [[|d]|]; try done.
  destruct (d !! k); [|done]. intros [= _ <-]. apply footprint_heap.
Qed.

Lemma within_py_store c idx v : within_footprint (py_store c idx v).
Proof.
  intros s a s' (l & xs & _ & _ & _ & ->)%py_store_Ok. apply footprint_heap.
Qed.

Lemma within_has_id v : within_footprint (has_id v).
Proof. intros s a s' [-> _]%has_id_Ok. apply footprint_refl. Qed.

Lemma within_filterM {A} (p : A → M bool) xs :
  (∀ x, within_footprint (p x)) → within_footprint (filterM p xs).
Proof.
  intros Hp. induction xs as [|x xs IH]; cbn [filterM].
  - apply within_ret.
  - apply within_bind; [done|]. intros b.
    apply within_bind; [done|]. intros r. apply within_ret.
Qed.

Lemma within_plugin_prefs_contains k : within_footprint (plugin_prefs_contains k).
Proof. intros s a s' [= _ <-]. apply footprint_refl. Qed.

Lemma within_plugin_prefs_getitem k : within_footprint (plugin_prefs_getitem k).
Proof. intros s a s' [= _ <-]. apply footprint_refl. Qed.

Lemma within_plugin_prefs_delitem : within_footprint (plugin_prefs_delitem "libraries").
Proof.
  intros s a s'. unfold plugin_prefs_delitem.
  destruct (plugin_prefs s !! "libraries"); intros [= _ <-];
    [|apply footprint_refl].
  repeat split; try done; [|by exists []].
  intros k Hk. simpl. by rewrite lookup_delete_ne.
Qed.

Lemma within_plugin_prefs_setitem v :
  within_footprint (plugin_prefs_setitem "libraries" v).
Proof.
  intros s a s' [= _ <-]. repeat split; try done; [|by exists []].
  intros k Hk. simpl. by rewrite lookup_insert_ne.
Qed.

Lemma within_get_namespaced ns k dflt : within_footprint (get_namespaced ns k dflt).
Proof. intros s a s' [= _ <-]. apply footprint_refl. Qed.

Lemma within_get_library_uuid : within_footprint get_library_uuid.
Proof. intros s a s' [= _ <-]. apply footprint_refl. Qed.

Lemma within_set_library_config lc : within_footprint (set_library_config lc).
Proof.
  intros s a s' [= _ <-]. repeat split; try done.
  - intros k Hk. simpl. by rewrite lookup_insert_ne.
  - exists [(settings_key, lc, heap s)]. split; [done|]. by repeat constructor.
Qed.

Create HintDb within discriminated.

#[local] Hint Resolve within_ret within_read within_alloc within_py_setitem
  within_py_delitem within_py_store within_has_id within_filterM
  within_plugin_prefs_contains within_plugin_prefs_getitem
  within_plugin_prefs_delitem within_plugin_prefs_setitem
  within_get_namespaced within_get_library_uuid within_set_library_config
  : within.

(** One step through a computation: a bind, a branch, or a primitive. *)
Local Ltac within_step :=
  lazymatch goal with
  | |- within_footprint (bind _ _) => apply within_bind; [|intros ?]
  | |- within_footprint (if ?b then _ else _) => destruct b
  | |- within_footprint _ => solve [auto with within]
  end.

Lemma within_migrate lc :
  within_footprint (migrate_library_config_if_required lc).
Proof. unfold migrate_library_config_if_required. repeat within_step. Qed.

Lemma within_get_library_config : within_footprint get_library_config.
Proof.
  pose proof within_migrate.
  unfold get_library_config, deepcopy_DEFAULT_LIBRARY_VALUES.
  repeat within_step.
Qed.

Lemma within_set_exemption_list k v : within_footprint (set_exemption_list k v).
Proof.
  pose proof within_get_library_config.
  unfold set_exemption_list. repeat within_step.
Qed.

Lemma within_prune_loop B idxs : ∀ c, within_footprint (prune_loop B idxs c).
Proof.
  induction idxs as [|idx idxs IH]; intros c; cbn [prune_loop].
  - apply within_ret.
  - apply within_bind; [|done]. unfold prune_at. repeat within_step.
Qed.

Lemma within_nonempty x : within_footprint (nonempty x).
Proof. unfold nonempty. repeat within_step. Qed.

(** X13: the accessors stay within the footprint of the module.  Whenever
    [get_library_config], [set_exemption_list] or [get_exemption_lists]
    returns, the library and its set of book ids are the same, the
    per-library store differs at most under the settings key of the plugin,
    every row added to the preference table is a row of that key, and the
    JSON file differs at most under 'libraries'. *)
Theorem accessors_within_footprint :
  (∀ s r s', get_library_config s = Ok (r, s') → footprint s s') ∧
  (∀ k v s s', set_exemption_list k v s = Ok (tt, s') → footprint s s') ∧
  (∀ s r s', get_exemption_lists s = Ok (r, s') → footprint s s').
Proof.
  pose proof within_get_library_config as Hget.
  pose proof within_set_exemption_list as Hset.
  split; [exact Hget|]. split; [intros k v s s'; apply (Hset k v s tt s')|].
  pose proof within_prune_loop. pose proof within_nonempty.
  change (within_footprint get_exemption_lists).
  unfold get_exemption_lists. repeat within_step.
Qed.

(** ** A stored record without the exemption keys *)

(** X14: absent keys default silently, and the default is not stored.  In a
    library whose stored record has neither legacy map and no key
    'bookExemptions', [get_exemption_lists] returns, as book exemptions, a
    new empty list which the record does not hold: the record still has no
    such key.  The same holds for 'authorExemptions', whose value is
    otherwise returned as stored.  If the schema version was current,
    nothing is written. *)
Theorem missing_keys_read_as_empty (s : state) (l : loc)
    (d : gmap string pyval) :
  legacy_entry s = Ok false →
  libraries_apart s = true →
  db_prefs s !! settings_key = Some (VRef l) →
  heap s !! l = Some (ODict d) →
  d !! "bookNotDuplicates" = None →
  d !! "authorNotDuplicates" = None →
  d !! KEY_BOOK_EXEMPTIONS = None →
  ∃ lb a s' d',
    get_exemption_lists s = Ok ((VRef lb, a), s') ∧
    heap s !! lb = None ∧ heap s' !! lb = Some (OList []) ∧
    heap s' !! l = Some (ODict d') ∧
    d' !! KEY_BOOK_EXEMPTIONS = None ∧
    d' !! KEY_AUTHOR_EXEMPTIONS = d !! KEY_AUTHOR_EXEMPTIONS ∧
    (∀ va, d !! KEY_AUTHOR_EXEMPTIONS = Some va → a = va) ∧
    (d !! KEY_AUTHOR_EXEMPTIONS = None →
     ∃ la, a = VRef la ∧ la ≠ lb ∧ heap s !! la = None ∧
       heap s' !! la = Some (OList [])) ∧
    ((∃ v, d !! KEY_SCHEMA_VERSION = Some v ∧
           py_eq_num v DEFAULT_SCHEMA_VERSION = true) →
     db_writes s' = db_writes s ∧ db_prefs s' = db_prefs s).
Proof.
  intros Hleg Hap Hst Hl Hnb Hna Hb.
  pose proof (libraries_apart_settled s l Hap Hst) as Hne.
  destruct (get_library_config_stored s l d Hleg Hne Hst Hl)
    as (s1 & d1 & Hg & Hs1 & Hfr1 & Hl1 & Hd1 & _ & Hcur).
  destruct (discard_one_settled "bookNotDuplicates" KEY_BOOK_EXEMPTIONS
              s1 l d1 Hs1 Hl1)
    as (s2 & d2 & H1 & _ & _ & _ & _ & _ & _ & _ & Hno2); [done..|].
  destruct Hno2 as [-> ->]; [by rewrite Hd1|].
  destruct (discard_one_settled "authorNotDuplicates" KEY_AUTHOR_EXEMPTIONS
              s1 l d1 Hs1 Hl1)
    as (s3 & d3 & H2 & _ & _ & _ & _ & _ & _ & _ & Hno3); [done..|].
  destruct Hno3 as [-> ->]; [by rewrite Hd1|].
  rewrite (get_exemption_lists_run s l s1 s1 s1 Hg H1 H2).
  assert (d1 !! KEY_BOOK_EXEMPTIONS = None) as Hb1 by by rewrite Hd1.
  assert (d1 !! KEY_AUTHOR_EXEMPTIONS = d !! KEY_AUTHOR_EXEMPTIONS) as Ha1
    by by rewrite Hd1.
  assert (∀ i, heap s1 !! i = None → heap s !! i = None) as Hnew.
  { intros i Hi. destruct (heap s !! i) as [o|] eqn:Ho; [|done].
    destruct Hfr1 as (_ & _ & _ & _ & _ & Hheap).
    destruct (decide (i = l)) as [->|Hil]; [congruence|].
    rewrite (Hheap i o Hil Ho) in Hi. done. }
  (* lines 109 to 119 on the default, a new empty list *)
  pose proof (fresh_loc_None (heap s1)) as HfB.
  set (lb := fresh_loc (heap s1)) in *.
  set (s2 := with_heap (<[lb := OList []]> (heap s1)) s1).
  assert (prune_book_exemptions (VRef l) s1 = Ok (VRef lb, s2)) as Hrun.
  { unfold prune_book_exemptions.
    erewrite (bind_run (alloc _)) by reflexivity. fold lb. fold s2.
    erewrite bind_run.
    2:{ apply read_run. unfold py_get. cbn [heap with_heap s2].
        rewrite lookup_insert_ne by (intros <-; congruence).
        by rewrite Hl1, Hb1. }
    cbv beta. simpl default.
    erewrite bind_run.
    2:{ apply read_run. unfold py_len. cbn [heap with_heap s2].
        by rewrite lookup_insert_eq. }
    done. }
  rewrite (bind_run _ _ _ _ _ Hrun). cbv beta.
  erewrite (bind_run (alloc _)) by reflexivity.
  pose proof (fresh_loc_None (heap s2)) as HfA.
  set (la := fresh_loc (heap s2)) in *.
  set (s3 := with_heap (<[la := OList []]> (heap s2)) s2).
  assert (la ≠ lb) as Hab.
  { intros Heq. rewrite Heq in HfA. cbn [heap with_heap s2] in HfA.
    by rewrite lookup_insert_eq in HfA. }
  assert (heap s1 !! la = None) as HfA1.
  { cbn [heap with_heap s2] in HfA. by rewrite lookup_insert_ne in HfA. }
  assert (heap s3 !! l = Some (ODict d1)) as Hl3.
  { cbn [heap with_heap s3 s2].
    rewrite !lookup_insert_ne by (intros <-; congruence). done. }
  erewrite bind_run.
  2:{ apply read_run. unfold py_get. by rewrite Hl3. }
  exists lb, (default (VRef la) (d1 !! KEY_AUTHOR_EXEMPTIONS)), s3, d1.
  split; [done|]. split; [by apply Hnew|]. split.
  { cbn [heap with_heap s3 s2]. rewrite lookup_insert_ne by done.
    by rewrite lookup_insert_eq. }
  split; [done|]. split; [done|]. split; [done|]. split.
  { intros va Hva. by rewrite Ha1, Hva. }
  split.
  { intros Hva. exists la. rewrite Ha1, Hva. split; [done|]. split; [done|].
    split; [by apply Hnew|]. cbn [heap with_heap s3].
    by rewrite lookup_insert_eq. }
  intros Hv. by destruct (Hcur Hv) as (_ & Hw & Hp).
Qed.

Lemma missing_keys_read_as_empty_witness :
  ∃ lb a s' d',
    get_exemption_lists st_bare = Ok ((VRef lb, a), s') ∧
    heap st_bare !! lb = None ∧ heap s' !! lb = Some (OList []) ∧
    heap s' !! 1%positive = Some (ODict d') ∧
    d' !! KEY_BOOK_EXEMPTIONS = None ∧
    d' !! KEY_AUTHOR_EXEMPTIONS
      = (list_to_map [(KEY_LAST_LIBRARY_COMPARE, VStr "");
                      (KEY_SCHEMA_VERSION, VFloat DEFAULT_SCHEMA_VERSION)]
         : gmap string pyval) !! KEY_AUTHOR_EXEMPTIONS ∧
    (∀ va, (list_to_map [(KEY_LAST_LIBRARY_COMPARE, VStr "");
                         (KEY_SCHEMA_VERSION, VFloat DEFAULT_SCHEMA_VERSION)]
            : gmap string pyval) !! KEY_AUTHOR_EXEMPTIONS = Some va →
       a = va) ∧
    ((list_to_map [(KEY_LAST_LIBRARY_COMPARE, VStr "");
                   (KEY_SCHEMA_VERSION, VFloat DEFAULT_SCHEMA_VERSION)]
      : gmap string pyval) !! KEY_AUTHOR_EXEMPTIONS = None →
     ∃ la, a = VRef la ∧ la ≠ lb ∧ heap st_bare !! la = None ∧
       heap s' !! la = Some (OList [])) ∧
    ((∃ v, (list_to_map [(KEY_LAST_LIBRARY_COMPARE, VStr "");
                         (KEY_SCHEMA_VERSION, VFloat DEFAULT_SCHEMA_VERSION)]
            : gmap string pyval) !! KEY_SCHEMA_VERSION = Some v ∧
           py_eq_num v DEFAULT_SCHEMA_VERSION = true) →
     db_writes s' = db_writes st_bare ∧ db_prefs s' = db_prefs st_bare).
Proof.
  apply (missing_keys_read_as_empty st_bare 1
           (list_to_map [(KEY_LAST_LIBRARY_COMPARE, VStr "");
                         (KEY_SCHEMA_VERSION, VFloat DEFAULT_SCHEMA_VERSION)])).
  - vm_compute. reflexivity.
  - vm_compute. reflexivity.
  - vm_compute. reflexivity.
  - vm_compute. reflexivity.
  - vm_compute. reflexivity.
  - vm_compute. reflexivity.
  - vm_compute. reflexivity.
Defined.

(** ** The two calls after the migration of a legacy record *)

(** [get_exemption_lists] after its first line, from a settled library. *)
Lemma get_exemption_lists_from s l s1 d1 b gs va :
  get_library_config s = Ok (VRef l, s1) →
  settled s1 l → heap s1 !! l = Some (ODict d1) →
  d1 !! "bookNotDuplicates" = None →
  d1 !! "authorNotDuplicates" = None →
  d1 !! KEY_BOOK_EXEMPTIONS = Some b →
  groups_of (heap s1) b = Some gs →
  d1 !! KEY_AUTHOR_EXEMPTIONS = Some va →
  ∃ b' s' d',
    get_exemption_lists s = Ok ((b', va), s') ∧
    groups_of (heap s') b' = Some (pruned_groups (db_data s1) gs) ∧
    settled s' l ∧
    heap s' !! l = Some (ODict d') ∧
    d' !! KEY_BOOK_EXEMPTIONS = Some b' ∧
    (∀ k, k ≠ KEY_BOOK_EXEMPTIONS → d' !! k = d1 !! k) ∧
    db_data s' = db_data s1.
Proof.
  intros Hg Hs1 Hl1 Hnb Hna Hb1 Hgs Hva.
  destruct (discard_one_settled "bookNotDuplicates" KEY_BOOK_EXEMPTIONS
              s1 l d1 Hs1 Hl1)
    as (s2 & d2 & H1 & _ & _ & _ & _ & _ & _ & _ & Hno2); [done..|].
  destruct (Hno2 Hnb) as [-> ->].
  destruct (discard_one_settled "authorNotDuplicates" KEY_AUTHOR_EXEMPTIONS
              s1 l d1 Hs1 Hl1)
    as (s3 & d3 & H2 & _ & _ & _ & _ & _ & _ & _ & Hno3); [done..|].
  destruct (Hno3 Hna) as [-> ->].
  rewrite (get_exemption_lists_run s l s1 s1 s1 Hg H1 H2).
  destruct (prune_book_exemptions_run l s1 d1 b gs Hs1 Hl1 Hb1 Hgs)
    as (b' & s2 & d2 & Hrun & Hgs2 & Hl2 & Hb2 & _ & _ & _ & _).
  destruct (prune_book_exemptions_settled l s1 d1 b' s2 Hs1 Hl1 Hrun)
    as (Hs2 & Hdata2 & _ & (d2' & Hl2' & Hd2) & _ & _).
  assert (d2' = d2) as -> by congruence.
  rewrite (bind_run _ _ _ _ _ Hrun). cbv beta.
  erewrite (bind_run (alloc _)) by reflexivity.
  set (s' := with_heap (<[fresh_loc (heap s2) := OList []]> (heap s2)) s2).
  assert (heap s2 ⊆ heap s') as Hsub' by apply alloc_grows.
  erewrite bind_run.
  2:{ apply read_run. unfold py_get.
      rewrite (lookup_weaken _ _ _ _ Hl2 Hsub').
      rewrite Hd2 by done. by rewrite Hva. }
  exists b', s', d2. split; [done|].
  split. { eapply groups_of_kept; [|exact Hgs2]. by apply lists_kept_subseteq. }
  split; [by apply settled_grow|].
  split; [by apply (lookup_weaken _ _ _ _ Hl2 Hsub')|].
  done.
Qed.

Lemma get_library_config_tail_outdated lj dj s :
  heap s !! lj = Some (ODict dj) →
  py_eq_num (default (VInt 0) (dj !! KEY_SCHEMA_VERSION))
    DEFAULT_SCHEMA_VERSION = false →
  get_library_config_tail (VRef lj) s
  = Ok (VRef lj,
        with_db_prefs settings_key (VRef lj)
          (with_heap
             (<[lj := ODict (<[KEY_SCHEMA_VERSION :=
                                 VFloat DEFAULT_SCHEMA_VERSION]> dj)]>
                (heap s)) s)).
Proof.
  intros Hlj Hv. unfold get_library_config_tail. simpl is_None. cbv iota.
  erewrite (bind_run (ret _)) by done.
  erewrite bind_run; [done|]. by apply migrate_outdated.
Qed.

(** X15: the two calls agree after a migration.  When the JSON file (a tree)
    holds for this library a record whose schema version is missing or not
    1.5, without legacy maps and with groups of atoms as book exemptions,
    the first [get_exemption_lists] moves the record to the per-library
    store and returns its pruned groups, and the second call returns the
    same two objects, with the same groups, and writes nothing. *)
Theorem second_call_repeats_first_after_migration (s : state) (ll lj : loc)
    (dl dj : gmap string pyval) (b va : pyval) (gs : list (list pyval)) :
  plugin_prefs s !! "libraries" = Some (VRef ll) →
  heap s !! ll = Some (ODict dl) →
  dl !! library_id s = Some (VRef lj) →
  libraries_apart s = true →
  heap s !! lj = Some (ODict dj) →
  py_eq_num (default (VInt 0) (dj !! KEY_SCHEMA_VERSION))
    DEFAULT_SCHEMA_VERSION = false →
  dj !! "bookNotDuplicates" = None →
  dj !! "authorNotDuplicates" = None →
  dj !! KEY_BOOK_EXEMPTIONS = Some b →
  groups_of (heap s) b = Some gs →
  dj !! KEY_AUTHOR_EXEMPTIONS = Some va →
  ∃ b' s1 s2,
    get_exemption_lists s = Ok ((b', va), s1) ∧
    get_exemption_lists s1 = Ok ((b', va), s2) ∧
    groups_of (heap s1) b' = Some (pruned_groups (db_data s) gs) ∧
    groups_of (heap s2) b' = Some (pruned_groups (db_data s) gs) ∧
    db_prefs s1 !! settings_key = Some (VRef lj) ∧
    legacy_entry s1 = Ok false ∧
    db_writes s2 = db_writes s1 ∧ db_prefs s2 = db_prefs s1 ∧
    plugin_prefs s2 = plugin_prefs s1 ∧ json_commits s2 = json_commits s1 ∧
    heap s1 ⊆ heap s2.
Proof.
  intros Hp Hll HJ Hap Hlj Hv Hnb Hna Hb Hgs Hva.
  assert (lj ≠ ll) as Hne.
  { intros ->. by apply (libraries_apart_entry s ll dl Hap Hp Hll). }
  set (s00 := legacy_removed ll dl s).
  assert (heap s00 !! lj = Some (ODict dj)) as Hlj00.
  { unfold s00, legacy_removed.
    destruct (_ =? _)%nat; simpl; by rewrite lookup_insert_ne. }
  pose proof (get_library_config_legacy s ll dl (VRef lj) Hp Hll HJ) as Hg.
  fold s00 in Hg.
  rewrite (get_library_config_tail_outdated lj dj s00 Hlj00 Hv) in Hg.
  set (s0 := with_db_prefs settings_key (VRef lj) _) in Hg.
  assert (db_prefs s0 !! settings_key = Some (VRef lj)) as Hdb0
    by apply lookup_insert_eq.
  assert (heap s0 !! lj
          = Some (ODict (<[KEY_SCHEMA_VERSION := VFloat DEFAULT_SCHEMA_VERSION]>
                           dj))) as Hlj0 by apply lookup_insert_eq.
  destruct (get_library_config_clears_legacy s _ _ Hap Hg) as [Hleg0 _].
  destruct (get_library_config_lists_kept s _ _ Hg) as [Hk0 Hdata0].
  assert (plugin_prefs s0 !! "libraries" ≠ Some (VRef lj)) as Hne0.
  { change (plugin_prefs s0) with (plugin_prefs s00).
    unfold s00, legacy_removed. destruct (_ =? _)%nat; simpl.
    - by rewrite lookup_delete_eq.
    - rewrite lookup_insert_eq. congruence. }
  assert (settled s0 lj) as Hs0.
  { split; [done|]. split; [done|]. split; [done|].
    eexists _, _. split; [exact Hlj0|]. split; [apply lookup_insert_eq|done]. }
  destruct (get_exemption_lists_from s lj s0 _ b gs va Hg Hs0 Hlj0)
    as (b' & s1 & d1 & Hrun1 & Hgs1 & Hset1 & Hl1 & Hb1 & Hd1 & Hdata1).
  { by rewrite lookup_insert_ne. }
  { by rewrite lookup_insert_ne. }
  { by rewrite lookup_insert_ne. }
  { by eapply groups_of_kept. }
  { by rewrite lookup_insert_ne. }
  rewrite Hdata0 in *.
  destruct Hset1 as (Hleg1 & Hne1 & Hst1 & dd & v & Hdd & Hv1 & Hcur).
  assert (dd = d1) as -> by congruence.
  destruct (get_exemption_lists_groups s1 lj d1 b'
              (pruned_groups (db_data s) gs) va)
    as (b'' & s2 & d2 & Hrun2 & Hgs2 & _ & _ & _ & _ & _ & Hpp2 & Hjc2
        & _ & Hsame); try done.
  { rewrite Hd1 by done. by rewrite lookup_insert_ne. }
  { rewrite Hd1 by done. by rewrite lookup_insert_ne. }
  { rewrite Hd1 by done. by rewrite lookup_insert_ne. }
  rewrite Hdata1 in Hgs2, Hsame.
  rewrite pruned_groups_idempotent in Hgs2.
  destruct (Hsame (pruned_groups_no_stale _ _)) as [-> Hno].
  destruct Hno as (Hw & Hp' & Hsub); [by exists v|].
  by exists b', s1, s2.
Qed.

Lemma second_call_repeats_first_after_migration_witness :
  ∃ b' s1 s2,
    get_exemption_lists st_legacy_old = Ok ((b', VRef 5), s1) ∧
    get_exemption_lists s1 = Ok ((b', VRef 5), s2) ∧
    groups_of (heap s1) b'
      = Some (pruned_groups (db_data st_legacy_old) [[VInt 1; VInt 2]]) ∧
    groups_of (heap s2) b'
      = Some (pruned_groups (db_data st_legacy_old) [[VInt 1; VInt 2]]) ∧
    db_prefs s1 !! settings_key = Some (VRef 2) ∧
    legacy_entry s1 = Ok false ∧
    db_writes s2 = db_writes s1 ∧ db_prefs s2 = db_prefs s1 ∧
    plugin_prefs s2 = plugin_prefs s1 ∧ json_commits s2 = json_commits s1 ∧
    heap s1 ⊆ heap s2.
Proof.
  apply (second_call_repeats_first_after_migration st_legacy_old 1 2
           (list_to_map [(uuid0, VRef 2); ("ffff", VRef 6)])
           (list_to_map [(KEY_BOOK_EXEMPTIONS, VRef 3);
                         (KEY_AUTHOR_EXEMPTIONS, VRef 5)])
           (VRef 3) (VRef 5) [[VInt 1; VInt 2]]).
  - vm_compute. reflexivity.
  - vm_compute. reflexivity.
  - vm_compute. reflexivity.
  - vm_compute. reflexivity.
  - vm_compute. reflexivity.
  - vm_compute. reflexivity.
  - vm_compute. reflexivity.
  - vm_compute. reflexivity.
  - vm_compute. reflexivity.
  - vm_compute. reflexivity.
  - vm_compute. reflexivity.
Defined.

(** ** Book exemptions that are not lists of groups *)

Lemma bind_raise {A B} (m : M A) (k : A → M B) s e :
  m s = Raise e → bind m k s = Raise e.
Proof. unfold bind. by intros ->. Qed.

Lemma py_iter_scalar x h : scalar x = true → py_iter x h = Raise TypeError.
Proof. by destruct x. Qed.

Lemma py_len_scalar x h : scalar x = true → py_len x h = Raise TypeError.
Proof. by destruct x. Qed.

Lemma py_iter_raises x h e : py_iter x h = Raise e → e = TypeError.
Proof.
  destruct x as [| | | | |l]; simpl; try congruence.
  destruct (h !! l) as [[|]|]; congruence.
Qed.

Lemma filterM_has_id_raises xs s e :
  filterM has_id xs s = Raise e → e = TypeError.
Proof.
  induction xs as [|x xs IH]; [done|]. cbn [filterM]. unfold bind at 1.
  destruct (has_id x s) as [[b s1]|e1] eqn:Hx.
  - apply has_id_Ok in Hx as [-> _]. unfold bind.
    destruct (filterM has_id xs s) as [[r s2]|e2]; [done|].
    intros [= <-]. by apply IH.
  - intros [= <-]. unfold has_id in Hx. destruct x; congruence.
Qed.

(** One round of the loop on a list either raises [TypeError] or returns
    with the list changed at [idx] at most. *)
Lemma prune_at_cases lB xs idx c s :
  heap s !! lB = Some (OList xs) → (idx < length xs)%nat →
  prune_at (VRef lB) idx c s = Raise TypeError ∨
  ∃ c' s' xs', prune_at (VRef lB) idx c s = Ok (c', s') ∧
    heap s' !! lB = Some (OList xs') ∧ length xs' = length xs ∧
    ∀ j, j ≠ idx → xs' !! j = xs !! j.
Proof.
  intros HlB Hidx.
  destruct (lookup_lt_is_Some_2 xs idx Hidx) as [x Hx].
  unfold prune_at.
  erewrite bind_run; [|apply read_run; unfold py_index; by rewrite HlB, Hx].
  destruct (py_iter x (heap s)) as [items|e] eqn:Hit.
  2:{ left. apply py_iter_raises in Hit as Heq. subst e.
      apply bind_raise. unfold read. by rewrite Hit. }
  erewrite bind_run; [|by apply read_run].
  destruct (filterM has_id items s) as [[kept s1]|e] eqn:Hf.
  2:{ left. apply filterM_has_id_raises in Hf as Heq. subst e.
      by apply bind_raise. }
  apply filterM_has_id in Hf as Hf'. destruct Hf' as [-> Hkept].
  rewrite (bind_run _ _ _ _ _ Hf). cbv beta.
  erewrite (bind_run (alloc _)) by reflexivity.
  pose proof (fresh_loc_None (heap s)) as Hfresh.
  set (lN := fresh_loc (heap s)) in *.
  assert (lB ≠ lN) as HBN by congruence.
  erewrite bind_run.
  2:{ apply read_run. apply py_len_iter.
      eapply py_iter_weaken; [|exact Hit]. apply alloc_grows. }
  right. destruct (negb _).
  - unfold bind, py_store. cbn [heap with_heap].
    rewrite lookup_insert_ne by done. rewrite HlB.
    rewrite decide_True by done.
    eexists _, _, _. split; [reflexivity|]. cbn [heap with_heap].
    rewrite lookup_insert_eq. split; [done|].
    split; [by rewrite length_insert|].
    intros j Hj. by rewrite list_lookup_insert_ne.
  - eexists _, _, xs. split; [reflexivity|]. cbn [heap with_heap].
    by rewrite lookup_insert_ne.
Qed.

(** The loop raises [TypeError] when one of the elements it visits is a
    scalar, whatever the elements before it are. *)
Lemma prune_loop_raises lB i x idxs : ∀ c s xs,
  heap s !! lB = Some (OList xs) →
  (∀ j, j ∈ idxs → (j < length xs)%nat) →
  NoDup idxs → i ∈ idxs →
  xs !! i = Some x → scalar x = true →
  prune_loop (VRef lB) idxs c s = Raise TypeError.
Proof.
  induction idxs as [|idx idxs IH]; intros c s xs HlB Hlt Hnd Hi Hx Hsc.
  { by apply elem_of_nil in Hi. }
  cbn [prune_loop]. apply NoDup_cons in Hnd as [Hnotin Hnd].
  destruct (decide (idx = i)) as [->|Hne].
  - apply bind_raise. unfold prune_at.
    erewrite bind_run; [|apply read_run; unfold py_index; by rewrite HlB, Hx].
    apply bind_raise. unfold read. by rewrite (py_iter_scalar x _ Hsc).
  - destruct (prune_at_cases lB xs idx c s HlB) as [Hr|(c' & s' & xs' & Hr & HlB' & Hlen & Hsame)].
    { apply Hlt. left. }
    { by apply bind_raise. }
    rewrite (bind_run _ _ _ _ _ Hr).
    apply (IH c' s' xs'); try done.
    + intros j Hj. rewrite Hlen. apply Hlt. by right.
    + apply elem_of_cons in Hi as [->|Hi]; done.
    + rewrite Hsame by done. done.
Qed.

(** X16: book exemptions that are not lists of groups make the call fail.
    In a library whose stored record has no legacy map, [get_exemption_lists]
    raises [TypeError] when 'bookExemptions' holds [None], a boolean or a
    number, and when it holds a list one of whose elements is [None], a
    boolean or a number, whatever the other elements are. *)
Theorem malformed_book_exemptions_raise (s : state) (l : loc)
    (d : gmap string pyval) (b : pyval) :
  legacy_entry s = Ok false →
  libraries_apart s = true →
  db_prefs s !! settings_key = Some (VRef l) →
  heap s !! l = Some (ODict d) →
  d !! "bookNotDuplicates" = None →
  d !! "authorNotDuplicates" = None →
  d !! KEY_BOOK_EXEMPTIONS = Some b →
  scalar b = true ∨
  (∃ lB xs x, b = VRef lB ∧ heap s !! lB = Some (OList xs) ∧
     x ∈ xs ∧ scalar x = true) →
  get_exemption_lists s = Raise TypeError.
Proof.
  intros Hleg Hap Hst Hl Hnb Hna Hb Hbad.
  pose proof (libraries_apart_settled s l Hap Hst) as Hne.
  destruct (get_library_config_stored s l d Hleg Hne Hst Hl)
    as (s1 & d1 & Hg & Hs1 & Hfr1 & Hl1 & Hd1 & _ & _).
  destruct (discard_one_settled "bookNotDuplicates" KEY_BOOK_EXEMPTIONS
              s1 l d1 Hs1 Hl1)
    as (s2 & d2 & H1 & _ & _ & _ & _ & _ & _ & _ & Hno2); [done..|].
  destruct Hno2 as [-> ->]; [by rewrite Hd1|].
  destruct (discard_one_settled "authorNotDuplicates" KEY_AUTHOR_EXEMPTIONS
              s1 l d1 Hs1 Hl1)
    as (s3 & d3 & H2 & _ & _ & _ & _ & _ & _ & _ & Hno3); [done..|].
  destruct Hno3 as [-> ->]; [by rewrite Hd1|].
  rewrite (get_exemption_lists_run s l s1 s1 s1 Hg H1 H2).
  assert (d1 !! KEY_BOOK_EXEMPTIONS = Some b) as Hb1 by by rewrite Hd1.
  apply bind_raise. unfold prune_book_exemptions.
  erewrite (bind_run (alloc _)) by reflexivity.
  pose proof (fresh_loc_None (heap s1)) as HfD.
  set (lD := fresh_loc (heap s1)) in *.
  set (s0 := with_heap (<[lD := OList []]> (heap s1)) s1).
  assert (heap s1 ⊆ heap s0) as Hsub0 by apply alloc_grows.
  erewrite bind_run.
  2:{ apply read_run. unfold py_get.
      rewrite (lookup_weaken _ _ _ _ Hl1 Hsub0). by rewrite Hb1. }
  cbv beta. simpl default.
  destruct Hbad as [Hsc|(lB & xs & x & -> & HlB & Hx & Hsc)].
  - (* len(book_exemptions) *)
    apply bind_raise. unfold read. by rewrite (py_len_scalar b _ Hsc).
  - (* the loop reaches the element *)
    assert (heap s0 !! lB = Some (OList xs)) as HlB0.
    { apply (lookup_weaken (heap s1)); [|done].
      destruct Hfr1 as (_ & _ & _ & _ & _ & Hheap).
      apply Hheap; [|done]. intros ->. congruence. }
    erewrite bind_run; [|apply read_run; unfold py_len; by rewrite HlB0].
    apply bind_raise.
    apply list_elem_of_lookup in Hx as [i Hi].
    apply (prune_loop_raises lB i x _ false s0 xs); try done.
    + intros j [_ Hj]%elem_of_seq. lia.
    + apply NoDup_seq.
    + apply elem_of_seq. apply lookup_lt_Some in Hi. lia.
Qed.

Lemma malformed_book_exemptions_raise_witness :
  get_exemption_lists st_null_group = Raise TypeError.
Proof.
  apply (malformed_book_exemptions_raise st_null_group 1
           (list_to_map [(KEY_BOOK_EXEMPTIONS, VRef 2);
                         (KEY_AUTHOR_EXEMPTIONS, VRef 4);
                         (KEY_SCHEMA_VERSION, VFloat DEFAULT_SCHEMA_VERSION)])
           (VRef 2)).
  - vm_compute. reflexivity.
  - vm_compute. reflexivity.
  - vm_compute. reflexivity.
  - vm_compute. reflexivity.
  - vm_compute. reflexivity.
  - vm_compute. reflexivity.
  - vm_compute. reflexivity.
  - right. exists 2%positive, [VRef 3; VNone], VNone.
    split; [reflexivity|]. split; [vm_compute; reflexivity|].
    split; [|reflexivity]. right. left.
Defined.
